(** * auditwheel: wheel ABI analysis ([auditwheel/wheel_abi.py])

    A shallow embedding of the analysis and aggregation engine of
    [wheel_abi.py] and the verification of its documented properties.

    Conventions of the embedding:
    - a Python [dict] whose iteration order is observable is an association
      list in insertion order ([PyDict]); [d[k] = v] keeps the position of an
      existing key and appends a new one;
    - a [defaultdict(set)] of versioned symbols and a [set] of names, whose
      order is never observed, are [gmap string (gset string)] and
      [gset string];
    - code that can raise returns [result]: [Ok v] or [Raise e];
    - the collaborators imported from [genericpkgctx], [lddtree], [elfutils]
      and [policy] are the fields of the class [Collaborators]. *)

From Stdlib Require Import ZArith Lia String Ascii List.
From stdpp Require Import gmap strings list fin_maps.

Local Open Scope string_scope.
Local Open Scope Z_scope.

(* ===================================================================== *)
(** ** Python dictionaries in insertion order *)
(* ===================================================================== *)

Module PyDict.
Section dict.
Context {V : Type}.

(** [d.get(k)] *)
Fixpoint get (d : list (string * V)) (k : string) : option V :=
  match d with
  | [] => None
  | (k', v) :: d' => if String.eqb k' k then Some v else get d' k
  end.

(** [d[k] = v] *)
Fixpoint set (d : list (string * V)) (k : string) (v : V)
  : list (string * V) :=
  match d with
  | [] => [(k, v)]
  | (k', v') :: d' =>
      if String.eqb k' k then (k', v) :: d' else (k', v') :: set d' k v
  end.

(** [k in d] *)
Definition mem (d : list (string * V)) (k : string) : bool :=
  match get d k with Some _ => true | None => false end.

Definition keys (d : list (string * V)) : list string := map fst d.
Definition values (d : list (string * V)) : list V := map snd d.

(** [dict(items)]: later items overwrite earlier ones in place. *)
Definition of_items (items : list (string * V)) : list (string * V) :=
  fold_left (fun d kv => set d (fst kv) (snd kv)) items [].
End dict.
End PyDict.


(* ===================================================================== *)
(** ** Python values, exceptions and results *)
(* ===================================================================== *)

(** The values [update] can meet: [None], [str], [int], [float] (carried as
    its bit pattern, never computed with), a [Mapping], and anything else
    (a list, a set, ...), which [update] refuses. *)
Inductive pyval : Type :=
| VNone
| VStr (s : string)
| VInt (z : Z)
| VFloat (bits : Z)
| VDict (items : list (string * pyval))
| VOther (repr : string).

Inductive exn : Type :=
| RuntimeError (args : list pyval)
| AttributeError
| TypeError
| KeyError (k : string).

Inductive result (A : Type) : Type :=
| Ok (a : A)
| Raise (e : exn).
Arguments Ok {A} a.
Arguments Raise {A} e.

Definition bind {A B : Type} (m : result A) (f : A -> result B) : result B :=
  match m with
  | Ok a => f a
  | Raise e => Raise e
  end.

Declare Scope result_scope.
Delimit Scope result_scope with result.
Notation "x <- m ;; k" := (bind m (fun x => k))
  (at level 100, m at next level, right associativity) : result_scope.
Local Open Scope result_scope.

(** A [for] loop whose body can raise. *)
Fixpoint for_each {S X : Type} (body : S -> X -> result S) (xs : list X)
  (s : S) : result S :=
  match xs with
  | [] => Ok s
  | x :: xs' => s' <- body s x ;; for_each body xs' s'
  end.

(* ===================================================================== *)
(** ** [update]: the deep merge (wheel_abi.py, lines 226-235) *)
(* ===================================================================== *)

(** [d[k] = v] on a Python object: only a dict supports item assignment. *)
Definition setitem (d : pyval) (k : string) (v : pyval) : result pyval :=
  match d with
  | VDict di => Ok (VDict (PyDict.set di k v))
  | _ => Raise TypeError
  end.

(** [d.get(k, {})]: only a dict has [get]. *)
Definition get_or_empty (d : pyval) (k : string) : result pyval :=
  match d with
  | VDict di => Ok (default (VDict []) (PyDict.get di k))
  | _ => Raise AttributeError
  end.

(** [update(d, u)].  [u.items()] needs [u] to be a mapping; the loop treats
    each [(k, v)] by the shape of [v]. *)
Fixpoint update (d u : pyval) {struct u} : result pyval :=
  match u with
  | VDict ui =>
      (fix loop (ui : list (string * pyval)) (d : pyval) {struct ui}
         : result pyval :=
         match ui with
         | [] => Ok d
         | (k, v) :: ui' =>
             match v with
             | VDict _ =>
                 d0 <- get_or_empty d k ;;
                 r <- update d0 v ;;
                 d' <- setitem d k r ;;
                 loop ui' d'
             | VNone | VStr _ | VInt _ | VFloat _ =>
                 d' <- setitem d k v ;;
                 loop ui' d'
             | VOther _ => Raise (RuntimeError [VStr "!"; d; VStr k])
             end
         end) ui d
  | _ => Raise AttributeError
  end.

(** One iteration of the loop of [update]. *)
Definition update_step (d : pyval) (kv : string * pyval) : result pyval :=
  let '(k, v) := kv in
  match v with
  | VDict _ =>
      d0 <- get_or_empty d k ;;
      r <- update d0 v ;;
      setitem d k r
  | VNone | VStr _ | VInt _ | VFloat _ => setitem d k v
  | VOther _ => Raise (RuntimeError [VStr "!"; d; VStr k])
  end.

(** The values [update] copies as they are (line 231). *)
Definition is_scalar (v : pyval) : bool :=
  match v with
  | VNone | VStr _ | VInt _ | VFloat _ => true
  | VDict _ | VOther _ => false
  end.

(* ===================================================================== *)
(** ** Paths *)
(* ===================================================================== *)

(** [os.sep] (auditwheel runs on Linux). *)
Definition os_sep : ascii := "/"%char.

(** [s.split(sep)] for a one-character separator: every occurrence cuts,
    empty components are kept, the result is never empty. *)
Fixpoint split (sep : ascii) (s : string) : list string :=
  match s with
  | EmptyString => [EmptyString]
  | String c s' =>
      if Ascii.eqb c sep then EmptyString :: split sep s'
      else match split sep s' with
           | [] => [String c EmptyString]
           | w :: ws => String c w :: ws
           end
  end.

(** [l[-1]] of a non-empty list of strings. *)
Definition last_component (l : list string) : string := List.last l EmptyString.

(** [os.path.basename(p)]: [p[p.rfind('/') + 1:]], the text after the last
    separator. *)
Definition basename (p : string) : string := last_component (split os_sep p).

(** [x in l] for a list of strings. *)
Definition str_in (x : string) (l : list string) : bool :=
  existsb (String.eqb x) l.

Definition dquote : string := String "034"%char EmptyString.
Definition newline : string := String "010"%char EmptyString.

(** The message of the [RuntimeError] of lines 50-55. *)
Definition purelib_message (so_name : string) : string :=
  "Invalid binary wheel, found shared library " +:+ dquote +:+ so_name
  +:+ dquote +:+ " in purelib folder." +:+ newline
  +:+ "The wheel has to be platlib compliant in order to be repaired by "
  +:+ "auditwheel.".

(* ===================================================================== *)
(** ** Data *)
(* ===================================================================== *)

(** A versioned-symbol set [{depname: set(symbol_version)}] is a
    [gmap string (gset string)]. *)

(** [versioned_symbols[key].add(value)] on a [defaultdict(set)]. *)
Definition add_symbol (m : gmap string (gset string)) (key value : string)
  : gmap string (gset string) :=
  <[key := {[value]} ∪ default ∅ (m !! key)]> m.

(** [for key, value in pairs: m[key].add(value)] *)
Definition add_symbols (m : gmap string (gset string))
  (pairs : list (string * string)) : gmap string (gset string) :=
  fold_left (fun m kv => add_symbol m (fst kv) (snd kv)) pairs m.

(** [for k in iter(ext): m[k].update(ext[k])] on a [defaultdict(set)]: every
    key of [ext] gets the union of both sets, created when absent. *)
Definition update_symbols (m ext : gmap string (gset string))
  : gmap string (gset string) :=
  union_with (fun a b => Some (a ∪ b)) m ext.

(** One policy's entry of [external_refs]:
    [{'libs': {soname: realpath}, 'priority': p}]; a real path is a [str]
    or [None]. *)
Record policy_refs : Type := {
  libs : list (string * option string);
  priority : Z
}.

(** A policy of the catalog, as far as this module reads it:
    [p['name']], [p['priority']]. *)
Record policy : Type := {
  policy_name : string;
  policy_priority : Z
}.

(** What [InGenericPkgCtx(wheel_fn)] gives: [ctx.iter_files()], [ctx.path]. *)
Record pkgctx : Type := {
  iter_files : list string;
  path : string
}.

(** The truth value of a real path in [if realpath]: a non-empty [str]. *)
Definition truthy (realpath : option string) : bool :=
  match realpath with
  | Some s => negb (String.eqb s EmptyString)
  | None => false
  end.

(* ===================================================================== *)
(** ** Collaborators (imports of wheel_abi.py, lines 10-17) *)
(* ===================================================================== *)

Class Collaborators (ELFFile elftree : Type) : Type := {
  (** [genericpkgctx.InGenericPkgCtx] *)
  InGenericPkgCtx : string -> pkgctx;
  (** opening a path as an ELF file, for [elf_file_filter] *)
  elf_open : string -> option ELFFile;
  (** [lddtree.lddtree] and the ['needed'] entry of its result *)
  lddtree : string -> elftree;
  needed : elftree -> list string;
  (** [elfutils] *)
  elf_find_versioned_symbols : ELFFile -> list (string * string);
  elf_find_ucs2_symbols : ELFFile -> list string;
  elf_is_python_extension : string -> ELFFile -> bool * option Z;
  (** the names of the imported (undefined) dynamic symbols *)
  elf_imported_symbols : ELFFile -> list string;
  (** [policy] *)
  lddtree_external_references : elftree -> string -> list (string * policy_refs);
  versioned_symbols_policy : gmap string (gset string) -> Z;
  get_policy_name : Z -> option string;
  POLICY_PRIORITY_LOWEST : Z;
  POLICY_PRIORITY_HIGHEST : Z;
  load_policies : list policy
}.

(** The state of the loop of [get_wheel_elfdata] (lines 35-40). *)
Module ElfData.
Record t (elftree : Type) : Type := {
  full_elftree : list (string * elftree);
  nonpy_elftree : list (string * elftree);
  full_external_refs : list (string * list (string * policy_refs));
  versioned_symbols : gmap string (gset string);
  uses_ucs2_symbols : bool;
  uses_PyFPE_jbuf : bool
}.
Arguments full_elftree {elftree} _.
Arguments nonpy_elftree {elftree} _.
Arguments full_external_refs {elftree} _.
Arguments versioned_symbols {elftree} _.
Arguments uses_ucs2_symbols {elftree} _.
Arguments uses_PyFPE_jbuf {elftree} _.

Definition init {elftree : Type} : t elftree :=
  {| full_elftree := []; nonpy_elftree := []; full_external_refs := [];
     versioned_symbols := ∅; uses_ucs2_symbols := false;
     uses_PyFPE_jbuf := false |}.
End ElfData.

(** The result of [analyze_wheel_abi]. *)
Record WheelAbIInfo : Type := {
  overall_tag : option string;
  external_refs : list (string * policy_refs);
  ref_tag : option string;
  versioned_symbols : gmap string (gset string);
  sym_tag : option string;
  ucs_tag : option string;
  pyfpe_tag : option string
}.

(** The priorities [analyze_wheel_abi] computes before it names them
    (its locals at line 214). *)
Record AbiPolicies : Type := {
  symbol_policy : Z;
  ref_policy : Z;
  ucs_policy : Z;
  pyfpe_policy : Z
}.

(** [max(items, key=key, default=default)]: the first of the greatest. *)
Definition py_max_by {A : Type} (key : A -> Z) (items : list A) (default : A)
  : A :=
  match items with
  | [] => default
  | x :: xs => fold_left (fun m y => if key m <? key y then y else m) xs x
  end.

(** [min(a, b, c, d)]: the first of the smallest. *)
Definition py_min4 (a b c d : Z) : Z :=
  fold_left (fun m y => if y <? m then y else m) [b; c; d] a.

(** [any(iterable)] *)
Definition any (l : list bool) : bool := existsb (fun b => b) l.

(* ===================================================================== *)
(** ** The shape of [external_refs] as Python values *)
(* ===================================================================== *)

Definition enc_path (realpath : option string) : pyval :=
  match realpath with
  | None => VNone
  | Some s => VStr s
  end.

Definition enc_libs (l : list (string * option string)) : pyval :=
  VDict (map (fun kv => (fst kv, enc_path (snd kv))) l).

Definition enc_policy (e : policy_refs) : pyval :=
  VDict [("libs", enc_libs (libs e)); ("priority", VInt (priority e))].

Definition enc_refs (refs : list (string * policy_refs)) : pyval :=
  VDict (map (fun kv => (fst kv, enc_policy (snd kv))) refs).

Definition dec_path (v : pyval) : option (option string) :=
  match v with
  | VNone => Some None
  | VStr s => Some (Some s)
  | _ => None
  end.

Fixpoint dec_items {A : Type} (dec : pyval -> option A)
  (items : list (string * pyval)) : option (list (string * A)) :=
  match items with
  | [] => Some []
  | (k, v) :: items' =>
      match dec v, dec_items dec items' with
      | Some a, Some r => Some ((k, a) :: r)
      | _, _ => None
      end
  end.

Definition dec_policy (v : pyval) : option policy_refs :=
  match v with
  | VDict [(k1, VDict l); (k2, VInt p)] =>
      if String.eqb k1 "libs" && String.eqb k2 "priority"
      then match dec_items dec_path l with
           | Some l' => Some {| libs := l'; priority := p |}
           | None => None
           end
      else None
  | _ => None
  end.

(** Reading a merged value back as [external_refs]; a value of another
    shape would fail at its first subscript ([policy['libs']],
    [policy['priority']]). *)
Definition dec_refs (v : pyval) : result (list (string * policy_refs)) :=
  match v with
  | VDict items =>
      match dec_items dec_policy items with
      | Some r => Ok r
      | None => Raise TypeError
      end
  | _ => Raise TypeError
  end.

(** [update] at the shape of [external_refs]: what the deep merge computes
    there (see [update_enc_refs]). *)
Definition update_libs (d u : list (string * option string))
  : list (string * option string) :=
  fold_left (fun d kv => PyDict.set d (fst kv) (snd kv)) u d.

Definition update_policy (d : option policy_refs) (u : policy_refs)
  : policy_refs :=
  {| libs := update_libs (match d with Some e => libs e | None => [] end)
                         (libs u);
     priority := priority u |}.

Definition update_refs (d u : list (string * policy_refs))
  : list (string * policy_refs) :=
  fold_left (fun d kv =>
               PyDict.set d (fst kv) (update_policy (PyDict.get d (fst kv))
                                                    (snd kv)))
            u d.

(* ===================================================================== *)
(** ** The analysis *)
(* ===================================================================== *)

Section Analysis.
Context {ELFFile elftree : Type} {C : Collaborators ELFFile elftree}.

(** Modelled from the spec: [elfutils.elf_file_filter], which is not part
    of this module.  "ELF predicate/filter: given a path, returns whether
    it is ELF-formatted and, if so, an opaque handle for further
    inspection": the paths that open as ELF, in order, with their
    handles. *)
Definition elf_file_filter (paths : list string)
  : list (string * ELFFile) :=
  flat_map (fun p => match elf_open p with
                     | Some elf => [(p, elf)]
                     | None => []
                     end) paths.

(** Modelled from the spec: [elfutils.elf_references_PyFPE_jbuf], which is
    not part of this module.  "Detect references to the
    floating-point-exception-buffer symbol by exact name match against the
    object's imported symbol table." *)
Definition elf_references_PyFPE_jbuf (elf : ELFFile) : bool :=
  str_in "PyFPE_jbuf" (elf_imported_symbols elf).

(** The body of the loop of [get_wheel_elfdata] (lines 43-79). *)
Definition scan_file (ctx : pkgctx) (st : ElfData.t elftree)
  (item : string * ELFFile) : result (ElfData.t elftree) :=
  let '(fn, elf) := item in
  let '(is_py_ext, py_ver) := elf_is_python_extension fn elf in
  let so_path_split := split os_sep fn in
  if str_in "purelib" so_path_split then
    Raise (RuntimeError
             [VStr (purelib_message (last_component so_path_split))])
  else
    let tree := lddtree fn in
    let versioned_symbols :=
      add_symbols (ElfData.versioned_symbols st)
                  (elf_find_versioned_symbols elf) in
    if is_py_ext then
      Ok {| ElfData.full_elftree :=
              PyDict.set (ElfData.full_elftree st) fn tree;
            ElfData.nonpy_elftree := ElfData.nonpy_elftree st;
            ElfData.full_external_refs :=
              PyDict.set (ElfData.full_external_refs st) fn
                         (lddtree_external_references tree (path ctx));
            ElfData.versioned_symbols := versioned_symbols;
            ElfData.uses_ucs2_symbols :=
              match py_ver with
              | Some 2 =>
                  ElfData.uses_ucs2_symbols st
                  || any (map (fun _ => true) (elf_find_ucs2_symbols elf))
              | _ => ElfData.uses_ucs2_symbols st
              end;
            ElfData.uses_PyFPE_jbuf :=
              ElfData.uses_PyFPE_jbuf st || elf_references_PyFPE_jbuf elf
         |}
    else
      Ok {| ElfData.full_elftree := ElfData.full_elftree st;
            ElfData.nonpy_elftree :=
              PyDict.set (ElfData.nonpy_elftree st) fn tree;
            ElfData.full_external_refs := ElfData.full_external_refs st;
            ElfData.versioned_symbols := versioned_symbols;
            ElfData.uses_ucs2_symbols := ElfData.uses_ucs2_symbols st;
            ElfData.uses_PyFPE_jbuf := ElfData.uses_PyFPE_jbuf st |}.

(** [needed_libs] (lines 82-87). *)
Definition needed_libs (st : ElfData.t elftree) : gset string :=
  list_to_set
    (flat_map needed (PyDict.values (ElfData.full_elftree st)
                      ++ PyDict.values (ElfData.nonpy_elftree st))).

(** The body of the second loop (lines 89-96). *)
Definition promote (ctx : pkgctx) (libs_needed : gset string)
  (st : ElfData.t elftree) (item : string * elftree) : ElfData.t elftree :=
  let '(fn, tree) := item in
  if bool_decide (basename fn ∈ libs_needed) then st
  else
    {| ElfData.full_elftree := PyDict.set (ElfData.full_elftree st) fn tree;
       ElfData.nonpy_elftree := ElfData.nonpy_elftree st;
       ElfData.full_external_refs :=
         PyDict.set (ElfData.full_external_refs st) fn
                    (lddtree_external_references tree (path ctx));
       ElfData.versioned_symbols := ElfData.versioned_symbols st;
       ElfData.uses_ucs2_symbols := ElfData.uses_ucs2_symbols st;
       ElfData.uses_PyFPE_jbuf := ElfData.uses_PyFPE_jbuf st |}.

(** The state of [get_wheel_elfdata] when it returns. *)
Definition scan_wheel (wheel_fn : string) : result (ElfData.t elftree) :=
  let ctx := InGenericPkgCtx wheel_fn in
  st <- for_each (scan_file ctx) (elf_file_filter (iter_files ctx))
                 ElfData.init ;;
  Ok (fold_left (promote ctx (needed_libs st)) (ElfData.nonpy_elftree st)
                st).

(** [get_wheel_elfdata] (lines 34-101), without its cache (see
    [LruCache]). *)
Definition get_wheel_elfdata (wheel_fn : string)
  : result (list (string * elftree)
            * list (string * list (string * policy_refs))
            * gmap string (gset string) * bool * bool) :=
  st <- scan_wheel wheel_fn ;;
  Ok (ElfData.full_elftree st, ElfData.full_external_refs st,
      ElfData.versioned_symbols st, ElfData.uses_ucs2_symbols st,
      ElfData.uses_PyFPE_jbuf st).

(** [get_external_libs] (lines 104-120). *)
Definition get_external_libs (external_refs : list (string * policy_refs))
  : list (string * string) :=
  fold_left
    (fun result policy =>
       if priority policy =? 0 then result
       else
         fold_left
           (fun result item =>
              let '(libname, realpath) := item in
              match realpath with
              | Some rp =>
                  if truthy realpath && negb (PyDict.mem result rp)
                  then PyDict.set result rp libname
                  else result
              | None => result
              end)
           (libs policy) result)
    (PyDict.values external_refs) [].

(** [get_versioned_symbols] (lines 123-139). *)
Definition get_versioned_symbols (libs : list (string * string))
  : result (gmap string (gmap string (gset string))) :=
  for_each
    (fun result item =>
       let '(path, elf) := item in
       let elf_versioned_symbols :=
         add_symbols ∅ (elf_find_versioned_symbols elf) in
       match PyDict.get libs path with
       | Some soname => Ok (<[soname := elf_versioned_symbols]> result)
       | None => Raise (KeyError path)
       end)
    (elf_file_filter (PyDict.keys libs)) ∅.

(** The symbols of one policy (lines 158-164). *)
Definition policy_symbols (versioned_symbols : gmap string (gset string))
  (external_versioned_symbols : gmap string (gmap string (gset string)))
  (policy : policy_refs) : gmap string (gset string) :=
  fold_left
    (fun policy_symbols soname =>
       match external_versioned_symbols !! soname with
       | None => policy_symbols
       | Some ext_symbols => update_symbols policy_symbols ext_symbols
       end)
    (PyDict.keys (libs policy)) versioned_symbols.

(** [get_symbol_policies] (lines 142-167). *)
Definition get_symbol_policies
  (versioned_symbols : gmap string (gset string))
  (external_versioned_symbols : gmap string (gmap string (gset string)))
  (external_refs : list (string * policy_refs))
  : list (Z * gmap string (gset string)) :=
  fold_left
    (fun result policy =>
       if priority policy =? 0 then result
       else
         let ps := policy_symbols versioned_symbols
                                  external_versioned_symbols policy in
         (result ++ [(versioned_symbols_policy ps, ps)])%list)
    (PyDict.values external_refs) [].

(** [update(external_refs, u)] at line 181: the deep merge, on the Python
    values of both arguments. *)
Definition merge_refs (external_refs u : list (string * policy_refs))
  : result (list (string * policy_refs)) :=
  r <- update (enc_refs external_refs) (enc_refs u) ;;
  dec_refs r.

(** [external_refs] as first built (lines 171-175). *)
Definition initial_external_refs : list (string * policy_refs) :=
  PyDict.of_items
    (map (fun p => (policy_name p,
                    {| libs := []; priority := policy_priority p |}))
         load_policies).

(** The loop of lines 180-181. *)
Definition collect_external_refs
  (elftree_by_fn : list (string * elftree))
  (external_refs_by_fn : list (string * list (string * policy_refs)))
  : result (list (string * policy_refs)) :=
  for_each
    (fun external_refs fn =>
       match PyDict.get external_refs_by_fn fn with
       | Some u => merge_refs external_refs u
       | None => Raise (KeyError fn)
       end)
    (PyDict.keys elftree_by_fn) initial_external_refs.

(** Lines 186-199: the symbol policy and the symbols it was computed
    from. *)
Definition select_symbol_policy
  (versioned_symbols : gmap string (gset string))
  (external_refs : list (string * policy_refs))
  : result (Z * gmap string (gset string)) :=
  let external_libs := get_external_libs external_refs in
  external_versioned_symbols <- get_versioned_symbols external_libs ;;
  let symbol_policies :=
    get_symbol_policies versioned_symbols external_versioned_symbols
                        external_refs in
  let symbol_policy := versioned_symbols_policy versioned_symbols in
  Ok (py_max_by fst symbol_policies (symbol_policy, versioned_symbols)).

(** Lines 201-203. *)
Definition select_ref_policy (external_refs : list (string * policy_refs))
  : Z :=
  py_max_by (fun x => x)
    (map priority
         (filter (fun e => (length (libs e) =? 0)%nat)
                 (PyDict.values external_refs)))
    POLICY_PRIORITY_LOWEST.

(** [analyze_wheel_abi] from line 180 to line 213, on what the call of
    [get_wheel_elfdata] at line 178 returned: the merged references, the
    symbols and the four priorities. *)
Definition analyze_policies_of
  (data : list (string * elftree)
          * list (string * list (string * policy_refs))
          * gmap string (gset string) * bool * bool)
  : result (list (string * policy_refs) * gmap string (gset string)
            * AbiPolicies) :=
  let '(elftree_by_fn, external_refs_by_fn, versioned_symbols, has_ucs2,
        uses_PyFPE_jbuf) := data in
  external_refs <- collect_external_refs elftree_by_fn
                                         external_refs_by_fn ;;
  sym <- select_symbol_policy versioned_symbols external_refs ;;
  let '(symbol_policy, versioned_symbols) := sym in
  let ref_policy := select_ref_policy external_refs in
  let ucs_policy :=
    if has_ucs2 then POLICY_PRIORITY_LOWEST
    else POLICY_PRIORITY_HIGHEST in
  let pyfpe_policy :=
    if uses_PyFPE_jbuf then POLICY_PRIORITY_LOWEST
    else POLICY_PRIORITY_HIGHEST in
  Ok (external_refs, versioned_symbols,
      {| symbol_policy := symbol_policy; ref_policy := ref_policy;
         ucs_policy := ucs_policy; pyfpe_policy := pyfpe_policy |}).

(** Lines 215-223: the priorities named. *)
Definition name_policies
  (r : list (string * policy_refs) * gmap string (gset string)
       * AbiPolicies) : WheelAbIInfo :=
  let '(external_refs, versioned_symbols, p) := r in
  {| overall_tag :=
       get_policy_name (py_min4 (symbol_policy p) (ref_policy p)
                                (ucs_policy p) (pyfpe_policy p));
     external_refs := external_refs;
     ref_tag := get_policy_name (ref_policy p);
     versioned_symbols := versioned_symbols;
     sym_tag := get_policy_name (symbol_policy p);
     ucs_tag := get_policy_name (ucs_policy p);
     pyfpe_tag := get_policy_name (pyfpe_policy p) |}.

(** [analyze_wheel_abi] when [get_wheel_elfdata] is computed (a first
    call for this path): the priorities, and the verdict
    (lines 170-223). *)
Definition analyze_policies (wheel_fn : string)
  : result (list (string * policy_refs) * gmap string (gset string)
            * AbiPolicies) :=
  data <- get_wheel_elfdata wheel_fn ;;
  analyze_policies_of data.

Definition analyze_wheel_abi (wheel_fn : string) : result WheelAbIInfo :=
  r <- analyze_policies wheel_fn ;;
  Ok (name_policies r).
End Analysis.

(* ===================================================================== *)
(** ** [functools.lru_cache()] around [get_wheel_elfdata] (line 33) *)
(* ===================================================================== *)

(** The cache of [functools.lru_cache()]: [maxsize=128], keyed by the
    argument of the call, most recently used first.  A hit returns the
    stored result and moves it to the front; a miss calls the function,
    stores a returned result (an exception is not stored) and, when the
    cache is full, drops the least recently used entry. *)
Module LruCache.
Definition maxsize : nat := 128.

Section cache.
Context {V : Type}.

Definition remove (key : string) (cache : list (string * V))
  : list (string * V) :=
  filter (fun kv => negb (String.eqb (fst kv) key)) cache.

Definition call (f : string -> result V) (cache : list (string * V))
  (key : string) : result V * list (string * V) :=
  match PyDict.get cache key with
  | Some r => (Ok r, (key, r) :: remove key cache)
  | None =>
      match f key with
      | Ok r =>
          (Ok r,
           (key, r) :: (if (length cache <? maxsize)%nat then cache
                        else removelast cache))
      | Raise e => (Raise e, cache)
      end
  end.
End cache.
End LruCache.

(** The decorated [get_wheel_elfdata]: the collaborators [C] stand for the
    file system at the time of the call. *)
Definition get_wheel_elfdata_cached {ELFFile elftree : Type}
  (C : Collaborators ELFFile elftree)
  (cache : list (string * (list (string * elftree)
                           * list (string * list (string * policy_refs))
                           * gmap string (gset string) * bool * bool)))
  (wheel_fn : string) :=
  LruCache.call (@get_wheel_elfdata _ _ C) cache wheel_fn.

(** [analyze_wheel_abi] in a process with a cache. *)
Definition analyze_wheel_abi_cached {ELFFile elftree : Type}
  (C : Collaborators ELFFile elftree)
  (cache : list (string * (list (string * elftree)
                           * list (string * list (string * policy_refs))
                           * gmap string (gset string) * bool * bool)))
  (wheel_fn : string) :=
  let '(data, cache') := get_wheel_elfdata_cached C cache wheel_fn in
  (d <- data ;; r <- analyze_policies_of d ;; Ok (name_policies r), cache').

(** An ELF file of the package is under [purelib] (line 49). *)
Definition misplaced_file {ELFFile : Type} (item : string * ELFFile) : bool :=
  str_in "purelib" (split os_sep (fst item)).

(** Every tree stored under a path is the tree of that path. *)
Definition trees_of_paths {ELFFile elftree : Type}
  {C : Collaborators ELFFile elftree} (d : list (string * elftree)) : Prop :=
  forall f t, In (f, t) d -> t = lddtree f.

(** The references stored under a path are those of the tree of that
    path. *)
Definition refs_of_paths {ELFFile elftree : Type}
  {C : Collaborators ELFFile elftree} (ctx : pkgctx)
  (d : list (string * list (string * policy_refs))) : Prop :=
  forall f r, In (f, r) d ->
              r = lddtree_external_references (lddtree f) (path ctx).

(** One turn of the inner loop of [get_external_libs] (lines 117-119). *)
Definition add_lib (result : list (string * string))
  (item : string * option string) : list (string * string) :=
  let '(libname, realpath) := item in
  match realpath with
  | Some rp =>
      if truthy realpath && negb (PyDict.mem result rp)
      then PyDict.set result rp libname
      else result
  | None => result
  end.

(** One turn of the outer loop of [get_external_libs] (lines 112-119). *)
Definition add_policy_libs (result : list (string * string))
  (policy : policy_refs) : list (string * string) :=
  if priority policy =? 0 then result
  else fold_left add_lib (libs policy) result.

(** The items [get_external_libs] visits, in the order it visits them: for
    each policy whose priority is not 0, in the order of [external_refs],
    the items of its [libs] (lines 112-117). *)
Definition declared_libs (external_refs : list (string * policy_refs))
  : list (string * option string) :=
  flat_map (fun policy => if priority policy =? 0 then [] else libs policy)
           (PyDict.values external_refs).

(** Whether an ELF file of the package is a Python extension module
    (line 44, tested at line 66). *)
Definition is_extension {ELFFile elftree : Type}
  {C : Collaborators ELFFile elftree} (item : string * ELFFile) : bool :=
  fst (elf_is_python_extension (fst item) (snd item)).

(** One iteration of the loop of [get_versioned_symbols] when the lookup
    [libs[path]] succeeds. *)
Definition rescan_step {ELFFile elftree : Type}
  {C : Collaborators ELFFile elftree} (libs : list (string * string))
  (result : gmap string (gmap string (gset string)))
  (item : string * ELFFile) : gmap string (gmap string (gset string)) :=
  <[default EmptyString (PyDict.get libs (fst item)) :=
      add_symbols ∅ (elf_find_versioned_symbols (snd item))]> result.

(** The references [u] of one object name [soname] for [policy]. *)
Definition declares (u : list (string * policy_refs)) (policy soname : string)
  : bool :=
  match PyDict.get u policy with
  | Some e => PyDict.mem (libs e) soname
  | None => false
  end.

(** The top-level objects whose references name [soname] for [policy]. *)
Definition visits
  (external_refs_by_fn : list (string * list (string * policy_refs)))
  (policy soname : string) : list string :=
  map fst (filter (fun kv => declares (snd kv) policy soname)
                  external_refs_by_fn).

(** [refs[policy]['libs']], empty when the policy has no entry. *)
Definition libs_of (refs : list (string * policy_refs)) (policy : string)
  : list (string * option string) :=
  match PyDict.get refs policy with
  | Some e => libs e
  | None => []
  end.

(** References as [lddtree_external_references] returns them: dictionaries,
    so no key twice. *)
Definition refs_dict (u : list (string * policy_refs)) : Prop :=
  NoDup (PyDict.keys u)
  /\ forall policy e, In (policy, e) u -> NoDup (PyDict.keys (libs e)).

(** The same collaborators with other versioned symbols in the ELF files:
    the files of a package rebuilt with more symbol requirements. *)
Definition with_versioned_symbols {ELFFile elftree : Type}
  (C : Collaborators ELFFile elftree)
  (f : ELFFile -> list (string * string)) : Collaborators ELFFile elftree :=
  {| InGenericPkgCtx := @InGenericPkgCtx _ _ C;
     elf_open := @elf_open _ _ C;
     lddtree := @lddtree _ _ C;
     needed := @needed _ _ C;
     elf_find_versioned_symbols := f;
     elf_find_ucs2_symbols := @elf_find_ucs2_symbols _ _ C;
     elf_is_python_extension := @elf_is_python_extension _ _ C;
     elf_imported_symbols := @elf_imported_symbols _ _ C;
     lddtree_external_references := @lddtree_external_references _ _ C;
     versioned_symbols_policy := @versioned_symbols_policy _ _ C;
     get_policy_name := @get_policy_name _ _ C;
     POLICY_PRIORITY_LOWEST := @POLICY_PRIORITY_LOWEST _ _ C;
     POLICY_PRIORITY_HIGHEST := @POLICY_PRIORITY_HIGHEST _ _ C;
     load_policies := @load_policies _ _ C |}.

(** The same collaborators with another priority-from-symbols function. *)
Definition with_symbols_policy {ELFFile elftree : Type}
  (C : Collaborators ELFFile elftree)
  (f : gmap string (gset string) -> Z) : Collaborators ELFFile elftree :=
  {| InGenericPkgCtx := @InGenericPkgCtx _ _ C;
     elf_open := @elf_open _ _ C;
     lddtree := @lddtree _ _ C;
     needed := @needed _ _ C;
     elf_find_versioned_symbols := @elf_find_versioned_symbols _ _ C;
     elf_find_ucs2_symbols := @elf_find_ucs2_symbols _ _ C;
     elf_is_python_extension := @elf_is_python_extension _ _ C;
     elf_imported_symbols := @elf_imported_symbols _ _ C;
     lddtree_external_references := @lddtree_external_references _ _ C;
     versioned_symbols_policy := f;
     get_policy_name := @get_policy_name _ _ C;
     POLICY_PRIORITY_LOWEST := @POLICY_PRIORITY_LOWEST _ _ C;
     POLICY_PRIORITY_HIGHEST := @POLICY_PRIORITY_HIGHEST _ _ C;
     load_policies := @load_policies _ _ C |}.

(** Inclusion of versioned-symbol sets: every requirement of [a] is one of
    [b]. *)
Definition vs_incl (a b : gmap string (gset string)) : Prop :=
  forall k s, a !! k = Some s -> exists s', b !! k = Some s' /\ s ⊆ s'.

(** Two states of the scan that differ at most by their versioned symbols,
    the second having at least those of the first. *)
Definition same_but_symbols {elftree : Type} (st st' : ElfData.t elftree)
  : Prop :=
  ElfData.full_elftree st = ElfData.full_elftree st'
  /\ ElfData.nonpy_elftree st = ElfData.nonpy_elftree st'
  /\ ElfData.full_external_refs st = ElfData.full_external_refs st'
  /\ ElfData.uses_ucs2_symbols st = ElfData.uses_ucs2_symbols st'
  /\ ElfData.uses_PyFPE_jbuf st = ElfData.uses_PyFPE_jbuf st'
  /\ vs_incl (ElfData.versioned_symbols st) (ElfData.versioned_symbols st').

(** The order in which a priority-from-symbols function is monotonic:
    [x <= y] when it is increasing, [y <= x] when it is decreasing. *)
Definition priority_order (increasing : bool) (x y : Z) : Prop :=
  if increasing then x <= y else y <= x.

(** The symbols found by the re-scan of the external libraries are
    included name by name. *)
Definition rescan_incl (r r' : gmap string (gmap string (gset string)))
  : Prop :=
  forall soname, option_Forall2 vs_incl (r !! soname) (r' !! soname).

(* ===================================================================== *)
(** ** Concrete file systems *)
(* ===================================================================== *)

(** Collaborators given by tables: one entry per ELF file of the file
    system, a small policy catalog, and a priority-from-symbols function in
    the manner of [policy.versioned_symbols_policy] (the highest priority
    among the policies whose allowed versions cover the requirements). *)
Module Example.

Record elf_entry : Type := {
  e_path : string;
  e_is_py_ext : bool;
  e_py_ver : option Z;
  e_versioned : list (string * string);
  e_imported : list string;
  e_ucs2 : list string;
  e_needed : list string;
  e_refs : list (string * policy_refs)
}.

Definition not_elf (p : string) : elf_entry :=
  {| e_path := p; e_is_py_ext := false; e_py_ver := None; e_versioned := [];
     e_imported := []; e_ucs2 := []; e_needed := []; e_refs := [] |}.

Definition find_entry (files : list elf_entry) (p : string)
  : option elf_entry :=
  List.find (fun e => String.eqb (e_path e) p) files.

Definition policies : list policy :=
  [ {| policy_name := "linux"; policy_priority := 0 |};
    {| policy_name := "manylinux1"; policy_priority := 100 |};
    {| policy_name := "manylinux2010"; policy_priority := 90 |} ].

(** The references of one object for the three policies. *)
Definition refs (l1 l2010 : list (string * option string))
  : list (string * policy_refs) :=
  [ ("linux", {| libs := []; priority := 0 |});
    ("manylinux1", {| libs := l1; priority := 100 |});
    ("manylinux2010", {| libs := l2010; priority := 90 |}) ].

Definition policy_name_of (p : Z) : option string :=
  match List.find (fun q => policy_priority q =? p) policies with
  | Some q => Some (policy_name q)
  | None => None
  end.

(** The [libc.so.6] versions a policy allows. *)
Definition allowed (p : Z) : gset string :=
  if p =? 100 then {["GLIBC_2.5"]}
  else if p =? 90 then {["GLIBC_2.5"; "GLIBC_2.12"]}
  else ∅.

Definition satisfied (p : Z) (s : gmap string (gset string)) : bool :=
  bool_decide (default ∅ (s !! "libc.so.6") ⊆ allowed p).

Definition symbols_policy (s : gmap string (gset string)) : Z :=
  if satisfied 100 s then 100 else if satisfied 90 s then 90 else 0.

Definition world (wheels : list (string * pkgctx)) (files : list elf_entry)
  : Collaborators elf_entry elf_entry :=
  {| InGenericPkgCtx := fun fn =>
       default {| iter_files := []; path := EmptyString |} (PyDict.get wheels fn);
     elf_open := find_entry files;
     lddtree := fun fn => default (not_elf fn) (find_entry files fn);
     needed := e_needed;
     elf_find_versioned_symbols := e_versioned;
     elf_find_ucs2_symbols := e_ucs2;
     elf_is_python_extension := fun _ e => (e_is_py_ext e, e_py_ver e);
     elf_imported_symbols := e_imported;
     lddtree_external_references := fun tree _ => e_refs tree;
     versioned_symbols_policy := symbols_policy;
     get_policy_name := policy_name_of;
     POLICY_PRIORITY_LOWEST := 0;
     POLICY_PRIORITY_HIGHEST := 100;
     load_policies := policies |}.

Definition ext (p : string) (ver : Z) (versioned : list (string * string))
  (imported ucs2 needed : list string) (r : list (string * policy_refs))
  : elf_entry :=
  {| e_path := p; e_is_py_ext := true; e_py_ver := Some ver;
     e_versioned := versioned; e_imported := imported; e_ucs2 := ucs2;
     e_needed := needed; e_refs := r |}.

Definition lib (p : string) (versioned : list (string * string))
  (imported needed : list string) (r : list (string * policy_refs))
  : elf_entry :=
  {| e_path := p; e_is_py_ext := false; e_py_ver := None;
     e_versioned := versioned; e_imported := imported; e_ucs2 := [];
     e_needed := needed; e_refs := r |}.

Definition wheel (files : list string) : list (string * pkgctx) :=
  [("demo.whl", {| iter_files := files; path := "/tmp/demo" |})].

(** The data [get_wheel_elfdata] returns. *)
Abbreviation elfdata :=
  (list (string * elf_entry) * list (string * list (string * policy_refs))
   * gmap string (gset string) * bool * bool)%type (only parsing).

(** One extension module on whitelisted libraries only. *)
Definition clean_mod : elf_entry :=
  ext "pkg/mod.so" 3 [("libc.so.6", "GLIBC_2.5")] ["PyFloat_Type"] []
      ["libc.so.6"] (refs [] []).

Definition clean : Collaborators elf_entry elf_entry :=
  world (wheel ["pkg/__init__.py"; "pkg/mod.so"]) [clean_mod].

Definition clean_data : elfdata :=
  ([("pkg/mod.so", clean_mod)], [("pkg/mod.so", refs [] [])],
   add_symbols ∅ [("libc.so.6", "GLIBC_2.5")], false, false).

(** The same package rebuilt against a newer [libc]. *)
Definition clean_more_symbols (e : elf_entry) : list (string * string) :=
  if String.eqb (e_path e) "pkg/mod.so"
  then e_versioned e ++ [("libc.so.6", "GLIBC_2.12")]
  else e_versioned e.

(** An extension module under [purelib], after a well-placed one. *)
Definition misplaced : Collaborators elf_entry elf_entry :=
  world (wheel ["pkg/ok.so"; "demo-1.0.data/purelib/pkg/mod.so"])
    [ ext "pkg/ok.so" 3 [] [] [] [] (refs [] []);
      ext "demo-1.0.data/purelib/pkg/mod.so" 3 [] [] [] [] (refs [] []) ].

Definition libext : list (string * option string) :=
  [("libext.so.1", Some "/usr/lib/libext.so.1")].

(** Two libraries of the package that need each other; the second needs an
    external library. *)
Definition cycle_a : elf_entry :=
  lib "pkg/liba.so" [] [] ["libb.so"] (refs libext libext).
Definition cycle_b : elf_entry :=
  lib "pkg/libb.so" [] [] ["liba.so"; "libext.so.1"] (refs libext libext).

Definition cycle : Collaborators elf_entry elf_entry :=
  world (wheel ["pkg/liba.so"; "pkg/libb.so"]) [cycle_a; cycle_b].

Definition cycle_data : elfdata := ([], [], ∅, false, false).

(** Two extension modules that need the same external library. *)
Definition shared_a : elf_entry :=
  ext "pkg/a.so" 3 [] [] [] ["libext.so.1"] (refs libext libext).
Definition shared_b : elf_entry :=
  ext "pkg/b.so" 3 [] [] [] ["libext.so.1"] (refs libext libext).

Definition shared : Collaborators elf_entry elf_entry :=
  world (wheel ["pkg/a.so"; "pkg/b.so"]) [shared_a; shared_b].

Definition shared_data : elfdata :=
  ([("pkg/a.so", shared_a); ("pkg/b.so", shared_b)],
   [("pkg/a.so", refs libext libext); ("pkg/b.so", refs libext libext)],
   ∅, false, false).

(** Three extension modules.  [libfoo.so.1] resolves to different files
    for [a.so] and [b.so] (different RPATHs); [b.so] reaches it through
    [libbar.so.2], which manylinux2010 whitelists.  [c.so] needs one file
    under two names. *)
Definition foo_a : list (string * option string) :=
  [("libfoo.so.1", Some "/opt/a/libfoo.so.1")].
Definition foo_b : list (string * option string) :=
  [("libbar.so.2", Some "/opt/b/libbar.so.2");
   ("libfoo.so.1", Some "/opt/b/libfoo.so.1")].
Definition two_names : list (string * option string) :=
  [("libz.so", Some "/opt/c/libz.so.1.2");
   ("libz.so.1", Some "/opt/c/libz.so.1.2")].

Definition rpaths_a : elf_entry :=
  ext "pkg/a.so" 3 [] [] [] ["libfoo.so.1"] (refs foo_a foo_a).
Definition rpaths_b : elf_entry :=
  ext "pkg/b.so" 3 [] [] [] ["libbar.so.2"] (refs foo_b []).
Definition rpaths_c : elf_entry :=
  ext "pkg/c.so" 3 [] [] [] ["libz.so"; "libz.so.1"]
      (refs two_names two_names).
Definition foo_at_a : elf_entry :=
  lib "/opt/a/libfoo.so.1" [("libc.so.6", "GLIBC_2.5")] [] [] [].
Definition foo_at_b : elf_entry :=
  lib "/opt/b/libfoo.so.1" [("libc.so.6", "GLIBC_2.12")] [] [] [].
Definition bar_at_b : elf_entry :=
  lib "/opt/b/libbar.so.2" [] [] ["libfoo.so.1"] [].
Definition z_at_c : elf_entry := lib "/opt/c/libz.so.1.2" [] [] [] [].

Definition rpaths : Collaborators elf_entry elf_entry :=
  world (wheel ["pkg/a.so"; "pkg/b.so"; "pkg/c.so"])
    [rpaths_a; rpaths_b; rpaths_c; foo_at_a; foo_at_b; bar_at_b; z_at_c].

Definition rpaths_data : elfdata :=
  ([("pkg/a.so", rpaths_a); ("pkg/b.so", rpaths_b); ("pkg/c.so", rpaths_c)],
   [("pkg/a.so", refs foo_a foo_a); ("pkg/b.so", refs foo_b []);
    ("pkg/c.so", refs two_names two_names)],
   ∅, false, false).

(** [external_refs] after the three objects are merged, and the external
    libraries found in it. *)
Definition rpaths_refs : list (string * policy_refs) :=
  refs [("libfoo.so.1", Some "/opt/b/libfoo.so.1");
        ("libbar.so.2", Some "/opt/b/libbar.so.2");
        ("libz.so", Some "/opt/c/libz.so.1.2");
        ("libz.so.1", Some "/opt/c/libz.so.1.2")]
       [("libfoo.so.1", Some "/opt/a/libfoo.so.1");
        ("libz.so", Some "/opt/c/libz.so.1.2");
        ("libz.so.1", Some "/opt/c/libz.so.1.2")].

Definition rpaths_libs : list (string * string) :=
  [("/opt/b/libfoo.so.1", "libfoo.so.1");
   ("/opt/b/libbar.so.2", "libbar.so.2");
   ("/opt/c/libz.so.1.2", "libz.so");
   ("/opt/a/libfoo.so.1", "libfoo.so.1")].

(** A helper library that nothing in the package needs and that imports
    the floating-point-exception buffer. *)
Definition helper_lib : elf_entry :=
  lib "pkg/libhelper.so" [] ["PyFPE_jbuf"] ["libc.so.6"] (refs [] []).

Definition helper : Collaborators elf_entry elf_entry :=
  world (wheel ["pkg/libhelper.so"]) [helper_lib].

Definition helper_data : elfdata :=
  ([("pkg/libhelper.so", helper_lib)], [("pkg/libhelper.so", refs [] [])],
   ∅, false, false).

(** A Python 2 extension module with narrow-unicode symbols that imports
    the floating-point-exception buffer. *)
Definition legacy_mod : elf_entry :=
  ext "pkg/old.so" 2 [] ["PyFPE_jbuf"]
      ["PyUnicodeUCS2_FromString"; "PyUnicodeUCS2_AsUTF8String"]
      ["libc.so.6"] (refs [] []).

Definition legacy : Collaborators elf_entry elf_entry :=
  world (wheel ["pkg/old.so"]) [legacy_mod].

Definition legacy_data : elfdata :=
  ([("pkg/old.so", legacy_mod)], [("pkg/old.so", refs [] [])],
   ∅, true, true).

(** The package of [clean] rebuilt in place with a vendored library used
    by the module. *)
Definition rebuilt_mod : elf_entry :=
  ext "pkg/mod.so" 3 [("libc.so.6", "GLIBC_2.12")] [] []
      ["libext.so.1"; "libc.so.6"] (refs [] []).
Definition rebuilt_libext : elf_entry :=
  lib "pkg/.libs/libext.so.1" [("libc.so.6", "GLIBC_2.17")] []
      ["libc.so.6"] (refs [] []).

Definition rebuilt : Collaborators elf_entry elf_entry :=
  world (wheel ["pkg/mod.so"; "pkg/.libs/libext.so.1"])
    [rebuilt_mod; rebuilt_libext].

Definition rebuilt_data : elfdata :=
  ([("pkg/mod.so", rebuilt_mod)], [("pkg/mod.so", refs [] [])],
   add_symbols ∅ [("libc.so.6", "GLIBC_2.12"); ("libc.so.6", "GLIBC_2.17")],
   false, false).

(** The verdicts on [clean] and on [rebuilt]. *)
Definition clean_symbols : gmap string (gset string) :=
  add_symbols ∅ [("libc.so.6", "GLIBC_2.5")].
Definition rebuilt_symbols : gmap string (gset string) :=
  add_symbols ∅ [("libc.so.6", "GLIBC_2.12"); ("libc.so.6", "GLIBC_2.17")].

Definition verdict (tag : string) (vs : gmap string (gset string))
  : WheelAbIInfo :=
  {| overall_tag := Some tag; external_refs := refs [] [];
     ref_tag := Some "manylinux1"; versioned_symbols := vs;
     sym_tag := Some tag; ucs_tag := Some "manylinux1";
     pyfpe_tag := Some "manylinux1" |}.

Definition clean_verdict : WheelAbIInfo := verdict "manylinux1" clean_symbols.
Definition rebuilt_verdict : WheelAbIInfo := verdict "linux" rebuilt_symbols.

Definition priorities (sym ref : Z) : AbiPolicies :=
  {| symbol_policy := sym; ref_policy := ref; ucs_policy := 100;
     pyfpe_policy := 100 |}.

(** A helper library listed before an extension module. *)
Definition mixed : Collaborators elf_entry elf_entry :=
  world (wheel ["pkg/libhelper.so"; "pkg/mod.so"]) [helper_lib; clean_mod].

Definition mixed_data : elfdata :=
  ([("pkg/mod.so", clean_mod); ("pkg/libhelper.so", helper_lib)],
   [("pkg/mod.so", refs [] []); ("pkg/libhelper.so", refs [] [])],
   add_symbols ∅ [("libc.so.6", "GLIBC_2.5")], false, false).

(** A priority-from-symbols function for which a superset of requirements
    never yields a lower priority, and the package of [clean] under it. *)
Definition rising_policy (s : gmap string (gset string)) : Z :=
  if bool_decide ("GLIBC_2.12" ∈ default ∅ (s !! "libc.so.6"))
  then 100 else 90.

Definition rising : Collaborators elf_entry elf_entry :=
  with_symbols_policy clean rising_policy.

Definition clean_rebuilt_symbols : gmap string (gset string) :=
  add_symbols ∅ [("libc.so.6", "GLIBC_2.5"); ("libc.so.6", "GLIBC_2.12")].
End Example.

(* ===================================================================== *)
(** * Properties *)
(* ===================================================================== *)

(** Closed facts are checked by evaluation. *)
Ltac vm_refl :=
  lazymatch goal with |- _ = ?r => vm_cast_no_check (@eq_refl _ r) end.
Ltac vm_decide := apply (bool_decide_unpack _); vm_cast_no_check I.

(** ** Dictionaries *)

Module PyDictFacts.
Import PyDict.
Section facts.
Context {V : Type}.
Implicit Types (d : list (string * V)) (k : string) (v : V).

Lemma get_set_eq d k v : get (set d k v) k = Some v.
Proof.
  induction d as [|[k' v'] d IH]; cbn.
  - by rewrite String.eqb_refl.
  - destruct (String.eqb k' k) eqn:E; cbn; rewrite E; [done|apply IH].
Qed.

Lemma get_set_ne d k k' v : k ≠ k' -> get (set d k v) k' = get d k'.
Proof.
  intros Hne. induction d as [|[k0 v0] d IH]; cbn.
  - destruct (String.eqb_spec k k'); [done|done].
  - destruct (String.eqb_spec k0 k) as [->|Hk]; cbn.
    + destruct (String.eqb_spec k k'); [done|done].
    + destruct (String.eqb_spec k0 k'); [done|apply IH].
Qed.

Lemma get_set d k k' v :
  get (set d k v) k' = if String.eqb k k' then Some v else get d k'.
Proof.
  destruct (String.eqb_spec k k') as [->|Hne].
  - apply get_set_eq.
  - by apply get_set_ne.
Qed.

Lemma get_Some_In d k v : get d k = Some v -> In (k, v) d.
Proof.
  induction d as [|[k' v'] d IH]; cbn; [done|].
  destruct (String.eqb_spec k' k) as [->|Hk].
  - intros [= ->]. by left.
  - intros Hg. right. by apply IH.
Qed.

Lemma get_None_keys d k : get d k = None <-> ~ In k (keys d).
Proof.
  induction d as [|[k' v'] d IH]; cbn; [tauto|].
  destruct (String.eqb_spec k' k) as [->|Hk].
  - split; [done|]. intros H. exfalso. apply H. by left.
  - rewrite IH. tauto.
Qed.

Lemma get_is_Some_keys d k : is_Some (get d k) <-> In k (keys d).
Proof.
  destruct (get d k) eqn:E.
  - split; [|by eauto]. intros _.
    apply get_Some_In in E. apply in_map_iff. by exists (k, v).
  - apply get_None_keys in E. split; [by intros [? ?]|done].
Qed.

Lemma mem_true_keys d k : mem d k = true <-> In k (keys d).
Proof.
  unfold mem. rewrite <- get_is_Some_keys.
  destruct (get d k); split; try done; try (by eauto); by intros [? ?].
Qed.

Lemma In_get_NoDup d k v : NoDup (keys d) -> In (k, v) d -> get d k = Some v.
Proof.
  induction d as [|[k' v'] d IH]; cbn; [done|].
  intros Hnd [[= -> ->]|Hin].
  - by rewrite String.eqb_refl.
  - apply NoDup_cons in Hnd as [Hk Hnd].
    destruct (String.eqb_spec k' k) as [->|Hne]; [|by apply IH].
    exfalso. apply Hk. apply list_elem_of_In, in_map_iff. by exists (k, v).
Qed.

(** Assignment keeps the position of a key and appends a new one. *)
Lemma keys_set d k v :
  keys (set d k v) = if mem d k then keys d else (keys d ++ [k])%list.
Proof.
  unfold mem, keys. induction d as [|[k' v'] d IH]; cbn; [done|].
  destruct (String.eqb_spec k' k) as [->|Hne]; cbn; [done|].
  rewrite IH. by destruct (get d k).
Qed.

Lemma In_keys_set d k k' v :
  In k' (keys (set d k v)) <-> k' = k \/ In k' (keys d).
Proof.
  rewrite keys_set. destruct (mem d k) eqn:E.
  - apply mem_true_keys in E. split; [tauto|]. by intros [->|?].
  - rewrite in_app_iff. cbn. split.
    + intros [H|[H|[]]]; [by right|by left].
    + intros [->|H]; [right; by left|by left].
Qed.

Lemma NoDup_keys_set d k v : NoDup (keys d) -> NoDup (keys (set d k v)).
Proof.
  intros Hnd. rewrite keys_set. destruct (mem d k) eqn:E; [done|].
  apply NoDup_app. split; [done|]. split; [|apply NoDup_singleton].
  intros x Hx ->%list_elem_of_singleton.
  apply list_elem_of_In, mem_true_keys in Hx. congruence.
Qed.

Lemma NoDup_keys_of_items (items : list (string * V)) :
  NoDup (keys (of_items items)).
Proof.
  unfold of_items.
  assert (forall d, NoDup (keys d) ->
            NoDup (keys (fold_left (fun d kv => set d (fst kv) (snd kv))
                                   items d))) as H.
  { induction items as [|kv items IH]; intros d Hd; cbn; [done|].
    by apply IH, NoDup_keys_set. }
  apply H. constructor.
Qed.
End facts.
End PyDictFacts.
(** ** The deep merge at the shape of [external_refs] *)

Lemma update_unfold (d : pyval) (ui : list (string * pyval)) :
  update d (VDict ui) = for_each update_step ui d.
Proof.
  revert d. induction ui as [|[k v] ui IH]; intros d; [reflexivity|].
  cbn [for_each update_step].
  destruct v; cbn [update bind].
  1-4: destruct (setitem d k _) as [d'|e]; cbn [bind]; [apply IH|reflexivity].
  - destruct (get_or_empty d k) as [d0|e]; cbn [bind]; [|reflexivity].
    match goal with |- context [bind ?m _] => destruct m as [r|e] end;
      cbn [bind]; [|reflexivity].
    destruct (setitem d k r) as [d'|e]; cbn [bind]; [apply IH|reflexivity].
  - reflexivity.
Qed.

Lemma get_map_values {A B : Type} (g : A -> B) (d : list (string * A))
  (k : string) :
  PyDict.get (map (fun kv => (fst kv, g (snd kv))) d) k
  = g <$> PyDict.get d k.
Proof.
  induction d as [|[k' v'] d IH]; cbn; [done|].
  destruct (String.eqb k' k); [done|apply IH].
Qed.

Lemma set_map_values {A B : Type} (g : A -> B) (d : list (string * A))
  (k : string) (v : A) :
  PyDict.set (map (fun kv => (fst kv, g (snd kv))) d) k (g v)
  = map (fun kv => (fst kv, g (snd kv))) (PyDict.set d k v).
Proof.
  induction d as [|[k' v'] d IH]; cbn; [done|].
  destruct (String.eqb k' k); cbn; [done|by rewrite IH].
Qed.

Lemma update_enc_libs (d u : list (string * option string)) :
  update (enc_libs d) (enc_libs u) = Ok (enc_libs (update_libs d u)).
Proof.
  unfold enc_libs at 2. rewrite update_unfold. unfold update_libs.
  revert d. induction u as [|[k rp] u IH]; intros d; cbn [map for_each fold_left];
    [done|].
  cbn [fst snd].
  replace (update_step (enc_libs d) (k, enc_path rp))
    with (Ok (enc_libs (PyDict.set d k rp))).
  { cbn [bind]. apply IH. }
  unfold enc_libs. rewrite <- set_map_values. by destruct rp.
Qed.

Lemma update_enc_policy (d : option policy_refs) (u : policy_refs) :
  update (default (VDict []) (enc_policy <$> d)) (enc_policy u)
  = Ok (enc_policy (update_policy d u)).
Proof.
  unfold enc_policy at 2. rewrite update_unfold.
  cbn [for_each update_step]. unfold enc_libs at 1.
  fold (enc_libs (libs u)).
  destruct d as [e|]; cbn [default fmap option_fmap option_map].
  - unfold id, enc_policy at 1 2. cbn [get_or_empty PyDict.get bind].
    change (String.eqb "libs" "libs") with true. cbn [default bind].
    unfold id. rewrite update_enc_libs. reflexivity.
  - cbn [get_or_empty PyDict.get default bind].
    change (VDict []) with (enc_libs []) at 1. rewrite update_enc_libs.
    reflexivity.
Qed.

Lemma update_enc_refs (d u : list (string * policy_refs)) :
  update (enc_refs d) (enc_refs u) = Ok (enc_refs (update_refs d u)).
Proof.
  unfold enc_refs at 2. rewrite update_unfold. unfold update_refs.
  revert d. induction u as [|[k e] u IH]; intros d; cbn [map for_each fold_left];
    [done|].
  cbn [fst snd].
  replace (update_step (enc_refs d) (k, enc_policy e))
    with (Ok (enc_refs (PyDict.set d k (update_policy (PyDict.get d k) e)))).
  { cbn [bind]. apply IH. }
  unfold update_step. unfold enc_policy at 1. fold (enc_policy e).
  unfold enc_refs. cbn [get_or_empty bind].
  rewrite get_map_values, update_enc_policy. cbn [bind setitem].
  by rewrite set_map_values.
Qed.

Lemma dec_enc_libs (l : list (string * option string)) :
  dec_items dec_path (map (fun kv => (fst kv, enc_path (snd kv))) l) = Some l.
Proof.
  induction l as [|[k [s|]] l IH]; cbn; [done| |]; by rewrite IH.
Qed.

Lemma dec_enc_policy (e : policy_refs) : dec_policy (enc_policy e) = Some e.
Proof.
  destruct e as [l p]. cbn. by rewrite dec_enc_libs.
Qed.

Lemma dec_enc_refs (r : list (string * policy_refs)) :
  dec_refs (enc_refs r) = Ok r.
Proof.
  unfold dec_refs, enc_refs.
  assert (dec_items dec_policy
            (map (fun kv => (fst kv, enc_policy (snd kv))) r) = Some r) as ->;
    [|done].
  induction r as [|[k e] r IH]; [done|].
  cbn [map dec_items fst snd]. by rewrite dec_enc_policy, IH.
Qed.

(** On [external_refs], the deep merge never raises and computes
    [update_refs]. *)
Lemma merge_refs_eq {ELFFile elftree : Type}
  {C : Collaborators ELFFile elftree} (d u : list (string * policy_refs)) :
  merge_refs d u = Ok (update_refs d u).
Proof.
  unfold merge_refs. rewrite update_enc_refs. cbn [bind]. apply dec_enc_refs.
Qed.

(** ** Scanning a package: [get_wheel_elfdata] *)

Lemma In_set_inv {V : Type} (d : list (string * V)) (k k' : string)
  (v v' : V) :
  In (k', v') (PyDict.set d k v) -> (k' = k /\ v' = v) \/ In (k', v') d.
Proof.
  induction d as [|[k0 v0] d IH]; cbn.
  - intros [[= <- <-]|[]]. by left.
  - destruct (String.eqb_spec k0 k) as [->|Hne]; cbn.
    + intros [[= <- <-]|H]; [by left|by right; right].
    + intros [H|H]; [by right; left|].
      destruct (IH H) as [?|?]; [by left|by right; right].
Qed.

Lemma keys_set_congr {V W : Type} (d1 : list (string * V))
  (d2 : list (string * W)) (k : string) (v : V) (w : W) :
  PyDict.keys d1 = PyDict.keys d2 ->
  PyDict.keys (PyDict.set d1 k v) = PyDict.keys (PyDict.set d2 k w).
Proof.
  intros Hk. rewrite !PyDictFacts.keys_set, Hk.
  assert (PyDict.mem d1 k = PyDict.mem d2 k) as ->; [|done].
  apply eq_true_iff_eq. by rewrite !PyDictFacts.mem_true_keys, Hk.
Qed.

Lemma In_keys_items {V : Type} (d : list (string * V)) (k : string) :
  In k (PyDict.keys d) <-> exists v, In (k, v) d.
Proof.
  unfold PyDict.keys. rewrite in_map_iff. split.
  - intros [[k' v] [<- H]]. by exists v.
  - intros [v H]. by exists (k, v).
Qed.

Lemma elem_of_add_symbol (m : gmap string (gset string)) (key value k v : string) :
  v ∈ default ∅ (add_symbol m key value !! k)
  <-> (k = key /\ v = value) \/ v ∈ default ∅ (m !! k).
Proof.
  unfold add_symbol. destruct (decide (key = k)) as [->|Hne].
  - rewrite lookup_insert_eq. cbn. set_solver.
  - rewrite lookup_insert_ne by done. split; [by right|].
    intros [[-> _]|H]; done.
Qed.

Lemma elem_of_add_symbols (pairs : list (string * string))
  (m : gmap string (gset string)) (k v : string) :
  v ∈ default ∅ (add_symbols m pairs !! k)
  <-> In (k, v) pairs \/ v ∈ default ∅ (m !! k).
Proof.
  unfold add_symbols. revert m.
  induction pairs as [|[key value] pairs IH]; intros m; cbn [fold_left].
  - cbn. tauto.
  - rewrite IH, elem_of_add_symbol. cbn. split.
    + intros [H|[[-> ->]|H]]; [by left; right|by left; left|by right].
    + intros [[[= -> ->]|H]|H]; [by right; left|by left|by right; right].
Qed.

Section Scan.
Context {ELFFile elftree : Type} {C : Collaborators ELFFile elftree}.
Implicit Types (st : ElfData.t elftree) (ctx : pkgctx).

Lemma scan_file_Ok ctx st f e st1 :
  scan_file ctx st (f, e) = Ok st1 ->
  misplaced_file (f, e) = false /\
  ElfData.versioned_symbols st1
  = add_symbols (ElfData.versioned_symbols st)
                (elf_find_versioned_symbols e) /\
  if fst (elf_is_python_extension f e) then
    ElfData.full_elftree st1
    = PyDict.set (ElfData.full_elftree st) f (lddtree f) /\
    ElfData.nonpy_elftree st1 = ElfData.nonpy_elftree st /\
    ElfData.full_external_refs st1
    = PyDict.set (ElfData.full_external_refs st) f
        (lddtree_external_references (lddtree f) (path ctx)) /\
    ElfData.uses_PyFPE_jbuf st1
    = ElfData.uses_PyFPE_jbuf st || elf_references_PyFPE_jbuf e /\
    ElfData.uses_ucs2_symbols st1
    = ElfData.uses_ucs2_symbols st
      || (bool_decide (snd (elf_is_python_extension f e) = Some 2)
          && negb (bool_decide (elf_find_ucs2_symbols e = [])))
  else
    ElfData.full_elftree st1 = ElfData.full_elftree st /\
    ElfData.nonpy_elftree st1
    = PyDict.set (ElfData.nonpy_elftree st) f (lddtree f) /\
    ElfData.full_external_refs st1 = ElfData.full_external_refs st /\
    ElfData.uses_PyFPE_jbuf st1 = ElfData.uses_PyFPE_jbuf st /\
    ElfData.uses_ucs2_symbols st1 = ElfData.uses_ucs2_symbols st.
Proof.
  unfold scan_file, misplaced_file. cbn [fst].
  destruct (elf_is_python_extension f e) as [is_py_ext py_ver].
  destruct (str_in "purelib" (split os_sep f)); [done|].
  cbn [fst snd]. destruct is_py_ext; intros [= <-]; cbn.
  - repeat split; try done.
    assert (any (map (fun _ => true) (elf_find_ucs2_symbols e))
            = negb (bool_decide (elf_find_ucs2_symbols e = []))) as Hany.
    { by destruct (elf_find_ucs2_symbols e). }
    destruct py_ver as [[|p|p]|]; cbn.
    1,3,4: by rewrite orb_false_r.
    destruct (decide (p = 2%positive)) as [->|Hp].
    + by rewrite Hany.
    + rewrite bool_decide_eq_false_2 by congruence. cbn.
      rewrite orb_false_r. by destruct p as [[]|[]|].
  - done.
Qed.

Lemma scan_file_Raise ctx st f e :
  misplaced_file (f, e) = true ->
  scan_file ctx st (f, e)
  = Raise (RuntimeError [VStr (purelib_message (basename f))]).
Proof.
  unfold scan_file, misplaced_file, basename. cbn [fst]. intros ->.
  by destruct (elf_is_python_extension f e).
Qed.

Lemma scan_file_total ctx st f e :
  misplaced_file (f, e) = false -> exists st1, scan_file ctx st (f, e) = Ok st1.
Proof.
  unfold scan_file, misplaced_file. cbn [fst]. intros ->.
  destruct (elf_is_python_extension f e) as [[] ?]; eauto.
Qed.

(** The first loop stops at the first misplaced file and otherwise runs
    to its end. *)
Lemma scan_loop_Raise ctx fs1 f e fs2 st :
  forallb (fun x => negb (misplaced_file x)) fs1 = true ->
  misplaced_file (f, e) = true ->
  for_each (scan_file ctx) (fs1 ++ (f, e) :: fs2) st
  = Raise (RuntimeError [VStr (purelib_message (basename f))]).
Proof.
  revert st. induction fs1 as [|[f1 e1] fs1 IH]; intros st Hall Hbad.
  - cbn [app for_each]. by rewrite scan_file_Raise.
  - cbn in Hall. apply andb_prop in Hall as [H1 Hall].
    apply negb_true_iff in H1.
    destruct (scan_file_total ctx st f1 e1 H1) as [st1 Hst1].
    cbn [app for_each]. rewrite Hst1. cbn [bind]. by apply IH.
Qed.

Lemma scan_loop_total ctx fs st :
  forallb (fun x => negb (misplaced_file x)) fs = true ->
  exists st', for_each (scan_file ctx) fs st = Ok st'.
Proof.
  revert st. induction fs as [|[f e] fs IH]; intros st Hall; [by eexists|].
  cbn in Hall. apply andb_prop in Hall as [H1 Hall].
  apply negb_true_iff in H1.
  destruct (scan_file_total ctx st f e H1) as [st1 Hst1].
  cbn [for_each]. rewrite Hst1. cbn [bind]. by apply IH.
Qed.

Lemma scan_loop_Ok_clean ctx fs st st' :
  for_each (scan_file ctx) fs st = Ok st' ->
  forallb (fun x => negb (misplaced_file x)) fs = true.
Proof.
  revert st. induction fs as [|[f e] fs IH]; intros st; [done|].
  cbn [for_each forallb].
  destruct (scan_file ctx st (f, e)) as [st1|] eqn:E; [|done].
  cbn [bind]. intros H. apply scan_file_Ok in E as [-> _]. cbn [negb andb].
  by eapply IH.
Qed.
End Scan.

Ltac scan_induction fs st :=
  revert st; induction fs as [|[?f ?e] fs IH]; intros st Hrun;
  cbn [for_each] in Hrun;
  [ injection Hrun as <-
  | match type of Hrun with
    | bind ?m _ = _ =>
        let st1 := fresh "st1" in
        let Hstep := fresh "Hstep" in
        destruct m as [st1|] eqn:Hstep; [|discriminate];
        cbn [bind] in Hrun;
        apply scan_file_Ok in Hstep as (Hclean & Hvs & Hrest);
        specialize (IH _ Hrun);
        let Hext := fresh "Hext" in
        destruct (fst (elf_is_python_extension _ _)) eqn:Hext;
        destruct Hrest as (Hfull & Hnonpy & Hfer & Hfpe & Hucs)
    end ].

Section ScanLoop.
Context {ELFFile elftree : Type} {C : Collaborators ELFFile elftree}.
Implicit Types (st : ElfData.t elftree) (ctx : pkgctx).

Lemma scan_loop_symbols ctx fs st st' :
  for_each (scan_file ctx) fs st = Ok st' ->
  forall k v,
    v ∈ default ∅ (ElfData.versioned_symbols st' !! k)
    <-> (exists f e, In (f, e) fs /\ In (k, v) (elf_find_versioned_symbols e))
        \/ v ∈ default ∅ (ElfData.versioned_symbols st !! k).
Proof.
  scan_induction fs st; intros k v.
  - split; [by right|]. by intros [(? & ? & [] & _)|?].
  - rewrite IH, Hvs, elem_of_add_symbols. split.
    + intros [(f' & e' & Hin & Hkv)|[Hkv|Hv]].
      * left. exists f', e'. split; [by right|done].
      * left. exists f, e. split; [by left|done].
      * by right.
    + intros [(f' & e' & [[= -> ->]|Hin] & Hkv)|Hv].
      * right. by left.
      * left. by exists f', e'.
      * right. by right.
  - rewrite IH, Hvs, elem_of_add_symbols. split.
    + intros [(f' & e' & Hin & Hkv)|[Hkv|Hv]].
      * left. exists f', e'. split; [by right|done].
      * left. exists f, e. split; [by left|done].
      * by right.
    + intros [(f' & e' & [[= -> ->]|Hin] & Hkv)|Hv].
      * right. by left.
      * left. by exists f', e'.
      * right. by right.
Qed.

Lemma scan_loop_full_keys ctx fs st st' :
  for_each (scan_file ctx) fs st = Ok st' ->
  forall f,
    In f (PyDict.keys (ElfData.full_elftree st'))
    <-> In f (PyDict.keys (ElfData.full_elftree st))
        \/ exists e, In (f, e) fs /\ fst (elf_is_python_extension f e) = true.
Proof.
  scan_induction fs st; intros f'.
  - split; [by left|]. by intros [?|(? & [] & _)].
  - rewrite IH, Hfull, PyDictFacts.In_keys_set. split.
    + intros [[->|H]|(e' & Hin & He')].
      * right. exists e. split; [by left|done].
      * by left.
      * right. exists e'. split; [by right|done].
    + intros [H|(e' & [[= -> ->]|Hin] & He')].
      * left. by right.
      * left. by left.
      * right. by exists e'.
  - rewrite IH, Hfull. split.
    + intros [H|(e' & Hin & He')]; [by left|].
      right. exists e'. split; [by right|done].
    + intros [H|(e' & [[= -> ->]|Hin] & He')]; [by left|congruence|].
      right. by exists e'.
Qed.

Lemma scan_loop_nonpy_keys ctx fs st st' :
  for_each (scan_file ctx) fs st = Ok st' ->
  forall f,
    In f (PyDict.keys (ElfData.nonpy_elftree st'))
    <-> In f (PyDict.keys (ElfData.nonpy_elftree st))
        \/ exists e, In (f, e) fs /\ fst (elf_is_python_extension f e) = false.
Proof.
  scan_induction fs st; intros f'.
  - split; [by left|]. by intros [?|(? & [] & _)].
  - rewrite IH, Hnonpy. split.
    + intros [H|(e' & Hin & He')]; [by left|].
      right. exists e'. split; [by right|done].
    + intros [H|(e' & [[= -> ->]|Hin] & He')]; [by left|congruence|].
      right. by exists e'.
  - rewrite IH, Hnonpy, PyDictFacts.In_keys_set. split.
    + intros [[->|H]|(e' & Hin & He')].
      * right. exists e. split; [by left|done].
      * by left.
      * right. exists e'. split; [by right|done].
    + intros [H|(e' & [[= -> ->]|Hin] & He')].
      * left. by right.
      * left. by left.
      * right. by exists e'.
Qed.

Lemma trees_of_paths_set d f :
  trees_of_paths d -> trees_of_paths (PyDict.set d f (lddtree f)).
Proof.
  intros Hd f' t' [[-> ->]|H]%In_set_inv; [done|by apply Hd].
Qed.

Lemma scan_loop_trees ctx fs st st' :
  for_each (scan_file ctx) fs st = Ok st' ->
  trees_of_paths (ElfData.full_elftree st) ->
  trees_of_paths (ElfData.nonpy_elftree st) ->
  trees_of_paths (ElfData.full_elftree st')
  /\ trees_of_paths (ElfData.nonpy_elftree st').
Proof.
  scan_induction fs st; intros H1 H2; [done| |]; apply IH.
  - rewrite Hfull. by apply trees_of_paths_set.
  - by rewrite Hnonpy.
  - by rewrite Hfull.
  - rewrite Hnonpy. by apply trees_of_paths_set.
Qed.

Lemma refs_of_paths_set ctx d f :
  refs_of_paths ctx d ->
  refs_of_paths ctx
    (PyDict.set d f (lddtree_external_references (lddtree f) (path ctx))).
Proof.
  intros Hd f' t' [[-> ->]|H]%In_set_inv; [done|by apply Hd].
Qed.

Lemma scan_loop_refs ctx fs st st' :
  for_each (scan_file ctx) fs st = Ok st' ->
  refs_of_paths ctx (ElfData.full_external_refs st) ->
  PyDict.keys (ElfData.full_external_refs st)
  = PyDict.keys (ElfData.full_elftree st) ->
  refs_of_paths ctx (ElfData.full_external_refs st')
  /\ PyDict.keys (ElfData.full_external_refs st')
     = PyDict.keys (ElfData.full_elftree st').
Proof.
  scan_induction fs st; intros H1 H2; [done| |]; apply IH.
  - rewrite Hfer. by apply refs_of_paths_set.
  - rewrite Hfer, Hfull. by apply keys_set_congr.
  - by rewrite Hfer.
  - by rewrite Hfer, Hfull.
Qed.

Lemma scan_loop_NoDup ctx fs st st' :
  for_each (scan_file ctx) fs st = Ok st' ->
  NoDup (PyDict.keys (ElfData.full_elftree st)) ->
  NoDup (PyDict.keys (ElfData.nonpy_elftree st)) ->
  NoDup (PyDict.keys (ElfData.full_elftree st'))
  /\ NoDup (PyDict.keys (ElfData.nonpy_elftree st')).
Proof.
  scan_induction fs st; intros H1 H2; [done| |]; apply IH.
  - rewrite Hfull. by apply PyDictFacts.NoDup_keys_set.
  - by rewrite Hnonpy.
  - by rewrite Hfull.
  - rewrite Hnonpy. by apply PyDictFacts.NoDup_keys_set.
Qed.

Lemma scan_loop_PyFPE ctx fs st st' :
  for_each (scan_file ctx) fs st = Ok st' ->
  ElfData.uses_PyFPE_jbuf st' = true
  <-> ElfData.uses_PyFPE_jbuf st = true
      \/ exists f e, In (f, e) fs
                     /\ fst (elf_is_python_extension f e) = true
                     /\ elf_references_PyFPE_jbuf e = true.
Proof.
  scan_induction fs st.
  - split; [by left|]. by intros [?|(? & ? & [] & _)].
  - rewrite IH, Hfpe, orb_true_iff. split.
    + intros [[H|H]|(f' & e' & Hin & He')].
      * by left.
      * right. exists f, e. split; [by left|done].
      * right. exists f', e'. split; [by right|done].
    + intros [H|(f' & e' & [[= -> ->]|Hin] & He' & Hf')].
      * left. by left.
      * left. by right.
      * right. by exists f', e'.
  - rewrite IH, Hfpe. split.
    + intros [H|(f' & e' & Hin & He')]; [by left|].
      right. exists f', e'. split; [by right|done].
    + intros [H|(f' & e' & [[= -> ->]|Hin] & He' & Hf')];
        [by left|congruence|].
      right. by exists f', e'.
Qed.

Lemma scan_loop_ucs2 ctx fs st st' :
  for_each (scan_file ctx) fs st = Ok st' ->
  ElfData.uses_ucs2_symbols st' = true
  <-> ElfData.uses_ucs2_symbols st = true
      \/ exists f e, In (f, e) fs
                     /\ fst (elf_is_python_extension f e) = true
                     /\ snd (elf_is_python_extension f e) = Some 2
                     /\ elf_find_ucs2_symbols e <> [].
Proof.
  scan_induction fs st.
  - split; [by left|]. by intros [?|(? & ? & [] & _)].
  - rewrite IH, Hucs, orb_true_iff, andb_true_iff, negb_true_iff,
      bool_decide_eq_true, bool_decide_eq_false. split.
    + intros [[H|[H1 H2]]|(f' & e' & Hin & He')].
      * by left.
      * right. exists f, e. split; [by left|done].
      * right. exists f', e'. split; [by right|done].
    + intros [H|(f' & e' & [[= -> ->]|Hin] & He' & Hv & Hs)].
      * left. by left.
      * left. by right.
      * right. by exists f', e'.
  - rewrite IH, Hucs. split.
    + intros [H|(f' & e' & Hin & He')]; [by left|].
      right. exists f', e'. split; [by right|done].
    + intros [H|(f' & e' & [[= -> ->]|Hin] & He' & Hf')];
        [by left|congruence|].
      right. by exists f', e'.
Qed.
End ScanLoop.

Section Promote.
Context {ELFFile elftree : Type} {C : Collaborators ELFFile elftree}.
Implicit Types (st : ElfData.t elftree) (ctx : pkgctx).

Lemma promote_loop_same ctx N (l : list (string * elftree)) st :
  let st' := fold_left (promote ctx N) l st in
  ElfData.nonpy_elftree st' = ElfData.nonpy_elftree st
  /\ ElfData.versioned_symbols st' = ElfData.versioned_symbols st
  /\ ElfData.uses_ucs2_symbols st' = ElfData.uses_ucs2_symbols st
  /\ ElfData.uses_PyFPE_jbuf st' = ElfData.uses_PyFPE_jbuf st.
Proof.
  revert st. induction l as [|[f t] l IH]; intros st; cbn [fold_left];
    [done|].
  destruct (IH (promote ctx N st (f, t))) as (-> & -> & -> & ->).
  unfold promote. by destruct (bool_decide _).
Qed.

Lemma promote_loop_keys ctx N (l : list (string * elftree)) st f :
  In f (PyDict.keys (ElfData.full_elftree (fold_left (promote ctx N) l st)))
  <-> In f (PyDict.keys (ElfData.full_elftree st))
      \/ (In f (PyDict.keys l) /\ basename f ∉ N).
Proof.
  revert st. induction l as [|[f' t] l IH]; intros st; cbn [fold_left].
  - cbn. tauto.
  - rewrite IH. unfold promote. cbn [PyDict.keys map fst In].
    destruct (bool_decide_reflect (basename f' ∈ N)) as [HN|HN].
    + split; [tauto|]. intros [H|[[<-|H] Hf]]; [by left|done|by right].
    + cbn [ElfData.full_elftree]. rewrite PyDictFacts.In_keys_set. split.
      * intros [[->|H]|[H Hf]]; [right; split; [by left|done]|by left|].
        right. split; [by right|done].
      * intros [H|[[<-|H] Hf]]; [left; by right|left; by left|by right].
Qed.

Lemma promote_loop_inv ctx N (l : list (string * elftree)) st :
  let st' := fold_left (promote ctx N) l st in
  trees_of_paths l ->
  trees_of_paths (ElfData.full_elftree st) ->
  refs_of_paths ctx (ElfData.full_external_refs st) ->
  PyDict.keys (ElfData.full_external_refs st)
  = PyDict.keys (ElfData.full_elftree st) ->
  NoDup (PyDict.keys (ElfData.full_elftree st)) ->
  trees_of_paths (ElfData.full_elftree st')
  /\ refs_of_paths ctx (ElfData.full_external_refs st')
  /\ PyDict.keys (ElfData.full_external_refs st')
     = PyDict.keys (ElfData.full_elftree st')
  /\ NoDup (PyDict.keys (ElfData.full_elftree st')).
Proof.
  revert st. induction l as [|[f t] l IH]; intros st; cbn [fold_left];
    [done|].
  intros Hl H1 H2 H3 H4.
  assert (t = lddtree f) as -> by (apply Hl; by left).
  assert (trees_of_paths l) as Hl' by (intros ? ? ?; apply Hl; by right).
  apply IH; [done|..]; unfold promote; destruct (bool_decide _);
    cbn [ElfData.full_elftree ElfData.full_external_refs]; try done.
  - by apply trees_of_paths_set.
  - by apply refs_of_paths_set.
  - by apply keys_set_congr.
  - by apply PyDictFacts.NoDup_keys_set.
Qed.

(** The ELF files of the wheel and what opening a path gives. *)
Lemma elf_file_filter_In (paths : list string) f e :
  In (f, e) (elf_file_filter paths) <-> In f paths /\ elf_open f = Some e.
Proof.
  unfold elf_file_filter. rewrite in_flat_map. split.
  - intros (p & Hp & Hin). destruct (elf_open p) eqn:E; [|done].
    destruct Hin as [[= -> ->]|[]]. done.
  - intros [Hp He]. exists f. split; [done|]. rewrite He. by left.
Qed.

Lemma elf_file_filter_fun (paths : list string) f e e' :
  In (f, e) (elf_file_filter paths) -> In (f, e') (elf_file_filter paths) ->
  e = e'.
Proof. rewrite !elf_file_filter_In. intros [_ H1] [_ H2]. congruence. Qed.

(** What [get_wheel_elfdata] has computed when it returns. *)
Lemma scan_wheel_spec (wheel_fn : string) st :
  scan_wheel wheel_fn = Ok st ->
  let ctx := InGenericPkgCtx wheel_fn in
  let files := elf_file_filter (iter_files ctx) in
  let N : gset string :=
    list_to_set (flat_map (fun fe => needed (lddtree (fst fe))) files) in
  forallb (fun x => negb (misplaced_file x)) files = true
  /\ (forall k v,
        v ∈ default ∅ (ElfData.versioned_symbols st !! k)
        <-> exists f e, In (f, e) files
                        /\ In (k, v) (elf_find_versioned_symbols e))
  /\ (forall f,
        In f (PyDict.keys (ElfData.full_elftree st))
        <-> exists e, In (f, e) files
                      /\ (fst (elf_is_python_extension f e) = true
                          \/ basename f ∉ N))
  /\ trees_of_paths (ElfData.full_elftree st)
  /\ refs_of_paths ctx (ElfData.full_external_refs st)
  /\ PyDict.keys (ElfData.full_external_refs st)
     = PyDict.keys (ElfData.full_elftree st)
  /\ NoDup (PyDict.keys (ElfData.full_elftree st))
  /\ (ElfData.uses_PyFPE_jbuf st = true
      <-> exists f e, In (f, e) files
                      /\ fst (elf_is_python_extension f e) = true
                      /\ elf_references_PyFPE_jbuf e = true)
  /\ (ElfData.uses_ucs2_symbols st = true
      <-> exists f e, In (f, e) files
                      /\ fst (elf_is_python_extension f e) = true
                      /\ snd (elf_is_python_extension f e) = Some 2
                      /\ elf_find_ucs2_symbols e <> []).
Proof.
  intros Hrun ctx files N. unfold scan_wheel in Hrun.
  fold ctx in Hrun. fold files in Hrun.
  destruct (for_each (scan_file ctx) files ElfData.init) as [st1|] eqn:H1;
    [|done].
  cbn [bind] in Hrun. injection Hrun as <-.
  pose proof (scan_loop_Ok_clean _ _ _ _ H1) as Hclean.
  pose proof (scan_loop_symbols _ _ _ _ H1) as Hsym.
  pose proof (scan_loop_full_keys _ _ _ _ H1) as Hfull.
  pose proof (scan_loop_nonpy_keys _ _ _ _ H1) as Hnonpy.
  destruct (scan_loop_trees _ _ _ _ H1) as [Htf Htn];
    [by intros ? ? []..|].
  destruct (scan_loop_refs _ _ _ _ H1) as [Hrf Hrk];
    [by intros ? ? []|done|].
  destruct (scan_loop_NoDup _ _ _ _ H1) as [Hnf Hnn]; [constructor..|].
  pose proof (scan_loop_PyFPE _ _ _ _ H1) as Hfpe.
  pose proof (scan_loop_ucs2 _ _ _ _ H1) as Hucs.
  assert (needed_libs st1 = N) as HN.
  { apply set_eq. intros x. unfold needed_libs, N.
    rewrite !elem_of_list_to_set, !list_elem_of_In, !in_flat_map.
    split.
    - intros (t & Ht & Hx). unfold PyDict.values in Ht.
      rewrite in_app_iff, !in_map_iff in Ht.
      destruct Ht as [([f t'] & <- & Hin)|([f t'] & <- & Hin)]; cbn in Hx.
      + pose proof (Htf _ _ Hin) as ->.
        assert (In f (PyDict.keys (ElfData.full_elftree st1))) as Hk
          by (apply In_keys_items; eauto).
        apply Hfull in Hk as [[]|(e & He & _)]. by exists (f, e).
      + pose proof (Htn _ _ Hin) as ->.
        assert (In f (PyDict.keys (ElfData.nonpy_elftree st1))) as Hk
          by (apply In_keys_items; eauto).
        apply Hnonpy in Hk as [[]|(e & He & _)]. by exists (f, e).
    - intros ([f e] & Hin & Hx). cbn in Hx. exists (lddtree f).
      split; [|done]. unfold PyDict.values. rewrite in_app_iff, !in_map_iff.
      destruct (fst (elf_is_python_extension f e)) eqn:Hext.
      + left. assert (In f (PyDict.keys (ElfData.full_elftree st1))) as Hk
          by (apply Hfull; right; eauto).
        apply In_keys_items in Hk as [t Ht]. exists (f, t).
        split; [|done]. cbn. by apply Htf.
      + right. assert (In f (PyDict.keys (ElfData.nonpy_elftree st1))) as Hk
          by (apply Hnonpy; right; eauto).
        apply In_keys_items in Hk as [t Ht]. exists (f, t).
        split; [|done]. cbn. by apply Htn. }
  rewrite HN.
  destruct (promote_loop_same ctx N (ElfData.nonpy_elftree st1) st1)
    as (_ & -> & -> & ->).
  destruct (promote_loop_inv ctx N (ElfData.nonpy_elftree st1) st1)
    as (? & ? & ? & ?); [done..|].
  split; [done|]. split.
  { intros k v. rewrite Hsym. cbn. rewrite lookup_empty. cbn. set_solver. }
  split.
  { intros f. rewrite promote_loop_keys, Hfull, Hnonpy. cbn [In ElfData.init
      ElfData.full_elftree ElfData.nonpy_elftree PyDict.keys map]. split.
    - intros [[[]|(e & He & Hext)]|[[[]|(e & He & Hext)] HfN]];
        exists e; tauto.
    - intros (e & He & [Hext|HfN]); [left; right; by exists e|].
      destruct (fst (elf_is_python_extension f e)) eqn:Hext.
      + left; right; by exists e.
      + right. split; [|done]. right. by exists e. }
  repeat (split; [done|]). split.
  - rewrite Hfpe. cbn. split; [by intros [?|?]|by right].
  - rewrite Hucs. cbn. split; [by intros [?|?]|by right].
Qed.
End Promote.

(** ** Merging the references of the top-level objects *)

Lemma get_app_fresh {V : Type} (d1 d2 : list (string * V)) (k : string) :
  ~ In k (PyDict.keys d1) -> PyDict.get (d1 ++ d2) k = PyDict.get d2 k.
Proof.
  induction d1 as [|[k' v'] d1 IH]; cbn; [done|].
  intros H. destruct (String.eqb_spec k' k) as [->|Hne]; [tauto|].
  apply IH. tauto.
Qed.

Section Collect.
Context {ELFFile elftree : Type} {C : Collaborators ELFFile elftree}.

Lemma collect_loop (by_fn done_ todo : list (string * list (string * policy_refs)))
  (d : list (string * policy_refs)) :
  by_fn = (done_ ++ todo)%list ->
  NoDup (PyDict.keys by_fn) ->
  for_each
    (fun external_refs fn =>
       match PyDict.get by_fn fn with
       | Some u => merge_refs external_refs u
       | None => Raise (KeyError fn)
       end)
    (PyDict.keys todo) d
  = Ok (fold_left update_refs (PyDict.values todo) d).
Proof.
  revert done_ d. induction todo as [|[k u] todo IH]; intros done_ d -> Hnd;
    [done|].
  cbn [PyDict.keys PyDict.values map for_each fold_left fst snd].
  assert (PyDict.get (done_ ++ (k, u) :: todo) k = Some u) as ->.
  { rewrite get_app_fresh.
    - cbn. by rewrite String.eqb_refl.
    - unfold PyDict.keys in *. rewrite map_app in Hnd.
      apply NoDup_app in Hnd as (_ & Hdisj & _). intros Hk.
      apply (Hdisj k); [by apply list_elem_of_In|]. cbn. by left. }
  rewrite merge_refs_eq. cbn [bind].
  apply (IH (done_ ++ [(k, u)])%list); [by rewrite <- app_assoc|done].
Qed.

(** The loop of lines 180-181 on what [get_wheel_elfdata] returns: the
    references of the top-level objects are merged in their order, and no
    lookup fails. *)
Lemma collect_external_refs_eq (trees : list (string * elftree))
  (by_fn : list (string * list (string * policy_refs))) :
  PyDict.keys by_fn = PyDict.keys trees ->
  NoDup (PyDict.keys trees) ->
  collect_external_refs trees by_fn
  = Ok (fold_left update_refs (PyDict.values by_fn) initial_external_refs).
Proof.
  intros Hk Hnd. unfold collect_external_refs. rewrite <- Hk.
  apply (collect_loop by_fn [] by_fn); [done|by rewrite Hk].
Qed.
End Collect.

(** ** Re-scanning the external libraries: [get_versioned_symbols] *)

Section Rescan.
Context {ELFFile elftree : Type} {C : Collaborators ELFFile elftree}.

Lemma rescan_loop (libs : list (string * string))
  (items : list (string * ELFFile))
  (r0 : gmap string (gmap string (gset string))) :
  (forall p e, In (p, e) items -> In p (PyDict.keys libs)) ->
  for_each
    (fun result item =>
       let '(path, elf) := item in
       let elf_versioned_symbols :=
         add_symbols ∅ (elf_find_versioned_symbols elf) in
       match PyDict.get libs path with
       | Some soname => Ok (<[soname := elf_versioned_symbols]> result)
       | None => Raise (KeyError path)
       end)
    items r0
  = Ok (fold_left (rescan_step libs) items r0).
Proof.
  revert r0. induction items as [|[p e] items IH]; intros r0 Hin; [done|].
  cbn [for_each fold_left].
  destruct (proj2 (PyDictFacts.get_is_Some_keys libs p)) as [s Hs].
  { apply (Hin p e). by left. }
  rewrite Hs. cbn [bind]. rewrite IH.
  - unfold rescan_step at 3. cbn [fst snd]. by rewrite Hs.
  - intros p' e' H. apply (Hin p' e'). by right.
Qed.

Lemma get_versioned_symbols_eq (libs : list (string * string)) :
  get_versioned_symbols libs
  = Ok (fold_left (rescan_step libs)
                  (elf_file_filter (PyDict.keys libs)) ∅).
Proof.
  unfold get_versioned_symbols. apply rescan_loop.
  intros p e Hin. by apply elf_file_filter_In in Hin as [? _].
Qed.

Lemma rescan_keep (libs : list (string * string))
  (items : list (string * ELFFile))
  (r0 : gmap string (gmap string (gset string))) (soname : string) :
  (forall p e, In (p, e) items -> PyDict.get libs p <> Some soname) ->
  (forall p e, In (p, e) items -> In p (PyDict.keys libs)) ->
  fold_left (rescan_step libs) items r0 !! soname = r0 !! soname.
Proof.
  revert r0. induction items as [|[p e] items IH]; intros r0 Hne Hin;
    [done|].
  cbn [fold_left]. rewrite IH.
  - unfold rescan_step. cbn [fst snd]. apply lookup_insert_ne.
    destruct (proj2 (PyDictFacts.get_is_Some_keys libs p)) as [s Hs].
    { apply (Hin p e). by left. }
    rewrite Hs. cbn. intros ->. apply (Hne p e); [by left|done].
  - intros p' e' H. apply (Hne p' e'). by right.
  - intros p' e' H. apply (Hin p' e'). by right.
Qed.

(** The last file scanned under a declared name gives its symbols. *)
Lemma rescan_last_wins (libs : list (string * string))
  (l1 l2 : list (string * ELFFile)) (p : string) (e : ELFFile)
  (soname : string) :
  elf_file_filter (PyDict.keys libs) = (l1 ++ (p, e) :: l2)%list ->
  PyDict.get libs p = Some soname ->
  (forall p' e', In (p', e') l2 -> PyDict.get libs p' <> Some soname) ->
  fold_left (rescan_step libs) (elf_file_filter (PyDict.keys libs)) ∅
    !! soname
  = Some (add_symbols ∅ (elf_find_versioned_symbols e)).
Proof.
  intros Hsplit Hp Hlater.
  assert (forall p' e', In (p', e') l2 -> In p' (PyDict.keys libs)) as Hin.
  { intros p' e' H.
    assert (In (p', e') (elf_file_filter (PyDict.keys libs))) as H'.
    { rewrite Hsplit. apply in_or_app. right. by right. }
    by apply elf_file_filter_In in H' as [? _]. }
  rewrite Hsplit, fold_left_app. cbn [fold_left].
  rewrite rescan_keep by done.
  unfold rescan_step at 1. cbn [fst snd]. rewrite Hp. cbn.
  apply lookup_insert_eq.
Qed.

Lemma select_symbol_policy_total
  (versioned_symbols : gmap string (gset string))
  (external_refs : list (string * policy_refs)) :
  exists r, select_symbol_policy versioned_symbols external_refs = Ok r.
Proof.
  unfold select_symbol_policy. rewrite get_versioned_symbols_eq.
  cbn [bind]. eauto.
Qed.
End Rescan.

(** ** The verdict *)

Lemma py_min4_min (a b c d : Z) :
  py_min4 a b c d = Z.min a (Z.min b (Z.min c d)).
Proof.
  unfold py_min4. cbn [fold_left].
  destruct (Z.ltb_spec b a);
    match goal with |- context [c <? ?m] => destruct (Z.ltb_spec c m) end;
    match goal with |- context [d <? ?m] => destruct (Z.ltb_spec d m) end;
    lia.
Qed.

Lemma str_in_In (x : string) (l : list string) : str_in x l = true <-> In x l.
Proof.
  unfold str_in. rewrite existsb_exists. split.
  - intros (y & Hy & ->%String.eqb_eq). done.
  - intros H. exists x. split; [done|apply String.eqb_refl].
Qed.

Lemma first_such {A : Type} (P : A -> bool) (l : list A) :
  (exists x, In x l /\ P x = true) ->
  exists l1 x l2, l = (l1 ++ x :: l2)%list
                  /\ forallb (fun y => negb (P y)) l1 = true /\ P x = true.
Proof.
  induction l as [|a l IH]; [by intros (? & [] & _)|].
  intros (x & Hin & Hx). destruct (P a) eqn:Ha.
  - by exists [], a, l.
  - destruct IH as (l1 & y & l2 & -> & Hl1 & Hy).
    { destruct Hin as [->|Hin]; [congruence|eauto]. }
    exists (a :: l1), y, l2. cbn. by rewrite Ha.
Qed.

Section Verdict.
Context {ELFFile elftree : Type} {C : Collaborators ELFFile elftree}.

Lemma get_wheel_elfdata_Ok (wheel_fn : string) trees by_fn vs ucs fpe :
  get_wheel_elfdata wheel_fn = Ok (trees, by_fn, vs, ucs, fpe) ->
  exists st, scan_wheel wheel_fn = Ok st
             /\ trees = ElfData.full_elftree st
             /\ by_fn = ElfData.full_external_refs st
             /\ vs = ElfData.versioned_symbols st
             /\ ucs = ElfData.uses_ucs2_symbols st
             /\ fpe = ElfData.uses_PyFPE_jbuf st.
Proof.
  unfold get_wheel_elfdata. destruct (scan_wheel wheel_fn) as [st|]; [|done].
  cbn [bind]. intros [= <- <- <- <- <-]. by exists st.
Qed.

(** Without a misplaced file the whole analysis returns a verdict. *)
Lemma analyze_wheel_abi_total (wheel_fn : string) :
  forallb (fun x => negb (misplaced_file x))
          (elf_file_filter (iter_files (InGenericPkgCtx wheel_fn))) = true ->
  exists info, analyze_wheel_abi wheel_fn = Ok info.
Proof.
  intros Hclean.
  destruct (scan_loop_total (InGenericPkgCtx wheel_fn) _ ElfData.init Hclean)
    as [st1 Hst1].
  unfold analyze_wheel_abi, analyze_policies, get_wheel_elfdata.
  destruct (scan_wheel wheel_fn) as [st|] eqn:Hscan.
  - cbn [bind]. unfold analyze_policies_of.
    destruct (scan_wheel_spec _ _ Hscan)
      as (_ & _ & _ & _ & _ & Hk & Hnd & _).
    rewrite (collect_external_refs_eq _ _ Hk Hnd). cbn [bind].
    destruct (select_symbol_policy_total (ElfData.versioned_symbols st)
                (fold_left update_refs
                   (PyDict.values (ElfData.full_external_refs st))
                   initial_external_refs)) as [[sp vs'] ->].
    cbn [bind]. eauto.
  - unfold scan_wheel in Hscan. rewrite Hst1 in Hscan. done.
Qed.
End Verdict.

(** ** The claims about the verdict and the scan *)

(** C1. The overall tag names the minimum of the four sub-tag priorities
    (symbol versions, reference whitelist, legacy unicode,
    floating-point-exception buffer), whatever the cache holds; that
    minimum is at most each of the four, so the overall tag is never more
    permissive than a sub-tag. *)
Theorem overall_tag_is_minimum {ELFFile elftree : Type}
  (C : Collaborators ELFFile elftree)
  (cache : list (string * (list (string * elftree)
                           * list (string * list (string * policy_refs))
                           * gmap string (gset string) * bool * bool)))
  (wheel_fn : string) (info : WheelAbIInfo) cache' :
  analyze_wheel_abi_cached C cache wheel_fn = (Ok info, cache') ->
  exists data refs vs p,
    fst (get_wheel_elfdata_cached C cache wheel_fn) = Ok data
    /\ analyze_policies_of data = Ok (refs, vs, p)
    /\ sym_tag info = get_policy_name (symbol_policy p)
    /\ ref_tag info = get_policy_name (ref_policy p)
    /\ ucs_tag info = get_policy_name (ucs_policy p)
    /\ pyfpe_tag info = get_policy_name (pyfpe_policy p)
    /\ let overall :=
         Z.min (symbol_policy p)
               (Z.min (ref_policy p) (Z.min (ucs_policy p) (pyfpe_policy p)))
       in
       overall_tag info = get_policy_name overall
       /\ overall <= symbol_policy p /\ overall <= ref_policy p
       /\ overall <= ucs_policy p /\ overall <= pyfpe_policy p.
Proof.
  unfold analyze_wheel_abi_cached.
  destruct (get_wheel_elfdata_cached C cache wheel_fn) as [[data|e] c].
  2: { cbn. congruence. }
  cbn [bind fst].
  destruct (analyze_policies_of data) as [[[refs vs] p]|e] eqn:Hp.
  2: { cbn. congruence. }
  cbn [bind]. intros [= <- <-]. exists data, refs, vs, p.
  cbn [name_policies sym_tag ref_tag ucs_tag pyfpe_tag overall_tag].
  rewrite py_min4_min. repeat split; try reflexivity; try assumption; lia.
Qed.

Lemma overall_tag_is_minimum_witness :
  analyze_wheel_abi_cached Example.clean [] "demo.whl"
  = (Ok Example.clean_verdict, [("demo.whl", Example.clean_data)])
  /\ exists p, overall_tag Example.clean_verdict
               = Example.policy_name_of
                   (Z.min (symbol_policy p)
                      (Z.min (ref_policy p)
                         (Z.min (ucs_policy p) (pyfpe_policy p)))).
Proof.
  assert (analyze_wheel_abi_cached Example.clean [] "demo.whl"
          = (Ok Example.clean_verdict, [("demo.whl", Example.clean_data)]))
    as Hrun by vm_refl.
  split; [exact Hrun|].
  destruct (overall_tag_is_minimum Example.clean [] "demo.whl" _ _ Hrun)
    as (data & refs & vs & p & _ & _ & _ & _ & _ & _ & H & _).
  exists p. exact H.
Defined.

(** C7. A package with an ELF file under a [purelib] path component makes
    the analysis raise the malformed-package [RuntimeError], naming the
    first such file: [get_wheel_elfdata] and [analyze_wheel_abi] return no
    verdict and nothing is stored in the cache. *)
Theorem purelib_binary_aborts {ELFFile elftree : Type}
  (C : Collaborators ELFFile elftree) (wheel_fn : string) :
  (exists item,
      In item (elf_file_filter (iter_files (InGenericPkgCtx wheel_fn)))
      /\ misplaced_file item = true) ->
  exists f e,
    In (f, e) (elf_file_filter (iter_files (InGenericPkgCtx wheel_fn)))
    /\ In "purelib" (split os_sep f)
    /\ let err := RuntimeError [VStr (purelib_message (basename f))] in
       get_wheel_elfdata wheel_fn = Raise err
       /\ analyze_wheel_abi wheel_fn = Raise err
       /\ forall cache,
            PyDict.get cache wheel_fn = None ->
            analyze_wheel_abi_cached C cache wheel_fn = (Raise err, cache).
Proof.
  intros Hbad. apply first_such in Hbad as (l1 & [f e] & l2 & Hl & Hl1 & Hx).
  exists f, e. split; [rewrite Hl; apply in_or_app; right; by left|].
  split; [by apply str_in_In|].
  assert (get_wheel_elfdata wheel_fn
          = Raise (RuntimeError [VStr (purelib_message (basename f))])) as Hd.
  { unfold get_wheel_elfdata, scan_wheel. rewrite Hl.
    by rewrite scan_loop_Raise. }
  cbn zeta. split; [done|]. split.
  - unfold analyze_wheel_abi, analyze_policies. by rewrite Hd.
  - intros cache Hmiss.
    unfold analyze_wheel_abi_cached, get_wheel_elfdata_cached, LruCache.call.
    by rewrite Hmiss, Hd.
Qed.

Lemma purelib_binary_aborts_witness :
  exists f,
    In "purelib" (split os_sep f)
    /\ @analyze_wheel_abi _ _ Example.misplaced "demo.whl"
       = Raise (RuntimeError [VStr (purelib_message (basename f))]).
Proof.
  destruct (purelib_binary_aborts Example.misplaced "demo.whl")
    as (f & e & _ & Hpure & _ & Hraise & _).
  { eexists (_, _). split; [right; left; reflexivity|reflexivity]. }
  exists f. split; [exact Hpure|exact Hraise].
Defined.

(** C10. The package's own versioned-symbol set is exactly the union of
    the (dependency name, version) pairs of every ELF file of the package:
    each file contributes, whether it is analysed at top level or not, and
    nothing else does. *)
Theorem own_symbols_of_every_elf {ELFFile elftree : Type}
  (C : Collaborators ELFFile elftree) (wheel_fn : string)
  trees by_fn vs ucs fpe :
  get_wheel_elfdata wheel_fn = Ok (trees, by_fn, vs, ucs, fpe) ->
  (forall f e k v,
      In (f, e) (elf_file_filter (iter_files (InGenericPkgCtx wheel_fn))) ->
      In (k, v) (elf_find_versioned_symbols e) ->
      v ∈ default ∅ (vs !! k))
  /\ (forall k v,
        v ∈ default ∅ (vs !! k) ->
        exists f e,
          In (f, e) (elf_file_filter (iter_files (InGenericPkgCtx wheel_fn)))
          /\ In (k, v) (elf_find_versioned_symbols e)).
Proof.
  intros (st & Hscan & _ & _ & -> & _)%get_wheel_elfdata_Ok.
  destruct (scan_wheel_spec _ _ Hscan) as (_ & Hsym & _).
  split.
  - intros f e k v Hin Hkv. apply Hsym. eauto.
  - intros k v Hv. by apply Hsym.
Qed.

Lemma own_symbols_of_every_elf_witness :
  @get_wheel_elfdata _ _ Example.rebuilt "demo.whl" = Ok Example.rebuilt_data
  /\ ~ In "pkg/.libs/libext.so.1"
         (PyDict.keys [("pkg/mod.so", Example.rebuilt_mod)])
  /\ "GLIBC_2.17" ∈ default ∅ (Example.rebuilt_symbols !! "libc.so.6").
Proof.
  assert (@get_wheel_elfdata _ _ Example.rebuilt "demo.whl"
          = Ok Example.rebuilt_data) as Hrun by vm_refl.
  split; [exact Hrun|]. split; [cbn; intuition discriminate|].
  apply (proj1 (own_symbols_of_every_elf Example.rebuilt "demo.whl"
                  _ _ _ _ _ Hrun)
           "pkg/.libs/libext.so.1" Example.rebuilt_libext
           "libc.so.6" "GLIBC_2.17").
  - right. left. reflexivity.
  - left. reflexivity.
Defined.

(** C8 (amended). The two special-symbol flags are computed from the
    runtime-extension objects only.  The floating-point-exception-buffer
    flag is set exactly when some extension module has the symbol
    [PyFPE_jbuf], by exact name, among its imported symbols; the legacy
    narrow-unicode flag is set exactly when some extension module of the
    older runtime generation ([py_ver == 2]) has at least one narrow-unicode
    symbol, however many. *)
Theorem special_symbol_flags {ELFFile elftree : Type}
  (C : Collaborators ELFFile elftree) (wheel_fn : string)
  trees by_fn vs ucs fpe :
  get_wheel_elfdata wheel_fn = Ok (trees, by_fn, vs, ucs, fpe) ->
  let files := elf_file_filter (iter_files (InGenericPkgCtx wheel_fn)) in
  (fpe = true
   <-> exists f e, In (f, e) files
                   /\ fst (elf_is_python_extension f e) = true
                   /\ In "PyFPE_jbuf" (elf_imported_symbols e))
  /\ (ucs = true
      <-> exists f e, In (f, e) files
                      /\ fst (elf_is_python_extension f e) = true
                      /\ snd (elf_is_python_extension f e) = Some 2
                      /\ elf_find_ucs2_symbols e <> []).
Proof.
  intros (st & Hscan & _ & _ & _ & -> & ->)%get_wheel_elfdata_Ok files.
  destruct (scan_wheel_spec _ _ Hscan) as (_ & _ & _ & _ & _ & _ & _ & Hf & Hu).
  split; [|exact Hu]. rewrite Hf. unfold elf_references_PyFPE_jbuf.
  split; intros (f & e & Hin & Hext & Hsym); exists f, e;
    (split; [done|]); (split; [done|]); by apply str_in_In.
Qed.

Lemma special_symbol_flags_witness :
  @get_wheel_elfdata _ _ Example.legacy "demo.whl" = Ok Example.legacy_data
  /\ exists f e,
       In (f, e) (@elf_file_filter _ _ Example.legacy
                    (iter_files (@InGenericPkgCtx _ _ Example.legacy
                                   "demo.whl")))
       /\ fst (@elf_is_python_extension _ _ Example.legacy f e) = true
       /\ In "PyFPE_jbuf" (@elf_imported_symbols _ _ Example.legacy e).
Proof.
  assert (@get_wheel_elfdata _ _ Example.legacy "demo.whl"
          = Ok Example.legacy_data) as Hrun by vm_refl.
  split; [exact Hrun|].
  exact (proj1 (proj1 (special_symbol_flags Example.legacy "demo.whl"
                         _ _ _ _ _ Hrun))
               eq_refl).
Defined.

(** A helper library that is analysed at top level and imports
    [PyFPE_jbuf] does not set the flag: C8 as stated, for every analysed
    object, fails. *)
Lemma special_symbol_flags_counterexample :
  @get_wheel_elfdata _ _ Example.helper "demo.whl"
  = Ok ([("pkg/libhelper.so", Example.helper_lib)],
        [("pkg/libhelper.so", Example.refs [] [])], ∅, false, false)
  /\ @elf_open _ _ Example.helper "pkg/libhelper.so"
     = Some Example.helper_lib
  /\ In "PyFPE_jbuf" (@elf_imported_symbols _ _ Example.helper
                        Example.helper_lib).
Proof.
  split; [vm_refl|]. split; [reflexivity|]. left. reflexivity.
Qed.

(** C2 (amended). When [get_wheel_elfdata] returns, the top-level objects
    are the extension modules and those other ELF files of the package
    whose basename is not among the needed names of any ELF file of the
    package; each is recorded once, with the tree and the external
    references of its own path.  (No statement that an external dependency
    is reached exactly once: see the counterexample.) *)
Theorem top_level_objects {ELFFile elftree : Type}
  (C : Collaborators ELFFile elftree) (wheel_fn : string)
  trees by_fn vs ucs fpe :
  get_wheel_elfdata wheel_fn = Ok (trees, by_fn, vs, ucs, fpe) ->
  let ctx := InGenericPkgCtx wheel_fn in
  let files := elf_file_filter (iter_files ctx) in
  let needed_names : gset string :=
    list_to_set (flat_map (fun fe => needed (lddtree (fst fe))) files) in
  (forall f e, In (f, e) files ->
               fst (elf_is_python_extension f e) = true ->
               In f (PyDict.keys trees))
  /\ (forall f e, In (f, e) files ->
                  fst (elf_is_python_extension f e) = false ->
                  (In f (PyDict.keys trees) <-> basename f ∉ needed_names))
  /\ (forall f, In f (PyDict.keys trees) -> exists e, In (f, e) files)
  /\ NoDup (PyDict.keys trees)
  /\ PyDict.keys by_fn = PyDict.keys trees
  /\ (forall f t, In (f, t) trees -> t = lddtree f)
  /\ (forall f r, In (f, r) by_fn ->
                  r = lddtree_external_references (lddtree f) (path ctx)).
Proof.
  intros (st & Hscan & -> & -> & _)%get_wheel_elfdata_Ok ctx files N.
  destruct (scan_wheel_spec _ _ Hscan)
    as (_ & _ & Hkeys & Ht & Hr & Hk & Hnd & _).
  fold ctx files N in Hkeys.
  split; [|split; [|split; [|split; [|split; [|split]]]]]; try done.
  - intros f e Hin Hext. apply Hkeys. exists e. tauto.
  - intros f e Hin Hext. split.
    + intros (e' & Hin' & [Hext'|HN])%Hkeys; [|done].
      rewrite (elf_file_filter_fun _ _ _ _ Hin Hin') in Hext. congruence.
    + intros HN. apply Hkeys. exists e. tauto.
  - intros f (e & Hin & _)%Hkeys. by exists e.
Qed.

Lemma top_level_objects_witness :
  @get_wheel_elfdata _ _ Example.rebuilt "demo.whl" = Ok Example.rebuilt_data
  /\ (In "pkg/.libs/libext.so.1"
         (PyDict.keys [("pkg/mod.so", Example.rebuilt_mod)])
      <-> basename "pkg/.libs/libext.so.1"
          ∉ (list_to_set
               (flat_map
                  (fun fe => @needed _ _ Example.rebuilt
                               (@lddtree _ _ Example.rebuilt (fst fe)))
                  (@elf_file_filter _ _ Example.rebuilt
                     (iter_files (@InGenericPkgCtx _ _ Example.rebuilt
                                    "demo.whl")))) : gset string)).
Proof.
  assert (@get_wheel_elfdata _ _ Example.rebuilt "demo.whl"
          = Ok Example.rebuilt_data) as Hrun by vm_refl.
  split; [exact Hrun|].
  destruct (top_level_objects Example.rebuilt "demo.whl" _ _ _ _ _ Hrun)
    as (_ & Hlib & _).
  apply (Hlib "pkg/.libs/libext.so.1" Example.rebuilt_libext).
  - right. left. reflexivity.
  - reflexivity.
Defined.

(** C2 as stated fails in both directions.  In [Example.cycle] the
    external [libext.so.1] is a dependency of an ELF file of the package
    and no top-level object reaches it; in [Example.shared] two top-level
    objects reach it. *)
Lemma top_level_objects_counterexample :
  (In ("pkg/libb.so", Example.cycle_b)
      (@elf_file_filter _ _ Example.cycle
         (iter_files (@InGenericPkgCtx _ _ Example.cycle "demo.whl")))
   /\ declares (@lddtree_external_references _ _ Example.cycle
                  (@lddtree _ _ Example.cycle "pkg/libb.so") "/tmp/demo")
               "manylinux1" "libext.so.1" = true
   /\ @get_wheel_elfdata _ _ Example.cycle "demo.whl" = Ok ([], [], ∅, false, false)
   /\ visits [] "manylinux1" "libext.so.1" = [])
  /\ (@get_wheel_elfdata _ _ Example.shared "demo.whl"
      = Ok Example.shared_data
      /\ visits [("pkg/a.so", Example.refs Example.libext Example.libext);
                 ("pkg/b.so", Example.refs Example.libext Example.libext)]
                "manylinux1" "libext.so.1"
         = ["pkg/a.so"; "pkg/b.so"]).
Proof.
  split.
  - split; [right; left; reflexivity|]. split; [reflexivity|].
    split; [vm_refl|reflexivity].
  - split; [vm_refl|reflexivity].
Qed.

(** ** The merged references: last writer wins *)

Lemma keys_update_libs (u d : list (string * option string)) (k : string) :
  In k (PyDict.keys (update_libs d u))
  <-> In k (PyDict.keys d) \/ In k (PyDict.keys u).
Proof.
  unfold update_libs. revert d.
  induction u as [|[k0 v0] u IH]; intros d; cbn [fold_left fst snd].
  - cbn. tauto.
  - rewrite IH, PyDictFacts.In_keys_set. cbn. intuition congruence.
Qed.

Lemma NoDup_update_libs (u d : list (string * option string)) :
  NoDup (PyDict.keys d) -> NoDup (PyDict.keys (update_libs d u)).
Proof.
  unfold update_libs. revert d.
  induction u as [|[k0 v0] u IH]; intros d Hd; cbn [fold_left]; [done|].
  by apply IH, PyDictFacts.NoDup_keys_set.
Qed.

Lemma get_update_libs_fresh (u d : list (string * option string))
  (k : string) :
  PyDict.get u k = None ->
  PyDict.get (update_libs d u) k = PyDict.get d k.
Proof.
  unfold update_libs. revert d.
  induction u as [|[k0 v0] u IH]; intros d; cbn [fold_left fst snd];
    [done|].
  cbn [PyDict.get]. destruct (String.eqb_spec k0 k) as [->|Hne]; [done|].
  intros Hu. rewrite IH by done. by apply PyDictFacts.get_set_ne.
Qed.

Lemma get_update_libs_written (u d : list (string * option string))
  (k : string) (v : option string) :
  NoDup (PyDict.keys u) -> PyDict.get u k = Some v ->
  PyDict.get (update_libs d u) k = Some v.
Proof.
  unfold update_libs. revert d.
  induction u as [|[k0 v0] u IH]; intros d Hnd; cbn [fold_left fst snd];
    [done|].
  cbn in Hnd. apply NoDup_cons in Hnd as [Hk0 Hnd].
  cbn [PyDict.get]. destruct (String.eqb_spec k0 k) as [->|Hne].
  - intros [= ->].
    fold (update_libs (PyDict.set d k v) u).
    rewrite get_update_libs_fresh; [apply PyDictFacts.get_set_eq|].
    apply PyDictFacts.get_None_keys. intros H. apply Hk0.
    by apply list_elem_of_In.
  - intros Hu. by apply IH.
Qed.

Lemma get_update_refs (u d : list (string * policy_refs)) (k : string) :
  NoDup (PyDict.keys u) ->
  PyDict.get (update_refs d u) k
  = match PyDict.get u k with
    | Some e => Some (update_policy (PyDict.get d k) e)
    | None => PyDict.get d k
    end.
Proof.
  unfold update_refs. revert d.
  induction u as [|[k0 e0] u IH]; intros d Hnd; cbn [fold_left fst snd];
    [done|].
  cbn in Hnd. apply NoDup_cons in Hnd as [Hk0 Hnd].
  rewrite IH by done. cbn [PyDict.get].
  destruct (String.eqb_spec k0 k) as [->|Hne].
  - assert (PyDict.get u k = None) as ->.
    { apply PyDictFacts.get_None_keys. intros H. apply Hk0.
      by apply list_elem_of_In. }
    apply PyDictFacts.get_set_eq.
  - rewrite PyDictFacts.get_set_ne by done. done.
Qed.

Lemma libs_of_update_refs (u d : list (string * policy_refs))
  (policy : string) :
  NoDup (PyDict.keys u) ->
  libs_of (update_refs d u) policy
  = update_libs (libs_of d policy) (libs_of u policy).
Proof.
  intros Hnd. unfold libs_of. rewrite get_update_refs by done.
  by destruct (PyDict.get u policy).
Qed.

Lemma libs_of_fold (us : list (list (string * policy_refs)))
  (d : list (string * policy_refs)) (policy : string) :
  (forall u, In u us -> refs_dict u) ->
  libs_of (fold_left update_refs us d) policy
  = fold_left update_libs (map (fun u => libs_of u policy) us)
              (libs_of d policy).
Proof.
  revert d. induction us as [|u us IH]; intros d Hus; [done|].
  cbn [fold_left map]. rewrite IH by (intros; apply Hus; by right).
  rewrite libs_of_update_refs; [done|]. apply Hus. by left.
Qed.

Lemma In_of_items {V : Type} (items : list (string * V)) (k : string) (v : V) :
  In (k, v) (PyDict.of_items items) -> In (k, v) items.
Proof.
  unfold PyDict.of_items.
  assert (forall d, In (k, v)
                      (fold_left (fun d kv => PyDict.set d (fst kv) (snd kv))
                                 items d) ->
                    In (k, v) d \/ In (k, v) items) as H.
  { induction items as [|[k0 v0] items IH]; intros d; cbn [fold_left fst snd];
      [by left|].
    intros [[[-> ->]|Hd]%In_set_inv|Hi]%IH.
    - right. by left.
    - by left.
    - right. by right. }
  intros [[]|Hi]%H. done.
Qed.

Lemma libs_of_initial {ELFFile elftree : Type}
  {C : Collaborators ELFFile elftree} (policy : string) :
  libs_of initial_external_refs policy = [].
Proof.
  unfold libs_of. destruct (PyDict.get _ policy) as [e|] eqn:E; [|done].
  apply PyDictFacts.get_Some_In, In_of_items, in_map_iff in E
    as (p & [= _ <-] & _). done.
Qed.

Lemma fold_update_libs_NoDup (ls : list (list (string * option string)))
  (d : list (string * option string)) :
  NoDup (PyDict.keys d) -> NoDup (PyDict.keys (fold_left update_libs ls d)).
Proof.
  revert d. induction ls as [|l ls IH]; intros d Hd; [done|].
  cbn [fold_left]. by apply IH, NoDup_update_libs.
Qed.

Lemma fold_update_libs_grows (ls : list (list (string * option string)))
  (d : list (string * option string)) (k : string) :
  In k (PyDict.keys d) -> In k (PyDict.keys (fold_left update_libs ls d)).
Proof.
  revert d. induction ls as [|l ls IH]; intros d Hd; [done|].
  cbn [fold_left]. apply IH, keys_update_libs. by left.
Qed.

Lemma fold_update_libs_fresh (ls : list (list (string * option string)))
  (d : list (string * option string)) (k : string) :
  (forall l, In l ls -> PyDict.get l k = None) ->
  PyDict.get (fold_left update_libs ls d) k = PyDict.get d k.
Proof.
  revert d. induction ls as [|l ls IH]; intros d Hls; [done|].
  cbn [fold_left]. rewrite IH by (intros; apply Hls; by right).
  apply get_update_libs_fresh, Hls. by left.
Qed.

Lemma refs_dict_libs_of (u : list (string * policy_refs)) (policy : string) :
  refs_dict u -> NoDup (PyDict.keys (libs_of u policy)).
Proof.
  intros [_ Hu]. unfold libs_of.
  destruct (PyDict.get u policy) as [e|] eqn:E; [|constructor].
  eapply Hu. by apply PyDictFacts.get_Some_In.
Qed.

(** C3 (amended). Each policy's entry of [external_refs], merged over the
    top-level objects in their order, maps a declared name to a real path:
    a declared name appears at most once; the last writer wins (the real
    path an object gives for a name stays only until a later object gives
    one for the same name, and one real path under two names is two
    entries); the set of declared names only grows during the pass. *)
Theorem external_refs_last_writer_wins {ELFFile elftree : Type}
  (C : Collaborators ELFFile elftree) (wheel_fn : string)
  trees by_fn vs ucs fpe :
  get_wheel_elfdata wheel_fn = Ok (trees, by_fn, vs, ucs, fpe) ->
  (forall u, In u (PyDict.values by_fn) -> refs_dict u) ->
  exists final,
    collect_external_refs trees by_fn = Ok final
    /\ final = fold_left update_refs (PyDict.values by_fn)
                         initial_external_refs
    /\ forall policy,
         NoDup (PyDict.keys (libs_of final policy))
         /\ (forall us1 u us2 soname realpath,
               PyDict.values by_fn = (us1 ++ u :: us2)%list ->
               PyDict.get (libs_of u policy) soname = Some realpath ->
               (forall u', In u' us2 ->
                           PyDict.get (libs_of u' policy) soname = None) ->
               PyDict.get (libs_of final policy) soname = Some realpath)
         /\ (forall us1 us2 soname,
               PyDict.values by_fn = (us1 ++ us2)%list ->
               In soname
                  (PyDict.keys
                     (libs_of (fold_left update_refs us1
                                         initial_external_refs) policy)) ->
               In soname (PyDict.keys (libs_of final policy))).
Proof.
  intros Hdata Hdict.
  apply get_wheel_elfdata_Ok in Hdata as (st & Hscan & -> & -> & _).
  destruct (scan_wheel_spec _ _ Hscan) as (_ & _ & _ & _ & _ & Hk & Hnd & _).
  eexists. split; [by apply collect_external_refs_eq|]. split; [done|].
  intros policy. set (us := PyDict.values (ElfData.full_external_refs st)) in *.
  rewrite libs_of_fold, libs_of_initial by done.
  split; [apply fold_update_libs_NoDup; constructor|]. split.
  - intros us1 u us2 soname realpath Hsplit Hu Hlater.
    rewrite Hsplit, map_app, fold_left_app. cbn [map fold_left].
    rewrite fold_update_libs_fresh.
    + apply get_update_libs_written; [|done].
      apply refs_dict_libs_of, Hdict. rewrite Hsplit.
      apply in_or_app. right. by left.
    + intros l (u' & <- & Hu')%in_map_iff. by apply Hlater.
  - intros us1 us2 soname Hsplit Hin.
    rewrite libs_of_fold, libs_of_initial in Hin.
    + rewrite Hsplit, map_app, fold_left_app.
      by apply fold_update_libs_grows.
    + intros u Hu. apply Hdict. rewrite Hsplit. apply in_or_app. by left.
Qed.

Lemma Example_rpaths_refs_dict (u : list (string * policy_refs)) :
  In u [Example.refs Example.foo_a Example.foo_a;
        Example.refs Example.foo_b [];
        Example.refs Example.two_names Example.two_names] ->
  refs_dict u.
Proof.
  intros [<-|[<-|[<-|[]]]]; (split;
    [ repeat constructor; rewrite ?list_elem_of_In; cbn;
      intuition discriminate
    | intros policy e [[= <- <-]|[[= <- <-]|[[= <- <-]|[]]]];
      repeat constructor; rewrite ?list_elem_of_In; cbn;
      intuition discriminate ]).
Qed.

Lemma external_refs_last_writer_wins_witness :
  @get_wheel_elfdata _ _ Example.rpaths "demo.whl" = Ok Example.rpaths_data
  /\ exists final,
       @collect_external_refs _ _ Example.rpaths
         [("pkg/a.so", Example.rpaths_a); ("pkg/b.so", Example.rpaths_b);
          ("pkg/c.so", Example.rpaths_c)]
         [("pkg/a.so", Example.refs Example.foo_a Example.foo_a);
          ("pkg/b.so", Example.refs Example.foo_b []);
          ("pkg/c.so", Example.refs Example.two_names Example.two_names)]
       = Ok final
       /\ PyDict.get (libs_of final "manylinux1") "libfoo.so.1"
          = Some (Some "/opt/b/libfoo.so.1").
Proof.
  assert (@get_wheel_elfdata _ _ Example.rpaths "demo.whl"
          = Ok Example.rpaths_data) as Hrun by vm_refl.
  split; [exact Hrun|].
  destruct (external_refs_last_writer_wins Example.rpaths "demo.whl"
              _ _ _ _ _ Hrun Example_rpaths_refs_dict)
    as (final & Hfinal & _ & Hprops).
  exists final. split; [exact Hfinal|].
  destruct (Hprops "manylinux1") as (_ & Hlast & _).
  apply (Hlast [Example.refs Example.foo_a Example.foo_a]
               (Example.refs Example.foo_b [])
               [Example.refs Example.two_names Example.two_names]);
    [reflexivity|reflexivity|].
  intros u' [<-|[]]. reflexivity.
Defined.

(** C3 as stated fails: in [Example.rpaths] the first top-level object
    writes [/opt/a/libfoo.so.1] for [libfoo.so.1] and the second replaces it
    with [/opt/b/libfoo.so.1] (no first writer wins, no separate entry, and
    the earlier real path is gone), and the real path [/opt/c/libz.so.1.2]
    appears twice. *)
Lemma external_refs_last_writer_wins_counterexample :
  @get_wheel_elfdata _ _ Example.rpaths "demo.whl"
  = Ok ([("pkg/a.so", Example.rpaths_a); ("pkg/b.so", Example.rpaths_b);
         ("pkg/c.so", Example.rpaths_c)],
        [("pkg/a.so", Example.refs Example.foo_a Example.foo_a);
         ("pkg/b.so", Example.refs Example.foo_b []);
         ("pkg/c.so", Example.refs Example.two_names Example.two_names)],
        ∅, false, false)
  /\ libs_of (Example.refs Example.foo_a Example.foo_a) "manylinux1"
     = [("libfoo.so.1", Some "/opt/a/libfoo.so.1")]
  /\ @collect_external_refs _ _ Example.rpaths
       [("pkg/a.so", Example.rpaths_a); ("pkg/b.so", Example.rpaths_b);
        ("pkg/c.so", Example.rpaths_c)]
       [("pkg/a.so", Example.refs Example.foo_a Example.foo_a);
        ("pkg/b.so", Example.refs Example.foo_b []);
        ("pkg/c.so", Example.refs Example.two_names Example.two_names)]
     = Ok Example.rpaths_refs
  /\ libs_of Example.rpaths_refs "manylinux1"
     = [("libfoo.so.1", Some "/opt/b/libfoo.so.1");
        ("libbar.so.2", Some "/opt/b/libbar.so.2");
        ("libz.so", Some "/opt/c/libz.so.1.2");
        ("libz.so.1", Some "/opt/c/libz.so.1.2")].
Proof.
  split; [vm_refl|]. split; [reflexivity|]. split; [vm_refl|reflexivity].
Qed.

(** ** External libraries and their symbols *)

Lemma set_fresh {V : Type} (d : list (string * V)) (k : string) (v : V) :
  PyDict.mem d k = false -> PyDict.set d k v = (d ++ [(k, v)])%list.
Proof.
  unfold PyDict.mem. induction d as [|[k' v'] d IH]; [done|].
  cbn [PyDict.get PyDict.set app]. destruct (String.eqb k' k); [done|].
  intros H. by rewrite IH.
Qed.

Lemma mem_false_keys {V : Type} (d : list (string * V)) (k : string) :
  PyDict.mem d k = false <-> ~ In k (PyDict.keys d).
Proof.
  rewrite <- PyDictFacts.mem_true_keys. by destruct (PyDict.mem d k).
Qed.

(** What one turn of the inner loop does: it appends the pair of a new,
    non-empty real path, and nothing else. *)
Lemma add_lib_cases (result : list (string * string)) (libname : string)
  (realpath : option string) :
  (exists rp, realpath = Some rp /\ rp <> EmptyString
              /\ ~ In rp (PyDict.keys result)
              /\ add_lib result (libname, realpath)
                 = (result ++ [(rp, libname)])%list)
  \/ (add_lib result (libname, realpath) = result
      /\ forall rp, realpath = Some rp -> rp <> EmptyString ->
                    In rp (PyDict.keys result)).
Proof.
  unfold add_lib. destruct realpath as [rp|]; [|by right].
  cbn [truthy]. destruct (String.eqb_spec rp EmptyString) as [->|Hne].
  { right. split; [done|]. by intros ? [= <-]. }
  cbn [negb andb]. destruct (PyDict.mem result rp) eqn:Hm.
  - right. split; [done|]. intros ? [= <-] _.
    by apply PyDictFacts.mem_true_keys.
  - left. exists rp. apply mem_false_keys in Hm as Hk.
    by rewrite set_fresh.
Qed.

(** The invariant of the inner loop. *)
Lemma add_libs_spec (items : list (string * option string)) :
  forall result,
    NoDup (PyDict.keys result) ->
    let result' := fold_left add_lib items result in
    NoDup (PyDict.keys result')
    /\ (exists new, result' = (result ++ new)%list)
    /\ (forall rp s, In (rp, s) result' ->
          In (rp, s) result
          \/ (rp <> EmptyString /\ In (s, Some rp) items))
    /\ (forall s rp, In (s, Some rp) items -> rp <> EmptyString ->
          In rp (PyDict.keys result')).
Proof.
  induction items as [|[s0 r0] items IH]; intros result Hnd; cbn zeta.
  { cbn [fold_left]. split; [done|]. split; [by exists []; rewrite app_nil_r|].
    split; [by left|]. by intros ? ? []. }
  cbn [fold_left].
  assert (NoDup (PyDict.keys (add_lib result (s0, r0)))
          /\ (exists new, add_lib result (s0, r0) = (result ++ new)%list)
          /\ (forall rp s, In (rp, s) (add_lib result (s0, r0)) ->
                In (rp, s) result
                \/ (rp <> EmptyString /\ (s, Some rp) = (s0, r0)))
          /\ (forall rp, r0 = Some rp -> rp <> EmptyString ->
                In rp (PyDict.keys (add_lib result (s0, r0)))))
    as (Hnd1 & [new1 Hnew1] & Hfrom1 & Hto1).
  { destruct (add_lib_cases result s0 r0)
      as [(rp & -> & Hne & Hfresh & ->)|[-> Hin]].
    - split; [|split; [by eexists|split]].
      + unfold PyDict.keys. rewrite map_app. cbn [map fst].
        apply NoDup_app. split; [done|]. split.
        * intros x Hx [->|[]]%list_elem_of_In. apply Hfresh.
          by apply list_elem_of_In.
        * apply NoDup_singleton.
      + intros rp' s [H|[[= <- <-]|[]]]%in_app_iff; [by left|by right].
      + intros rp' [= <-] _. unfold PyDict.keys. rewrite map_app, in_app_iff.
        right. by left.
    - split; [done|]. split; [by exists []; rewrite app_nil_r|].
      split; [by left|done]. }
  destruct (IH _ Hnd1) as (Hnd2 & [new2 Hnew2] & Hfrom2 & Hto2).
  split; [done|]. split.
  { exists (new1 ++ new2)%list. by rewrite Hnew2, Hnew1, app_assoc. }
  split.
  - intros rp s [H|[Hne Hin]]%Hfrom2.
    + destruct (Hfrom1 rp s H) as [?|[Hne Heq]]; [by left|].
      right. split; [done|]. by left.
    + right. split; [done|]. by right.
  - intros s rp [[= -> ->]|Hin] Hne.
    + rewrite Hnew2. unfold PyDict.keys. rewrite map_app, in_app_iff. left.
      by apply Hto1.
    + by apply (Hto2 s).
Qed.

(** The invariant of the outer loop. *)
Lemma add_policies_spec (policies : list policy_refs) :
  forall result,
    NoDup (PyDict.keys result) ->
    let result' := fold_left add_policy_libs policies result in
    NoDup (PyDict.keys result')
    /\ (exists new, result' = (result ++ new)%list)
    /\ (forall rp s, In (rp, s) result' ->
          In (rp, s) result
          \/ (rp <> EmptyString
              /\ exists e, In e policies /\ priority e <> 0
                           /\ In (s, Some rp) (libs e)))
    /\ (forall e s rp, In e policies -> priority e <> 0 ->
          In (s, Some rp) (libs e) -> rp <> EmptyString ->
          In rp (PyDict.keys result')).
Proof.
  induction policies as [|e0 policies IH]; intros result Hnd; cbn zeta.
  { cbn [fold_left]. split; [done|]. split; [by exists []; rewrite app_nil_r|].
    split; [by left|]. by intros ? ? ? []. }
  cbn [fold_left].
  assert (NoDup (PyDict.keys (add_policy_libs result e0))
          /\ (exists new, add_policy_libs result e0 = (result ++ new)%list)
          /\ (forall rp s, In (rp, s) (add_policy_libs result e0) ->
                In (rp, s) result
                \/ (rp <> EmptyString /\ priority e0 <> 0
                    /\ In (s, Some rp) (libs e0)))
          /\ (forall s rp, priority e0 <> 0 ->
                In (s, Some rp) (libs e0) -> rp <> EmptyString ->
                In rp (PyDict.keys (add_policy_libs result e0))))
    as (Hnd1 & [new1 Hnew1] & Hfrom1 & Hto1).
  { unfold add_policy_libs. destruct (Z.eqb_spec (priority e0) 0) as [H0|H0].
    - split; [done|]. split; [by exists []; rewrite app_nil_r|].
      split; [by left|done].
    - destruct (add_libs_spec (libs e0) result Hnd) as (H1 & H2 & H3 & H4).
      split; [done|]. split; [done|]. split.
      + intros rp s [?|[? ?]]%H3; [by left|by right].
      + intros s rp _. apply H4. }
  destruct (IH _ Hnd1) as (Hnd2 & [new2 Hnew2] & Hfrom2 & Hto2).
  split; [done|]. split.
  { exists (new1 ++ new2)%list. by rewrite Hnew2, Hnew1, app_assoc. }
  split.
  - intros rp s [H|[Hne (e & Hin & Hp & Hl)]]%Hfrom2.
    + destruct (Hfrom1 rp s H) as [?|(Hne & Hp & Hl)]; [by left|].
      right. split; [done|]. exists e0. split; [by left|done].
    + right. split; [done|]. exists e. split; [by right|done].
  - intros e s rp [->|Hin] Hp Hl Hne.
    + rewrite Hnew2. unfold PyDict.keys. rewrite map_app, in_app_iff. left.
      by apply (Hto1 s).
    + by apply (Hto2 e s).
Qed.

Lemma get_external_libs_fold (external_refs : list (string * policy_refs)) :
  get_external_libs external_refs
  = fold_left add_policy_libs (PyDict.values external_refs) [].
Proof. reflexivity. Qed.

Lemma get_external_libs_spec (external_refs : list (string * policy_refs)) :
  NoDup (PyDict.keys (get_external_libs external_refs))
  /\ (forall rp s, In (rp, s) (get_external_libs external_refs) ->
        rp <> EmptyString
        /\ exists name e, In (name, e) external_refs /\ priority e <> 0
                          /\ In (s, Some rp) (libs e))
  /\ (forall name e s rp, In (name, e) external_refs -> priority e <> 0 ->
        In (s, Some rp) (libs e) -> rp <> EmptyString ->
        In rp (PyDict.keys (get_external_libs external_refs))).
Proof.
  rewrite get_external_libs_fold.
  destruct (add_policies_spec (PyDict.values external_refs) [])
    as (Hnd & _ & Hfrom & Hto); [constructor|].
  split; [done|]. split.
  - intros rp s [[]|[Hne (e & Hin & Hp & Hl)]]%Hfrom. split; [done|].
    apply in_map_iff in Hin as ([name e'] & [= ->] & Hin).
    by exists name, e.
  - intros name e s rp Hin. apply Hto. apply in_map_iff. by exists (name, e).
Qed.

Lemma snoc_eq_split {A : Type} (acc l1 l2 : list A) (x y : A) :
  (acc ++ [x] = l1 ++ y :: l2)%list ->
  (l2 = [] /\ acc = l1 /\ x = y)
  \/ exists l2', l2 = (l2' ++ [x])%list /\ acc = (l1 ++ y :: l2')%list.
Proof.
  induction l2 as [|z l2 _] using rev_ind; intros H.
  - left. apply app_inj_tail in H as [-> ->]. done.
  - right. rewrite app_comm_cons, app_assoc in H.
    apply app_inj_tail in H as [-> ->]. by exists l2.
Qed.

(** The order of the result of the inner loop: an entry is either one the
    loop started with, or it was added when its real path was first met,
    under the name met there, after exactly the real paths met before. *)
Lemma add_libs_first_seen (items : list (string * option string)) :
  forall acc l1 rp s l2,
    fold_left add_lib items acc = (l1 ++ (rp, s) :: l2)%list ->
    (exists l2', acc = (l1 ++ (rp, s) :: l2')%list)
    \/ (rp <> EmptyString /\ ~ In rp (PyDict.keys acc)
        /\ exists d1 d2,
             items = (d1 ++ (s, Some rp) :: d2)%list
             /\ (forall s', ~ In (s', Some rp) d1)
             /\ forall k, In k (PyDict.keys l1)
                          <-> In k (PyDict.keys acc)
                              \/ (k <> EmptyString
                                  /\ exists s', In (s', Some k) d1)).
Proof.
  induction items as [|[s0 r0] items IH]; intros acc l1 rp s l2 H;
    cbn [fold_left] in H.
  { left. by exists l2. }
  destruct (add_lib_cases acc s0 r0)
    as [(rp0 & -> & Hne0 & Hfresh0 & Heq)|[Heq Hin0]];
    rewrite Heq in H;
    apply IH in H as [[l2' Hacc]|(Hne & Hfresh & d1 & d2 & -> & Hfirst & Hkeys)].
  - apply snoc_eq_split in Hacc as [(-> & -> & Hxy)|(l2'' & -> & ->)].
    + injection Hxy as <- <-. right. split; [done|]. split; [done|].
      exists [], items. split; [done|]. split; [by intros ? []|].
      intros k. split; [by left|]. by intros [?|(_ & ? & [])].
    + left. by exists l2''.
  - unfold PyDict.keys in Hfresh. rewrite map_app, in_app_iff in Hfresh.
    cbn [map fst In] in Hfresh.
    right. split; [done|]. split; [tauto|].
    exists ((s0, Some rp0) :: d1), d2. split; [done|]. split.
    + intros s' [Heq'|Hin]; [|by apply (Hfirst s')].
      injection Heq' as _ ->. tauto.
    + intros k. rewrite Hkeys. unfold PyDict.keys at 1.
      rewrite map_app, in_app_iff. cbn [map fst In].
      fold (PyDict.keys acc). split.
      * intros [[?|[<-|[]]]|(Hk & s' & Hs')].
        -- by left.
        -- right. split; [done|]. exists s0. by left.
        -- right. split; [done|]. exists s'. by right.
      * intros [?|(Hk & s' & [Heq'|Hs'])].
        -- left. by left.
        -- injection Heq' as _ ->. left. right. by left.
        -- right. split; [done|]. by exists s'.
  - left. by exists l2'.
  - right. split; [done|]. split; [done|].
    exists ((s0, r0) :: d1), d2. split; [done|]. split.
    + intros s' [Heq'|Hin]; [|by apply (Hfirst s')].
      injection Heq' as _ ->. apply Hfresh. by apply (Hin0 rp).
    + intros k. rewrite Hkeys. split.
      * intros [?|(Hk & s' & Hs')]; [by left|].
        right. split; [done|]. exists s'. by right.
      * intros [?|(Hk & s' & [Heq'|Hs'])]; [by left| |].
        -- injection Heq' as _ ->. left. by apply (Hin0 k).
        -- right. split; [done|]. by exists s'.
Qed.

(** The two nested loops of [get_external_libs] are one loop over
    [declared_libs]. *)
Lemma get_external_libs_declared
  (external_refs : list (string * policy_refs)) :
  get_external_libs external_refs
  = fold_left add_lib (declared_libs external_refs) [].
Proof.
  rewrite get_external_libs_fold. unfold declared_libs.
  assert (forall (ps : list policy_refs) acc,
            fold_left add_policy_libs ps acc
            = fold_left add_lib
                (flat_map (fun policy => if priority policy =? 0 then []
                                         else libs policy) ps) acc) as H.
  { induction ps as [|e ps IH]; intros acc; [done|].
    cbn [fold_left flat_map]. rewrite fold_left_app, IH.
    unfold add_policy_libs. by destruct (priority e =? 0). }
  apply H.
Qed.

Lemma In_declared_libs (external_refs : list (string * policy_refs))
  (item : string * option string) :
  In item (declared_libs external_refs)
  <-> exists name e, In (name, e) external_refs /\ priority e <> 0
                     /\ In item (libs e).
Proof.
  unfold declared_libs. rewrite in_flat_map. split.
  - intros (e & Hin & Hitem).
    apply in_map_iff in Hin as ([name e'] & Heq & Hin). cbn [snd] in Heq.
    subst e'. destruct (Z.eqb_spec (priority e) 0); [done|].
    by exists name, e.
  - intros (name & e & Hin & Hp & Hitem). exists e. split.
    + apply in_map_iff. by exists (name, e).
    + by destruct (Z.eqb_spec (priority e) 0).
Qed.

Section ScanOrder.
Context {ELFFile elftree : Type} {C : Collaborators ELFFile elftree}.

(** The files the re-scan visits: the paths that open, in their order. *)
Lemma elf_file_filter_paths (paths : list string) :
  map fst (elf_file_filter paths)
  = List.filter (fun p => match elf_open p with
                          | Some _ => true
                          | None => false
                          end) paths.
Proof.
  unfold elf_file_filter. induction paths as [|p paths IH]; [done|].
  cbn [flat_map List.filter]. rewrite map_app, IH.
  by destruct (elf_open p).
Qed.
End ScanOrder.

(** C4 (amended). [get_external_libs] keeps each non-empty real path of
    the policies whose priority is not 0 once, under the name it was first
    seen with, and in the order the real paths were first seen.  The
    re-scan visits the kept paths that open as ELF, in that order, never
    fails, and stores the symbols of each file under its declared name:
    when several kept real paths carry the same declared name, the last one
    scanned, not the first seen, gives the versioned symbols used for that
    name. *)
Theorem rescan_last_seen_wins {ELFFile elftree : Type}
  (C : Collaborators ELFFile elftree)
  (external_refs : list (string * policy_refs)) :
  let external_libs := get_external_libs external_refs in
  let declared := declared_libs external_refs in
  NoDup (PyDict.keys external_libs)
  /\ (forall soname realpath,
        In (soname, Some realpath) declared -> realpath <> EmptyString ->
        In realpath (PyDict.keys external_libs))
  /\ (forall l1 realpath soname l2,
        external_libs = (l1 ++ (realpath, soname) :: l2)%list ->
        realpath <> EmptyString
        /\ exists d1 d2,
             declared = (d1 ++ (soname, Some realpath) :: d2)%list
             /\ (forall soname', ~ In (soname', Some realpath) d1)
             /\ forall k, In k (PyDict.keys l1)
                          <-> k <> EmptyString
                              /\ exists soname', In (soname', Some k) d1)
  /\ map fst (elf_file_filter (PyDict.keys external_libs))
     = List.filter (fun p => match elf_open p with
                             | Some _ => true
                             | None => false
                             end) (PyDict.keys external_libs)
  /\ exists external_versioned_symbols,
       get_versioned_symbols external_libs = Ok external_versioned_symbols
       /\ forall l1 path elf l2 soname,
            elf_file_filter (PyDict.keys external_libs)
            = (l1 ++ (path, elf) :: l2)%list ->
            PyDict.get external_libs path = Some soname ->
            (forall path' elf',
                In (path', elf') l2 ->
                PyDict.get external_libs path' <> Some soname) ->
            external_versioned_symbols !! soname
            = Some (add_symbols ∅ (elf_find_versioned_symbols elf)).
Proof.
  intros external_libs declared.
  destruct (get_external_libs_spec external_refs) as (Hnd & _ & Hto).
  split; [exact Hnd|]. split.
  { intros soname realpath (name & e & Hin & Hp & Hl)%In_declared_libs Hne.
    by apply (Hto name e soname). }
  split.
  { intros l1 realpath soname l2 Hsplit. unfold external_libs in Hsplit.
    rewrite get_external_libs_declared in Hsplit.
    apply add_libs_first_seen in Hsplit
      as [[l2' Hnil]|(Hne & _ & d1 & d2 & Hd & Hfirst & Hkeys)].
    { by destruct l1. }
    split; [done|]. exists d1, d2. split; [done|]. split; [done|].
    intros k. rewrite Hkeys. cbn [PyDict.keys map In]. tauto. }
  split; [apply elf_file_filter_paths|].
  eexists. split; [apply get_versioned_symbols_eq|].
  intros l1 path elf l2 soname. apply rescan_last_wins.
Qed.

Lemma rescan_last_seen_wins_witness :
  get_external_libs Example.rpaths_refs = Example.rpaths_libs
  /\ In "/opt/a/libfoo.so.1"
        (PyDict.keys (get_external_libs Example.rpaths_refs))
  /\ exists evs,
       @get_versioned_symbols _ _ Example.rpaths Example.rpaths_libs = Ok evs
       /\ evs !! "libfoo.so.1" = Some Example.clean_symbols.
Proof.
  split; [reflexivity|].
  destruct (rescan_last_seen_wins Example.rpaths Example.rpaths_refs)
    as (_ & Hkept & _ & _ & evs & Hevs & Hlast).
  split.
  { apply (Hkept "libfoo.so.1" "/opt/a/libfoo.so.1"); [|discriminate].
    do 4 right. left. reflexivity. }
  exists evs. split; [exact Hevs|].
  apply (Hlast [("/opt/b/libfoo.so.1", Example.foo_at_b);
                ("/opt/b/libbar.so.2", Example.bar_at_b);
                ("/opt/c/libz.so.1.2", Example.z_at_c)]
               "/opt/a/libfoo.so.1" Example.foo_at_a [] "libfoo.so.1");
    [reflexivity|reflexivity|intros ? ? []].
Defined.

(** C4 as stated fails: in [Example.rpaths] the first real path seen for
    [libfoo.so.1] is [/opt/b/libfoo.so.1], which requires [GLIBC_2.12], and
    the symbols used for [libfoo.so.1] are those of [/opt/a/libfoo.so.1],
    which requires [GLIBC_2.5] only. *)
Lemma rescan_last_seen_wins_counterexample :
  @analyze_policies _ _ Example.rpaths "demo.whl"
  = Ok (Example.rpaths_refs, Example.clean_symbols,
        Example.priorities 100 0)
  /\ get_external_libs Example.rpaths_refs
     = [("/opt/b/libfoo.so.1", "libfoo.so.1");
        ("/opt/b/libbar.so.2", "libbar.so.2");
        ("/opt/c/libz.so.1.2", "libz.so");
        ("/opt/a/libfoo.so.1", "libfoo.so.1")]
  /\ @elf_open _ _ Example.rpaths "/opt/b/libfoo.so.1"
     = Some Example.foo_at_b
  /\ exists evs,
       @get_versioned_symbols _ _ Example.rpaths
         (get_external_libs Example.rpaths_refs) = Ok evs
       /\ evs !! "libfoo.so.1"
          <> Some (add_symbols ∅ (@elf_find_versioned_symbols _ _
                                   Example.rpaths Example.foo_at_b))
       /\ evs !! "libfoo.so.1"
          = Some (add_symbols ∅ [("libc.so.6", "GLIBC_2.5")]).
Proof.
  split; [vm_refl|]. split; [reflexivity|]. split; [reflexivity|].
  eexists. split; [apply get_versioned_symbols_eq|]. split.
  - vm_decide.
  - vm_refl.
Qed.

Section OwnSymbols.
Context {ELFFile elftree : Type} {C : Collaborators ELFFile elftree}.

Lemma get_external_libs_empty (external_refs : list (string * policy_refs)) :
  (forall name e, In (name, e) external_refs -> libs e = []) ->
  get_external_libs external_refs = [].
Proof.
  intros Hempty. unfold get_external_libs.
  match goal with
  | |- fold_left ?F _ [] = [] =>
      assert (forall acc, fold_left F (PyDict.values external_refs) acc
                          = acc) as Hgen
  end; [|apply Hgen].
  induction external_refs as [|[name e] refs IH]; intros acc; [done|].
  cbn [PyDict.values map fold_left snd].
  rewrite (Hempty name e) by (by left). cbn [fold_left].
  destruct (priority e =? 0); apply IH; intros; eapply Hempty; by right.
Qed.
End OwnSymbols.

Lemma py_max_by_const {A : Type} (key : A -> Z) (l : list A) (x : A) :
  Forall (fun y => y = x) l -> py_max_by key l x = x.
Proof.
  destruct l as [|a l]; [done|]. intros [-> Hl]%Forall_cons. cbn.
  induction Hl as [|b l -> Hl IH]; [done|]. cbn.
  by destruct (key x <? key x).
Qed.

Section OwnSymbolsPolicy.
Context {ELFFile elftree : Type} {C : Collaborators ELFFile elftree}.

Lemma get_symbol_policies_own (vs : gmap string (gset string))
  (evs : gmap string (gmap string (gset string)))
  (external_refs : list (string * policy_refs)) :
  (forall name e, In (name, e) external_refs -> libs e = []) ->
  Forall (fun y => y = (versioned_symbols_policy vs, vs))
         (get_symbol_policies vs evs external_refs).
Proof.
  intros Hempty. unfold get_symbol_policies.
  match goal with
  | |- Forall ?P (fold_left ?F _ []) =>
      assert (forall acc, Forall P acc ->
                          Forall P (fold_left F (PyDict.values external_refs)
                                              acc)) as Hgen
  end; [|apply Hgen; constructor].
  induction external_refs as [|[name e] refs IH]; intros acc Hacc; [done|].
  cbn [PyDict.values map fold_left snd].
  apply IH; [intros; eapply Hempty; by right|].
  destruct (priority e =? 0); [done|].
  apply Forall_app. split; [done|]. constructor; [|constructor].
  unfold policy_symbols. rewrite (Hempty name e) by (by left). done.
Qed.

Lemma select_symbol_policy_own (vs : gmap string (gset string))
  (external_refs : list (string * policy_refs)) :
  (forall name e, In (name, e) external_refs -> libs e = []) ->
  select_symbol_policy vs external_refs
  = Ok (versioned_symbols_policy vs, vs).
Proof.
  intros Hempty. unfold select_symbol_policy.
  rewrite get_versioned_symbols_eq. cbn [bind].
  by rewrite py_max_by_const by (by apply get_symbol_policies_own).
Qed.
End OwnSymbolsPolicy.

(** C5. When no policy has an external library in [external_refs], the
    symbol policy is the priority of the package's own versioned symbols
    and the reported set is that set itself, so [sym_tag] names
    [versioned_symbols_policy] of the own set. *)
Theorem no_external_libs_own_symbols {ELFFile elftree : Type}
  (C : Collaborators ELFFile elftree)
  trees by_fn (vs : gmap string (gset string)) ucs fpe refs vs' p :
  analyze_policies_of (trees, by_fn, vs, ucs, fpe) = Ok (refs, vs', p) ->
  (forall name e, In (name, e) refs -> libs e = []) ->
  symbol_policy p = versioned_symbols_policy vs
  /\ vs' = vs
  /\ sym_tag (name_policies (refs, vs', p))
     = get_policy_name (versioned_symbols_policy vs)
  /\ versioned_symbols (name_policies (refs, vs', p)) = vs.
Proof.
  unfold analyze_policies_of.
  destruct (collect_external_refs trees by_fn) as [refs0|]; [|done].
  cbn [bind]. intros Hrun Hempty.
  destruct (select_symbol_policy vs refs0) as [[sp vs0]|] eqn:Hsel; [|done].
  cbn [bind] in Hrun. injection Hrun as <- <- <-.
  rewrite select_symbol_policy_own in Hsel by done.
  injection Hsel as <- <-. done.
Qed.

Lemma no_external_libs_own_symbols_witness :
  @get_wheel_elfdata _ _ Example.clean "demo.whl" = Ok Example.clean_data
  /\ @analyze_policies_of _ _ Example.clean Example.clean_data
     = Ok (Example.refs [] [], Example.clean_symbols,
           Example.priorities 100 100)
  /\ symbol_policy (Example.priorities 100 100)
     = Example.symbols_policy Example.clean_symbols.
Proof.
  split; [vm_refl|].
  assert (@analyze_policies_of _ _ Example.clean Example.clean_data
          = Ok (Example.refs [] [], Example.clean_symbols,
                Example.priorities 100 100)) as Hrun by vm_refl.
  split; [exact Hrun|].
  destruct (no_external_libs_own_symbols Example.clean _ _ _ _ _ _ _ _ Hrun)
    as (H1 & _).
  - intros name e [[= <- <-]|[[= <- <-]|[[= <- <-]|[]]]]; reflexivity.
  - exact H1.
Defined.

(** ** The cache of [get_wheel_elfdata] *)

(** C9 (amended). The cache of [get_wheel_elfdata] is keyed by the path
    alone.  A call for a path that is not in the cache analyses the package
    as it is at that call; a call for a path that is in the cache returns
    the stored result whatever the package has become; so a second call
    with the same path returns the result of the first, also when the file
    changed in between. *)
Theorem cache_keyed_by_path {ELFFile elftree : Type}
  (C1 C2 : Collaborators ELFFile elftree)
  (cache : list (string * (list (string * elftree)
                           * list (string * list (string * policy_refs))
                           * gmap string (gset string) * bool * bool)))
  (wheel_fn : string) :
  (PyDict.get cache wheel_fn = None ->
   fst (get_wheel_elfdata_cached C1 cache wheel_fn)
   = @get_wheel_elfdata _ _ C1 wheel_fn)
  /\ (forall r, PyDict.get cache wheel_fn = Some r ->
                fst (get_wheel_elfdata_cached C1 cache wheel_fn) = Ok r)
  /\ (forall r cache1,
        get_wheel_elfdata_cached C1 cache wheel_fn = (Ok r, cache1) ->
        fst (get_wheel_elfdata_cached C2 cache1 wheel_fn) = Ok r).
Proof.
  unfold get_wheel_elfdata_cached, LruCache.call. split; [|split].
  - intros ->. by destruct (get_wheel_elfdata wheel_fn).
  - by intros r ->.
  - intros r cache1 Hcall.
    assert (PyDict.get cache1 wheel_fn = Some r) as ->; [|done].
    destruct (PyDict.get cache wheel_fn) as [r0|].
    + injection Hcall as <- <-. cbn. by rewrite String.eqb_refl.
    + destruct (@get_wheel_elfdata _ _ C1 wheel_fn) as [r1|]; [|done].
      injection Hcall as <- <-. cbn. by rewrite String.eqb_refl.
Qed.

Lemma cache_keyed_by_path_witness :
  get_wheel_elfdata_cached Example.clean [] "demo.whl"
  = (Ok Example.clean_data, [("demo.whl", Example.clean_data)])
  /\ fst (get_wheel_elfdata_cached Example.rebuilt
            [("demo.whl", Example.clean_data)] "demo.whl")
     = Ok Example.clean_data.
Proof.
  assert (get_wheel_elfdata_cached Example.clean [] "demo.whl"
          = (Ok Example.clean_data, [("demo.whl", Example.clean_data)]))
    as Hrun by vm_refl.
  split; [exact Hrun|].
  exact (proj2 (proj2 (cache_keyed_by_path Example.clean Example.rebuilt
                         [] "demo.whl")) _ _ Hrun).
Defined.

(** C9 as stated fails: the package at [demo.whl] is analysed, rebuilt in
    place and analysed again; the second call returns the data of the first
    package, not those of the package current at the call, and the verdict
    is the old one. *)
Lemma cache_keyed_by_path_counterexample :
  get_wheel_elfdata_cached Example.clean [] "demo.whl"
  = (Ok Example.clean_data, [("demo.whl", Example.clean_data)])
  /\ fst (get_wheel_elfdata_cached Example.rebuilt
            [("demo.whl", Example.clean_data)] "demo.whl")
     = Ok Example.clean_data
  /\ @get_wheel_elfdata _ _ Example.rebuilt "demo.whl"
     = Ok Example.rebuilt_data
  /\ Example.clean_data <> Example.rebuilt_data
  /\ fst (analyze_wheel_abi_cached Example.rebuilt
            [("demo.whl", Example.clean_data)] "demo.whl")
     = Ok Example.clean_verdict
  /\ @analyze_wheel_abi _ _ Example.rebuilt "demo.whl"
     = Ok Example.rebuilt_verdict
  /\ overall_tag Example.clean_verdict = Some "manylinux1"
  /\ overall_tag Example.rebuilt_verdict = Some "linux".
Proof.
  split; [vm_refl|]. split; [vm_refl|]. split; [vm_refl|]. split.
  { intros H.
    assert (snd (fst (fst Example.clean_data))
            <> snd (fst (fst Example.rebuilt_data))) as Hne by vm_decide.
    apply Hne. by rewrite H. }
  split; [vm_refl|]. split; [vm_refl|]. split; reflexivity.
Qed.

(** ** Monotonicity in the versioned symbols *)

Lemma vs_incl_alt (a b : gmap string (gset string)) :
  vs_incl a b
  <-> (forall k, is_Some (a !! k) -> is_Some (b !! k))
      /\ (forall k v, v ∈ default ∅ (a !! k) -> v ∈ default ∅ (b !! k)).
Proof.
  unfold vs_incl. split.
  - intros H. split.
    + intros k [s Hs]. destruct (H k s Hs) as (s' & -> & _). by eexists.
    + intros k v. destruct (a !! k) as [s|] eqn:Hs; cbn; [|set_solver].
      destruct (H k s Hs) as (s' & -> & Hsub). cbn. set_solver.
  - intros [Hdom Helem] k s Hs.
    destruct (Hdom k) as [s' Hs']; [by eexists|].
    exists s'. split; [done|]. intros v Hv.
    specialize (Helem k v). rewrite Hs, Hs' in Helem. by apply Helem.
Qed.

Lemma vs_incl_refl (a : gmap string (gset string)) : vs_incl a a.
Proof. intros k s Hs. by exists s. Qed.

Lemma is_Some_add_symbols (pairs : list (string * string))
  (m : gmap string (gset string)) (k : string) :
  is_Some (add_symbols m pairs !! k)
  <-> (exists v, In (k, v) pairs) \/ is_Some (m !! k).
Proof.
  unfold add_symbols. revert m.
  induction pairs as [|[key value] pairs IH]; intros m; cbn [fold_left].
  - split; [by right|]. by intros [[? []]|?].
  - rewrite IH. unfold add_symbol. cbn [fst snd].
    rewrite lookup_insert_is_Some. split.
    + intros [(v & Hv)|[->|[_ Hm]]].
      * left. exists v. by right.
      * left. exists value. by left.
      * by right.
    + intros [(v & [[= -> ->]|Hv])|Hm].
      * right. by left.
      * left. by exists v.
      * right. destruct (decide (key = k)); [by left|by right].
Qed.

Lemma vs_incl_add_symbols (m m' : gmap string (gset string))
  (pairs pairs' : list (string * string)) :
  vs_incl m m' -> incl pairs pairs' ->
  vs_incl (add_symbols m pairs) (add_symbols m' pairs').
Proof.
  rewrite !vs_incl_alt. intros [Hdom Helem] Hincl. split.
  - intros k. rewrite !is_Some_add_symbols.
    intros [(v & Hv)|Hm]; [left; exists v; by apply Hincl|right; by apply Hdom].
  - intros k v. rewrite !elem_of_add_symbols.
    intros [Hv|Hm]; [left; by apply Hincl|right; by apply Helem].
Qed.

Lemma lookup_update_symbols (a b : gmap string (gset string)) (k : string) :
  update_symbols a b !! k
  = match a !! k, b !! k with
    | Some x, Some y => Some (x ∪ y)
    | Some x, None => Some x
    | None, o => o
    end.
Proof.
  unfold update_symbols. rewrite lookup_union_with.
  by destruct (a !! k), (b !! k).
Qed.

Lemma vs_incl_update_symbols (a a' b b' : gmap string (gset string)) :
  vs_incl a a' -> vs_incl b b' ->
  vs_incl (update_symbols a b) (update_symbols a' b').
Proof.
  intros Ha Hb k s. rewrite !lookup_update_symbols.
  destruct (a !! k) as [x|] eqn:Hx, (b !! k) as [y|] eqn:Hy.
  - destruct (Ha k x Hx) as (x' & -> & ?), (Hb k y Hy) as (y' & -> & ?).
    intros [= <-]. eexists. split; [done|]. set_solver.
  - destruct (Ha k x Hx) as (x' & -> & ?). intros [= <-].
    destruct (b' !! k); eexists; (split; [done|]); set_solver.
  - destruct (Hb k y Hy) as (y' & -> & ?). intros [= <-].
    destruct (a' !! k); eexists; (split; [done|]); set_solver.
  - done.
Qed.

Lemma py_max_by_fst_mono {A : Type} (increasing : bool)
  (l l' : list (Z * A)) (d d' : Z * A) :
  Forall2 (fun x y => priority_order increasing (fst x) (fst y)) l l' ->
  priority_order increasing (fst d) (fst d') ->
  priority_order increasing (fst (py_max_by fst l d))
                            (fst (py_max_by fst l' d')).
Proof.
  intros Hl Hd. destruct Hl as [|x x' l l' Hx Hl]; [done|].
  cbn [py_max_by]. clear d d' Hd. revert x x' Hx.
  induction Hl as [|y y' l l' Hy Hl IH]; intros x x' Hx; [done|].
  cbn [fold_left]. apply IH.
  unfold priority_order in *.
  destruct increasing, (Z.ltb_spec (fst x) (fst y)),
    (Z.ltb_spec (fst x') (fst y')); lia.
Qed.

Section MoreSymbols.
Context {ELFFile elftree : Type} (C : Collaborators ELFFile elftree)
        (more : ELFFile -> list (string * string)).
Hypothesis more_symbols :
  forall e, incl (@elf_find_versioned_symbols _ _ C e) (more e).

Let C' : Collaborators ELFFile elftree := with_versioned_symbols C more.

Lemma scan_file_more ctx (st st' st1 : ElfData.t elftree) item :
  same_but_symbols st st' ->
  @scan_file _ _ C ctx st item = Ok st1 ->
  exists st1', @scan_file _ _ C' ctx st' item = Ok st1'
               /\ same_but_symbols st1 st1'.
Proof.
  intros (Hf & Hn & Hr & Hu & Hp & Hvs). destruct item as [f e].
  unfold scan_file, elf_references_PyFPE_jbuf. cbn.
  destruct (@elf_is_python_extension _ _ C f e) as [is_ext ver].
  destruct (str_in "purelib" (split os_sep f)); [done|].
  destruct is_ext; intros [= <-]; eexists; (split; [reflexivity|]);
    unfold same_but_symbols; cbn; rewrite Hf, Hn, Hr, Hu, Hp;
    repeat (split; [done|]); by apply vs_incl_add_symbols.
Qed.

Lemma scan_loop_more ctx fs (st st' st1 : ElfData.t elftree) :
  same_but_symbols st st' ->
  for_each (@scan_file _ _ C ctx) fs st = Ok st1 ->
  exists st1', for_each (@scan_file _ _ C' ctx) fs st' = Ok st1'
               /\ same_but_symbols st1 st1'.
Proof.
  revert st st'. induction fs as [|item fs IH]; intros st st' Hrel.
  - intros [= <-]. by exists st'.
  - cbn [for_each].
    destruct (@scan_file _ _ C ctx st item) as [st2|] eqn:Hstep; [|done].
    cbn [bind]. intros Hrun.
    destruct (scan_file_more _ _ _ _ _ Hrel Hstep) as (st2' & -> & Hrel2).
    cbn [bind]. by eapply IH.
Qed.

Lemma promote_more ctx N (st st' : ElfData.t elftree) item :
  same_but_symbols st st' ->
  same_but_symbols (@promote _ _ C ctx N st item)
                   (@promote _ _ C' ctx N st' item).
Proof.
  intros (Hf & Hn & Hr & Hu & Hp & Hvs). destruct item as [f t].
  unfold promote. destruct (bool_decide _); [done|].
  unfold same_but_symbols. cbn. by rewrite Hf, Hr.
Qed.

Lemma promote_loop_more ctx N l (st st' : ElfData.t elftree) :
  same_but_symbols st st' ->
  same_but_symbols (fold_left (@promote _ _ C ctx N) l st)
                   (fold_left (@promote _ _ C' ctx N) l st').
Proof.
  revert st st'. induction l as [|item l IH]; intros st st' Hrel; [done|].
  cbn [fold_left]. by apply IH, promote_more.
Qed.

Lemma scan_wheel_more wheel_fn (st : ElfData.t elftree) :
  @scan_wheel _ _ C wheel_fn = Ok st ->
  exists st', @scan_wheel _ _ C' wheel_fn = Ok st'
              /\ same_but_symbols st st'.
Proof.
  unfold scan_wheel.
  destruct (for_each _ _ _) as [st1|] eqn:Hloop; [|done].
  cbn [bind]. intros [= <-].
  destruct (scan_loop_more _ _ ElfData.init ElfData.init _
              ltac:(repeat split; apply vs_incl_refl) Hloop)
    as (st1' & Hloop' & Hrel).
  change (@elf_file_filter _ _ C') with (@elf_file_filter _ _ C).
  change (@InGenericPkgCtx _ _ C') with (@InGenericPkgCtx _ _ C).
  rewrite Hloop'. cbn [bind]. eexists. split; [reflexivity|].
  change (@needed_libs _ _ C' st1') with (@needed_libs _ _ C st1').
  destruct Hrel as (Hf & Hn & Hrest).
  assert (@needed_libs _ _ C st1' = @needed_libs _ _ C st1) as ->
    by (unfold needed_libs; by rewrite Hf, Hn).
  rewrite <- Hn. by apply promote_loop_more.
Qed.
End MoreSymbols.

Section MoreSymbolsPolicy.
Context {ELFFile elftree : Type} (C : Collaborators ELFFile elftree)
        (more : ELFFile -> list (string * string)).
Hypothesis more_symbols :
  forall e, incl (@elf_find_versioned_symbols _ _ C e) (more e).

Let C' : Collaborators ELFFile elftree := with_versioned_symbols C more.

Lemma rescan_more (libs : list (string * string))
  (items : list (string * ELFFile)) r r' :
  rescan_incl r r' ->
  rescan_incl (fold_left (@rescan_step _ _ C libs) items r)
              (fold_left (@rescan_step _ _ C' libs) items r').
Proof.
  revert r r'. induction items as [|[p e] items IH]; intros r r' Hrel;
    [done|].
  cbn [fold_left]. apply IH. intros soname. unfold rescan_step. cbn.
  destruct (decide (default EmptyString (PyDict.get libs p) = soname)) as [->|Hne].
  - rewrite !lookup_insert_eq. constructor.
    apply vs_incl_add_symbols; [apply vs_incl_refl|apply more_symbols].
  - rewrite !lookup_insert_ne by done. apply Hrel.
Qed.

Lemma policy_symbols_more vs vs' evs evs' (policy : policy_refs) :
  vs_incl vs vs' -> rescan_incl evs evs' ->
  vs_incl (@policy_symbols vs evs policy) (@policy_symbols vs' evs' policy).
Proof.
  intros Hvs Hevs. unfold policy_symbols.
  revert vs vs' Hvs. induction (PyDict.keys (libs policy)) as [|soname l IH];
    intros vs vs' Hvs; [done|].
  cbn [fold_left]. apply IH.
  destruct (Hevs soname) as [a a' Ha|]; [|done].
  by apply vs_incl_update_symbols.
Qed.

Lemma get_symbol_policies_more (increasing : bool) vs vs' evs evs'
  (external_refs : list (string * policy_refs)) :
  (forall a b, vs_incl a b ->
               priority_order increasing
                 (@versioned_symbols_policy _ _ C a)
                 (@versioned_symbols_policy _ _ C b)) ->
  vs_incl vs vs' -> rescan_incl evs evs' ->
  Forall2 (fun x y => priority_order increasing (fst x) (fst y))
          (@get_symbol_policies _ _ C vs evs external_refs)
          (@get_symbol_policies _ _ C' vs' evs' external_refs).
Proof.
  intros Hmono Hvs Hevs. unfold get_symbol_policies.
  match goal with
  | |- Forall2 ?P (fold_left ?F _ []) (fold_left ?G _ []) =>
      assert (forall acc acc', Forall2 P acc acc' ->
                Forall2 P (fold_left F (PyDict.values external_refs) acc)
                          (fold_left G (PyDict.values external_refs) acc'))
        as Hgen
  end; [|apply Hgen; constructor].
  induction (PyDict.values external_refs) as [|policy l IH];
    intros acc acc' Hacc; [done|].
  cbn [fold_left]. apply IH. destruct (priority policy =? 0); [done|].
  apply Forall2_app; [done|]. constructor; [|constructor]. cbn [fst].
  apply Hmono. by apply policy_symbols_more.
Qed.

Lemma select_symbol_policy_more (increasing : bool) vs vs'
  (external_refs : list (string * policy_refs)) :
  (forall a b, vs_incl a b ->
               priority_order increasing
                 (@versioned_symbols_policy _ _ C a)
                 (@versioned_symbols_policy _ _ C b)) ->
  vs_incl vs vs' ->
  exists r r',
    @select_symbol_policy _ _ C vs external_refs = Ok r
    /\ @select_symbol_policy _ _ C' vs' external_refs = Ok r'
    /\ priority_order increasing (fst r) (fst r').
Proof.
  intros Hmono Hvs. unfold select_symbol_policy.
  rewrite !get_versioned_symbols_eq. cbn [bind].
  eexists _, _. split; [reflexivity|]. split; [reflexivity|].
  apply py_max_by_fst_mono.
  - apply get_symbol_policies_more; [done|done|].
    change (@elf_file_filter _ _ C') with (@elf_file_filter _ _ C).
    apply rescan_more. intros soname. rewrite lookup_empty. constructor.
  - cbn [fst]. by apply Hmono.
Qed.
End MoreSymbolsPolicy.

(** C6 (amended). Enlarging the versioned-symbol sets of the ELF files
    moves the symbol policy only in the direction in which the
    priority-from-symbols function moves on a superset; the rebuilt package
    is analysed too, with the same external references.  When a superset
    never yields a higher priority ([increasing = false], the function of
    the policy module), the symbol policy stays or gets lower: never more
    permissive.  When a superset never yields a lower priority
    ([increasing = true], the hypothesis as the claim words it), the symbol
    policy stays or gets higher: never less permissive. *)
Theorem symbol_policy_monotone {ELFFile elftree : Type}
  (C : Collaborators ELFFile elftree)
  (more : ELFFile -> list (string * string)) (increasing : bool)
  (wheel_fn : string) refs vs p :
  (forall a b, vs_incl a b ->
               priority_order increasing
                 (@versioned_symbols_policy _ _ C a)
                 (@versioned_symbols_policy _ _ C b)) ->
  (forall e, incl (@elf_find_versioned_symbols _ _ C e) (more e)) ->
  @analyze_policies _ _ C wheel_fn = Ok (refs, vs, p) ->
  exists vs' p',
    @analyze_policies _ _ (with_versioned_symbols C more) wheel_fn
    = Ok (refs, vs', p')
    /\ priority_order increasing (symbol_policy p) (symbol_policy p').
Proof.
  intros Hmono Hmore. unfold analyze_policies, get_wheel_elfdata.
  destruct (@scan_wheel _ _ C wheel_fn) as [st|] eqn:Hscan; [|done].
  destruct (scan_wheel_more C more Hmore _ _ Hscan)
    as (st' & -> & Hf & Hn & Hr & Hu & Hp & Hvs).
  cbn [bind]. unfold analyze_policies_of.
  change (@collect_external_refs _ _ (with_versioned_symbols C more))
    with (@collect_external_refs _ _ C).
  rewrite <- Hf, <- Hr, <- Hu, <- Hp.
  destruct (collect_external_refs _ _) as [external_refs|]; [|done].
  cbn [bind].
  destruct (select_symbol_policy_more C more Hmore increasing _ _
              external_refs Hmono Hvs)
    as ([sp vsr] & [sp' vsr'] & -> & -> & Hord).
  cbn [bind]. intros [= <- <- <-]. eexists _, _. split; [reflexivity|].
  exact Hord.
Qed.

Lemma Example_symbols_policy_decreasing (a b : gmap string (gset string)) :
  vs_incl a b ->
  priority_order false (Example.symbols_policy a) (Example.symbols_policy b).
Proof.
  intros [_ Hincl]%vs_incl_alt. unfold priority_order, Example.symbols_policy.
  assert (forall p, Example.satisfied p b = true ->
                    Example.satisfied p a = true) as Hsat.
  { intros p. unfold Example.satisfied. rewrite !bool_decide_eq_true.
    intros Hb v Hv. by apply Hb, Hincl. }
  destruct (Example.satisfied 100 b) eqn:H100.
  - by rewrite (Hsat 100 H100).
  - destruct (Example.satisfied 90 b) eqn:H90.
    + rewrite (Hsat 90 H90). by destruct (Example.satisfied 100 a).
    + destruct (Example.satisfied 100 a), (Example.satisfied 90 a); lia.
Qed.

Lemma Example_clean_more_symbols (e : Example.elf_entry) :
  incl (Example.e_versioned e) (Example.clean_more_symbols e).
Proof.
  unfold Example.clean_more_symbols.
  destruct (String.eqb _ _); [apply incl_appl|]; apply incl_refl.
Qed.

Lemma symbol_policy_monotone_witness :
  @analyze_policies _ _ Example.clean "demo.whl"
  = Ok (Example.refs [] [], Example.clean_symbols, Example.priorities 100 100)
  /\ @analyze_policies _ _
       (with_versioned_symbols Example.clean Example.clean_more_symbols)
       "demo.whl"
     = Ok (Example.refs [] [],
           add_symbols ∅ [("libc.so.6", "GLIBC_2.5");
                          ("libc.so.6", "GLIBC_2.12")],
           Example.priorities 90 100)
  /\ exists vs' p',
       @analyze_policies _ _
         (with_versioned_symbols Example.clean Example.clean_more_symbols)
         "demo.whl"
       = Ok (Example.refs [] [], vs', p')
       /\ symbol_policy p' <= 100.
Proof.
  assert (@analyze_policies _ _ Example.clean "demo.whl"
          = Ok (Example.refs [] [], Example.clean_symbols,
                Example.priorities 100 100)) as Hrun by vm_refl.
  split; [exact Hrun|]. split; [vm_refl|].
  exact (symbol_policy_monotone Example.clean Example.clean_more_symbols
           false "demo.whl" _ _ _ Example_symbols_policy_decreasing
           Example_clean_more_symbols Hrun).
Defined.

Lemma Example_rising_policy_increasing (a b : gmap string (gset string)) :
  vs_incl a b -> Example.rising_policy a <= Example.rising_policy b.
Proof.
  intros [_ Hincl]%vs_incl_alt. unfold Example.rising_policy.
  destruct (bool_decide_reflect
              ("GLIBC_2.12" ∈ default ∅ (a !! "libc.so.6"))) as [Ha|Ha].
  - by rewrite (bool_decide_eq_true_2 _ (Hincl _ _ Ha)).
  - destruct (bool_decide _); lia.
Qed.

(** C6 as worded fails: [Example.rising_policy] never gives a superset a
    lower priority, and rebuilding the module of [Example.clean] with one
    more requirement raises the symbol policy from 90 to 100, and the
    symbol tag and the overall tag from [manylinux2010] to [manylinux1]:
    more permissive. *)
Lemma symbol_policy_monotone_counterexample :
  (forall a b, vs_incl a b ->
               @versioned_symbols_policy _ _ Example.rising a
               <= @versioned_symbols_policy _ _ Example.rising b)
  /\ (forall e, incl (@elf_find_versioned_symbols _ _ Example.rising e)
                     (Example.clean_more_symbols e))
  /\ @analyze_policies _ _ Example.rising "demo.whl"
     = Ok (Example.refs [] [], Example.clean_symbols,
           Example.priorities 90 100)
  /\ @analyze_policies _ _
       (with_versioned_symbols Example.rising Example.clean_more_symbols)
       "demo.whl"
     = Ok (Example.refs [] [], Example.clean_rebuilt_symbols,
           Example.priorities 100 100)
  /\ @analyze_wheel_abi _ _ Example.rising "demo.whl"
     = Ok (Example.verdict "manylinux2010" Example.clean_symbols)
  /\ @analyze_wheel_abi _ _
       (with_versioned_symbols Example.rising Example.clean_more_symbols)
       "demo.whl"
     = Ok (Example.verdict "manylinux1" Example.clean_rebuilt_symbols)
  /\ ~ (symbol_policy (Example.priorities 100 100)
        <= symbol_policy (Example.priorities 90 100)).
Proof.
  split; [exact Example_rising_policy_increasing|].
  split; [exact Example_clean_more_symbols|].
  split; [vm_refl|]. split; [vm_refl|]. split; [vm_refl|].
  split; [vm_refl|]. cbn. lia.
Qed.

(* ===================================================================== *)
(** * Further properties of the module *)
(* ===================================================================== *)

(** ** [update] on arbitrary values *)

Lemma for_each_app {S X : Type} (body : S -> X -> result S)
  (l1 l2 : list X) (s : S) :
  for_each body (l1 ++ l2) s
  = bind (for_each body l1 s) (for_each body l2).
Proof.
  revert s. induction l1 as [|x l1 IH]; intros s; [done|].
  cbn [app for_each]. destruct (body s x) as [s'|e]; [apply IH|done].
Qed.

Lemma set_same {V : Type} (d : list (string * V)) (k : string) (v : V) :
  PyDict.get d k = Some v -> PyDict.set d k v = d.
Proof.
  induction d as [|[k' v'] d IH]; cbn; [done|].
  destruct (String.eqb_spec k' k) as [->|Hne].
  - by intros [= ->].
  - intros H. by rewrite IH.
Qed.

Lemma keys_set_prefix {V : Type} (d : list (string * V)) (k : string) (v : V) :
  exists new, PyDict.keys (PyDict.set d k v) = (PyDict.keys d ++ new)%list.
Proof.
  rewrite PyDictFacts.keys_set. destruct (PyDict.mem d k).
  - exists []. by rewrite app_nil_r.
  - by exists [k].
Qed.

Lemma fold_set_get {V : Type} (u d : list (string * V)) (k : string) :
  NoDup (PyDict.keys u) ->
  PyDict.get (fold_left (fun d kv => PyDict.set d (fst kv) (snd kv)) u d) k
  = match PyDict.get u k with
    | Some v => Some v
    | None => PyDict.get d k
    end.
Proof.
  revert d. induction u as [|[k0 v0] u IH]; intros d Hnd; [done|].
  cbn in Hnd. apply NoDup_cons in Hnd as [Hk0 Hnd].
  cbn [fold_left fst snd PyDict.get]. rewrite IH by done.
  destruct (String.eqb_spec k0 k) as [->|Hne].
  - assert (PyDict.get u k = None) as ->.
    { apply PyDictFacts.get_None_keys. intros H. apply Hk0.
      by apply list_elem_of_In. }
    apply PyDictFacts.get_set_eq.
  - destruct (PyDict.get u k); [done|]. by apply PyDictFacts.get_set_ne.
Qed.

Lemma update_step_dict (di : list (string * pyval)) (k : string)
  (v r : pyval) :
  update_step (VDict di) (k, v) = Ok r ->
  exists x, r = VDict (PyDict.set di k x)
            /\ (is_scalar v = true -> x = v).
Proof.
  unfold update_step. destruct v; cbn [setitem get_or_empty bind is_scalar].
  1-4: intros [= <-]; eexists; by split.
  - destruct (update _ _) as [r'|]; cbn [bind]; [|done].
    intros [= <-]. eexists. by split.
  - done.
Qed.

(** X1. A value that is neither a mapping nor a [str], [int], [float] or
    [None] makes [update] raise [RuntimeError('!', d, k)]: the items before
    it have been merged, and the error carries the target as they left
    it. *)
Theorem update_refuses_other_values (d d' : pyval)
  (before after : list (string * pyval)) (k repr : string) :
  update d (VDict before) = Ok d' ->
  update d (VDict (before ++ (k, VOther repr) :: after))
  = Raise (RuntimeError [VStr "!"; d'; VStr k]).
Proof.
  rewrite !update_unfold, for_each_app. by intros ->.
Qed.

Lemma update_refuses_other_values_witness :
  update (VDict [("a", VInt 1)])
         (VDict [("b", VStr "x"); ("c", VOther "[1, 2]"); ("d", VInt 4)])
  = Raise (RuntimeError [VStr "!"; VDict [("a", VInt 1); ("b", VStr "x")];
                         VStr "c"]).
Proof.
  apply (update_refuses_other_values (VDict [("a", VInt 1)]) _
           [("b", VStr "x")] [("d", VInt 4)] "c" "[1, 2]").
  reflexivity.
Defined.

(** X2. When [update] returns on a dict target, the result is a dict whose
    keys are those of the target, in their old order, followed by the new
    keys of [u]: no key is ever removed or moved. *)
Theorem update_keeps_keys (di ui : list (string * pyval)) (r : pyval) :
  update (VDict di) (VDict ui) = Ok r ->
  exists ri new,
    r = VDict ri
    /\ PyDict.keys ri = (PyDict.keys di ++ new)%list
    /\ forall k, In k (PyDict.keys ri)
                 <-> In k (PyDict.keys di) \/ In k (PyDict.keys ui).
Proof.
  rewrite update_unfold. revert di.
  induction ui as [|[k v] ui IH]; intros di; cbn [for_each].
  - intros [= <-]. exists di, []. rewrite app_nil_r. cbn. tauto.
  - destruct (update_step (VDict di) (k, v)) as [d1|] eqn:Hstep; [|done].
    cbn [bind]. intros Hrun.
    apply update_step_dict in Hstep as (x & -> & _).
    destruct (IH _ Hrun) as (ri & new & -> & Hkeys & Hin).
    destruct (keys_set_prefix di k x) as [new0 Hnew0].
    exists ri, (new0 ++ new)%list. split; [done|]. split.
    + by rewrite Hkeys, Hnew0, app_assoc.
    + intros k'. rewrite Hin, PyDictFacts.In_keys_set. cbn. intuition.
Qed.

Lemma update_keeps_keys_witness :
  exists ri new,
    update (VDict [("z", VInt 0); ("a", VDict [])])
           (VDict [("a", VDict [("n", VNone)]); ("m", VInt 2)])
    = Ok (VDict ri)
    /\ PyDict.keys ri = (["z"; "a"] ++ new)%list.
Proof.
  destruct (update_keeps_keys [("z", VInt 0); ("a", VDict [])]
              [("a", VDict [("n", VNone)]); ("m", VInt 2)] _ eq_refl)
    as (ri & new & Hr & Hkeys & _).
  exists ri, new. split; [by rewrite <- Hr|exact Hkeys].
Defined.

(** X3. On a mapping [u] whose values are all [str], [int], [float] or
    [None], [update] is [dict.update]: it never raises, every key of [u]
    is bound to the value [u] gives it and every other key keeps its
    value. *)
Theorem update_flat_is_dict_update (di ui : list (string * pyval)) :
  Forall (fun kv => is_scalar (snd kv) = true) ui ->
  NoDup (PyDict.keys ui) ->
  exists ri,
    update (VDict di) (VDict ui) = Ok (VDict ri)
    /\ forall k, PyDict.get ri k
                 = match PyDict.get ui k with
                   | Some v => Some v
                   | None => PyDict.get di k
                   end.
Proof.
  intros Hflat Hnd.
  exists (fold_left (fun d kv => PyDict.set d (fst kv) (snd kv)) ui di).
  split; [|intros k; by apply fold_set_get].
  rewrite update_unfold. clear Hnd. revert di.
  induction Hflat as [|[k v] ui Hv Hflat IH]; intros di; [done|].
  cbn [for_each fold_left fst snd]. cbn [snd] in Hv.
  assert (update_step (VDict di) (k, v) = Ok (VDict (PyDict.set di k v)))
    as -> by (by destruct v).
  cbn [bind]. apply IH.
Qed.

Lemma update_flat_is_dict_update_witness :
  exists ri,
    update (VDict [("priority", VInt 0); ("name", VStr "linux")])
           (VDict [("priority", VInt 100); ("arch", VNone)])
    = Ok (VDict ri)
    /\ PyDict.get ri "priority" = Some (VInt 100)
    /\ PyDict.get ri "name" = Some (VStr "linux").
Proof.
  destruct (update_flat_is_dict_update
              [("priority", VInt 0); ("name", VStr "linux")]
              [("priority", VInt 100); ("arch", VNone)])
    as (ri & Hr & Hget).
  - repeat constructor.
  - repeat constructor; rewrite ?list_elem_of_In; cbn; intuition discriminate.
  - exists ri. split; [exact Hr|]. split; [apply (Hget "priority")|].
    apply (Hget "name").
Defined.

(** ** [update] at the shape of [external_refs] *)

Lemma fold_set_same {V : Type} (items d : list (string * V)) :
  (forall k v, In (k, v) items -> PyDict.get d k = Some v) ->
  fold_left (fun d kv => PyDict.set d (fst kv) (snd kv)) items d = d.
Proof.
  induction items as [|[k v] items IH]; intros Hget; [done|].
  cbn [fold_left fst snd]. rewrite set_same by (apply Hget; by left).
  apply IH. intros k' v' H. apply Hget. by right.
Qed.

Lemma update_libs_idem (l u : list (string * option string)) :
  NoDup (PyDict.keys u) ->
  update_libs (update_libs l u) u = update_libs l u.
Proof.
  intros Hnd. unfold update_libs at 1. apply fold_set_same.
  intros k v Hin. apply get_update_libs_written; [done|].
  by apply PyDictFacts.In_get_NoDup.
Qed.

Lemma update_refs_idem (d u : list (string * policy_refs)) :
  refs_dict u -> update_refs (update_refs d u) u = update_refs d u.
Proof.
  intros [Hnd Hlibs]. set (D := update_refs d u).
  assert (forall k e, In (k, e) u ->
            PyDict.get D k = Some (update_policy (PyDict.get D k) e)) as Hfix.
  { intros k e Hin. unfold D at 1. rewrite get_update_refs by done.
    rewrite (PyDictFacts.In_get_NoDup u k e Hnd Hin). f_equal.
    unfold D. rewrite get_update_refs by done.
    rewrite (PyDictFacts.In_get_NoDup u k e Hnd Hin).
    unfold update_policy at 2 3. cbn [libs priority]. unfold update_policy.
    f_equal. symmetry. apply update_libs_idem. by eapply Hlibs. }
  unfold update_refs at 1. clearbody D. clear Hnd Hlibs.
  induction u as [|[k e] u IH]; [done|].
  cbn [fold_left fst snd]. rewrite set_same.
  - apply IH. intros k' e' H. apply Hfix. by right.
  - apply Hfix. by left.
Qed.

(** X4. On values of the shape of [external_refs], as at line 181, [update]
    never raises.  Per policy of [u] the merged entry takes the priority [u]
    gives and the library bindings of the target overridden by those of [u];
    a policy [u] does not mention keeps its entry, and a policy the target
    lacks is added. *)
Theorem update_on_external_refs (d u : list (string * policy_refs)) :
  NoDup (PyDict.keys u) ->
  exists r,
    update (enc_refs d) (enc_refs u) = Ok (enc_refs r)
    /\ forall policy,
         PyDict.get r policy
         = match PyDict.get u policy with
           | Some e =>
               Some {| libs := update_libs (libs_of d policy) (libs e);
                       priority := priority e |}
           | None => PyDict.get d policy
           end.
Proof.
  intros Hnd. exists (update_refs d u). split; [apply update_enc_refs|].
  intros policy. rewrite get_update_refs by done.
  unfold libs_of, update_policy. by destruct (PyDict.get u policy).
Qed.

Lemma update_on_external_refs_witness :
  exists r,
    update (enc_refs (Example.refs Example.foo_a Example.foo_a))
           (enc_refs (Example.refs Example.foo_b []))
    = Ok (enc_refs r)
    /\ PyDict.get r "manylinux1"
       = Some {| libs := [("libfoo.so.1", Some "/opt/b/libfoo.so.1");
                          ("libbar.so.2", Some "/opt/b/libbar.so.2")];
                 priority := 100 |}.
Proof.
  destruct (update_on_external_refs
              (Example.refs Example.foo_a Example.foo_a)
              (Example.refs Example.foo_b [])) as (r & Hr & Hget).
  - repeat constructor; rewrite ?list_elem_of_In; cbn; intuition discriminate.
  - exists r. split; [exact Hr|]. apply (Hget "manylinux1").
Defined.

(** X5. Merging the same references a second time changes nothing: on
    [external_refs], [update] with the same [u] is idempotent. *)
Theorem update_same_refs_twice (d u : list (string * policy_refs))
  (r : pyval) :
  refs_dict u ->
  update (enc_refs d) (enc_refs u) = Ok r ->
  update r (enc_refs u) = Ok r.
Proof.
  intros Hu. rewrite update_enc_refs. intros [= <-].
  by rewrite update_enc_refs, update_refs_idem.
Qed.

Lemma update_same_refs_twice_witness :
  exists r,
    update (enc_refs (Example.refs Example.foo_a Example.foo_a))
           (enc_refs (Example.refs Example.foo_b [])) = Ok r
    /\ update r (enc_refs (Example.refs Example.foo_b [])) = Ok r.
Proof.
  eexists. split; [apply update_enc_refs|].
  apply (update_same_refs_twice (Example.refs Example.foo_a Example.foo_a)
           (Example.refs Example.foo_b [])); [|apply update_enc_refs].
  apply Example_rpaths_refs_dict. right. left. reflexivity.
Defined.

(** ** When the analysis returns, and on what *)

Lemma forallb_false_In {A : Type} (f : A -> bool) (l : list A) :
  forallb f l = false -> exists x, In x l /\ f x = false.
Proof.
  induction l as [|a l IH]; [done|]. cbn.
  destruct (f a) eqn:Ha.
  - intros (x & Hin & Hx)%IH. exists x. split; [by right|done].
  - intros _. exists a. split; [by left|done].
Qed.

Lemma fold_max_ge_init {A : Type} (key : A -> Z) (l : list A) (m : A) :
  key m <= key (fold_left (fun m y => if key m <? key y then y else m) l m).
Proof.
  revert m. induction l as [|b l IH]; intros m; cbn [fold_left]; [lia|].
  etransitivity; [|apply IH]. destruct (Z.ltb_spec (key m) (key b)); lia.
Qed.

Lemma py_max_by_upper {A : Type} (key : A -> Z) (l : list A) (d x : A) :
  In x l -> key x <= key (py_max_by key l d).
Proof.
  destruct l as [|a l]; [done|]. cbn [py_max_by].
  revert a. induction l as [|b l IH]; intros a.
  - intros [->|[]]. cbn. lia.
  - cbn [fold_left]. intros [Ha|[Hb|Hin]].
    + subst a. destruct (Z.ltb_spec (key x) (key b)).
      * pose proof (fold_max_ge_init key l b). lia.
      * apply fold_max_ge_init.
    + subst b. destruct (Z.ltb_spec (key a) (key x)).
      * apply fold_max_ge_init.
      * pose proof (fold_max_ge_init key l a). lia.
    + apply IH. by right.
Qed.

Lemma py_max_by_In {A : Type} (key : A -> Z) (l : list A) (d : A) :
  l <> [] -> In (py_max_by key l d) l.
Proof.
  destruct l as [|a l]; [done|]. intros _. cbn [py_max_by].
  assert (forall m, In (fold_left (fun m y => if key m <? key y
                                               then y else m) l m)
                       (m :: l)) as H.
  { induction l as [|b l IH]; intros m; cbn [fold_left]; [by left|].
    destruct (IH (if key m <? key b then b else m)) as [<-|Hin].
    - destruct (key m <? key b); [right; by left|by left].
    - right. by right. }
  apply H.
Qed.

(** X6. [analyze_wheel_abi] returns a verdict exactly when no ELF file of
    the package has a [purelib] path component, and the malformed-package
    [RuntimeError] is its only exception: the lookups of lines 181 and 138
    never miss a key and [update] never meets a value it refuses. *)
Theorem verdict_unless_purelib {ELFFile elftree : Type}
  (C : Collaborators ELFFile elftree) (wheel_fn : string) :
  let files := elf_file_filter (iter_files (InGenericPkgCtx wheel_fn)) in
  (forallb (fun x => negb (misplaced_file x)) files = true
   <-> exists info, analyze_wheel_abi wheel_fn = Ok info)
  /\ forall e,
       analyze_wheel_abi wheel_fn = Raise e ->
       exists f elf,
         In (f, elf) files /\ In "purelib" (split os_sep f)
         /\ e = RuntimeError [VStr (purelib_message (basename f))].
Proof.
  intros files.
  assert (forallb (fun x => negb (misplaced_file x)) files = false ->
          exists f elf,
            In (f, elf) files /\ In "purelib" (split os_sep f)
            /\ analyze_wheel_abi wheel_fn
               = Raise (RuntimeError [VStr (purelib_message (basename f))]))
    as Hbad.
  { intros (x & Hin & Hx%negb_false_iff)%forallb_false_In.
    destruct (first_such misplaced_file files) as (l1 & [f elf] & l2 & Hl & Hl1 & Hf);
      [by exists x|].
    exists f, elf. split; [rewrite Hl; apply in_or_app; right; by left|].
    split; [by apply str_in_In|].
    unfold analyze_wheel_abi, analyze_policies, get_wheel_elfdata, scan_wheel.
    fold files. rewrite Hl. by rewrite scan_loop_Raise. }
  split.
  - split; [apply analyze_wheel_abi_total|].
    intros [info Hinfo].
    destruct (forallb _ files) eqn:Hall; [done|].
    destruct (Hbad eq_refl) as (f & elf & _ & _ & Hraise). congruence.
  - intros e He. destruct (forallb (fun x => negb (misplaced_file x)) files)
      eqn:Hall.
    + destruct (analyze_wheel_abi_total wheel_fn Hall) as [info Hinfo].
      congruence.
    + destruct (Hbad eq_refl) as (f & elf & Hin & Hpure & Hraise).
      exists f, elf. split; [done|]. split; [done|]. congruence.
Qed.

Lemma verdict_unless_purelib_witness :
  (exists info, @analyze_wheel_abi _ _ Example.rpaths "demo.whl" = Ok info)
  /\ exists f,
       In "purelib" (split os_sep f)
       /\ @analyze_wheel_abi _ _ Example.misplaced "demo.whl"
          = Raise (RuntimeError [VStr (purelib_message (basename f))]).
Proof.
  split.
  - apply (proj1 (verdict_unless_purelib Example.rpaths "demo.whl")).
    reflexivity.
  - destruct (proj2 (verdict_unless_purelib Example.misplaced "demo.whl")
                (RuntimeError [VStr (purelib_message "mod.so")]))
      as (f & elf & _ & Hpure & He); [vm_refl|].
    exists f. split; [exact Hpure|]. rewrite <- He. vm_refl.
Defined.

(** X7. The reference policy (lines 201-203) is the highest priority among
    the policies without external libraries: it bounds each of them, it is
    the priority of one of them when there is one, and it is
    [POLICY_PRIORITY_LOWEST] when every policy has an external library. *)
Theorem ref_policy_is_best_clean_policy {ELFFile elftree : Type}
  (C : Collaborators ELFFile elftree)
  (external_refs : list (string * policy_refs)) :
  (forall name e, In (name, e) external_refs -> libs e = [] ->
                  priority e <= select_ref_policy external_refs)
  /\ ((exists name e, In (name, e) external_refs /\ libs e = []) ->
      exists name e, In (name, e) external_refs /\ libs e = []
                     /\ select_ref_policy external_refs = priority e)
  /\ ((forall name e, In (name, e) external_refs -> libs e <> []) ->
      select_ref_policy external_refs = POLICY_PRIORITY_LOWEST).
Proof.
  unfold select_ref_policy.
  set (clean := filter (fun e : policy_refs => (length (libs e) =? 0)%nat)
                       (PyDict.values external_refs)).
  assert (forall e, In e clean
                    <-> (exists name, In (name, e) external_refs)
                        /\ libs e = []) as Hclean.
  { intros e. unfold clean, PyDict.values.
    rewrite <- list_elem_of_In, list_elem_of_filter, list_elem_of_In, in_map_iff.
    rewrite Is_true_true, Nat.eqb_eq, length_zero_iff_nil. split.
    - intros [Hl ([name e'] & <- & Hin)]. split; [by exists name|done].
    - intros [[name Hin] Hl]. split; [done|]. by exists (name, e). }
  split; [|split].
  - intros name e Hin Hl.
    apply (py_max_by_upper (fun x => x) (map priority clean) _ (priority e)).
    apply in_map. apply Hclean. split; [by exists name|done].
  - intros (name & e & Hin & Hl).
    assert (map priority clean <> []) as Hne.
    { assert (In e clean) as He by (apply Hclean; split; [by exists name|done]).
      destruct clean; [done|]. done. }
    apply (py_max_by_In (fun x => x) _ POLICY_PRIORITY_LOWEST) in Hne.
    apply in_map_iff in Hne as (e' & He' & [[name' Hin'] Hl']%Hclean).
    exists name', e'. by rewrite He'.
  - intros Hnone. destruct clean as [|e l]; [done|]. exfalso.
    destruct (proj1 (Hclean e) (or_introl eq_refl)) as [[name Hin] Hl].
    by destruct (Hnone name e Hin).
Qed.

Lemma ref_policy_is_best_clean_policy_witness :
  @select_ref_policy _ _ Example.rpaths Example.rpaths_refs = 0
  /\ 90 <= @select_ref_policy _ _ Example.shared
             (Example.refs Example.libext []).
Proof.
  split; [reflexivity|].
  apply (proj1 (ref_policy_is_best_clean_policy Example.shared
                  (Example.refs Example.libext []))
           "manylinux2010" {| libs := []; priority := 90 |}).
  - right. right. left. reflexivity.
  - reflexivity.
Defined.

(** ** The symbol policy and the empty package *)

Lemma vs_incl_trans (a b c : gmap string (gset string)) :
  vs_incl a b -> vs_incl b c -> vs_incl a c.
Proof.
  intros Hab Hbc k s Hs. destruct (Hab k s Hs) as (s' & Hs' & Hsub).
  destruct (Hbc k s' Hs') as (s'' & Hs'' & Hsub').
  exists s''. split; [done|]. set_solver.
Qed.

Lemma vs_incl_update_symbols_l (a b : gmap string (gset string)) :
  vs_incl a (update_symbols a b).
Proof.
  intros k s Hs. rewrite lookup_update_symbols, Hs.
  destruct (b !! k); eexists; (split; [done|]); set_solver.
Qed.

Section SymbolPolicy.
Context {ELFFile elftree : Type} {C : Collaborators ELFFile elftree}.

Lemma policy_symbols_incl (vs : gmap string (gset string))
  (evs : gmap string (gmap string (gset string))) (e : policy_refs) :
  vs_incl vs (policy_symbols vs evs e).
Proof.
  unfold policy_symbols.
  assert (forall l acc, vs_incl vs acc ->
            vs_incl vs (fold_left
                          (fun ps soname =>
                             match evs !! soname with
                             | None => ps
                             | Some ext => update_symbols ps ext
                             end) l acc)) as H.
  { induction l as [|s l IH]; intros acc Hacc; [done|].
    cbn [fold_left]. apply IH. destruct (evs !! s); [|done].
    eapply vs_incl_trans; [exact Hacc|apply vs_incl_update_symbols_l]. }
  apply H, vs_incl_refl.
Qed.

Lemma get_symbol_policies_spec (vs : gmap string (gset string))
  (evs : gmap string (gmap string (gset string)))
  (external_refs : list (string * policy_refs)) :
  forall c,
    In c (get_symbol_policies vs evs external_refs)
    <-> exists name e,
          In (name, e) external_refs /\ priority e <> 0
          /\ c = (versioned_symbols_policy (policy_symbols vs evs e),
                  policy_symbols vs evs e).
Proof.
  intros c. unfold get_symbol_policies.
  match goal with
  | |- In c (fold_left ?F _ []) <-> ?R =>
      assert (forall acc,
                In c (fold_left F (PyDict.values external_refs) acc)
                <-> In c acc \/ R) as Hgen
  end.
  { induction external_refs as [|[name e] refs IH]; intros acc.
    - cbn. split; [by left|]. by intros [?|(? & ? & [] & _)].
    - cbn [PyDict.values map fold_left snd].
      fold (PyDict.values refs). rewrite IH.
      destruct (Z.eqb_spec (priority e) 0) as [H0|H0].
      + split.
        * intros [?|(n & e' & Hin & ?)]; [by left|].
          right. exists n, e'. split; [by right|done].
        * intros [?|(n & e' & [[= -> ->]|Hin] & Hp & ?)];
            [by left|done|]. right. by exists n, e'.
      + rewrite in_app_iff. cbn [In]. split.
        * intros [[?|[<-|[]]]|(n & e' & Hin & ?)].
          -- by left.
          -- right. exists name, e. split; [by left|done].
          -- right. exists n, e'. split; [by right|done].
        * intros [?|(n & e' & [[= -> ->]|Hin] & Hp & ->)].
          -- left. by left.
          -- left. right. by left.
          -- right. by exists n, e'. }
  rewrite Hgen. cbn. tauto.
Qed.
End SymbolPolicy.

(** X8. The pair [select_symbol_policy] returns (lines 186-199) is
    consistent: the symbol policy is [versioned_symbols_policy] of the
    reported symbols, the reported symbols contain the package's own, and
    the symbol policy is at least the priority of every policy's adjusted
    symbols (policies of priority 0 apart). *)
Theorem symbol_policy_of_reported_symbols {ELFFile elftree : Type}
  (C : Collaborators ELFFile elftree)
  (versioned_symbols : gmap string (gset string))
  (external_refs : list (string * policy_refs)) sp vs' :
  select_symbol_policy versioned_symbols external_refs = Ok (sp, vs') ->
  sp = versioned_symbols_policy vs'
  /\ vs_incl versioned_symbols vs'
  /\ exists evs,
       get_versioned_symbols (get_external_libs external_refs) = Ok evs
       /\ forall name e,
            In (name, e) external_refs -> priority e <> 0 ->
            versioned_symbols_policy (policy_symbols versioned_symbols evs e)
            <= sp.
Proof.
  unfold select_symbol_policy. rewrite get_versioned_symbols_eq. cbn [bind].
  set (evs := fold_left _ _ _).
  set (cands := get_symbol_policies versioned_symbols evs external_refs).
  intros [= Hmax].
  assert (forall c, In c cands ->
            fst c = versioned_symbols_policy (snd c)
            /\ vs_incl versioned_symbols (snd c)) as Hc.
  { intros c (name & e & _ & _ & ->)%get_symbol_policies_spec.
    split; [done|apply policy_symbols_incl]. }
  assert (sp = versioned_symbols_policy vs'
          /\ vs_incl versioned_symbols vs') as [H1 H2].
  { destruct cands as [|c0 l] eqn:E.
    - cbn in Hmax. injection Hmax as <- <-. split; [done|apply vs_incl_refl].
    - rewrite <- E in Hmax, Hc.
      assert (In (sp, vs') cands) as Hin.
      { rewrite <- Hmax. apply py_max_by_In. by rewrite E. }
      destruct (Hc _ Hin) as [H1 H2]. done. }
  split; [done|]. split; [done|]. exists evs. split; [done|].
  intros name e Hin Hp.
  change sp with (fst (sp, vs')). rewrite <- Hmax.
  apply (py_max_by_upper fst cands _
           (versioned_symbols_policy (policy_symbols versioned_symbols evs e),
            policy_symbols versioned_symbols evs e)).
  apply get_symbol_policies_spec. by exists name, e.
Qed.

Lemma symbol_policy_of_reported_symbols_witness :
  @select_symbol_policy _ _ Example.rpaths ∅ Example.rpaths_refs
  = Ok (100, Example.clean_symbols)
  /\ 100 = Example.symbols_policy Example.clean_symbols.
Proof.
  assert (@select_symbol_policy _ _ Example.rpaths ∅ Example.rpaths_refs
          = Ok (100, Example.clean_symbols)) as Hrun by vm_refl.
  split; [exact Hrun|].
  exact (proj1 (symbol_policy_of_reported_symbols Example.rpaths _ _ _ _
                  Hrun)).
Defined.

(** X9. A package without ELF files: [get_wheel_elfdata] returns empty
    data, and the analysis returns the catalog's policies with no external
    library, no versioned symbol, the priority of the empty symbol set, the
    highest priority for both special symbols, and a reference policy that
    bounds the priority of every policy. *)
Theorem package_without_elf_files {ELFFile elftree : Type}
  (C : Collaborators ELFFile elftree) (wheel_fn : string) :
  elf_file_filter (iter_files (InGenericPkgCtx wheel_fn)) = [] ->
  get_wheel_elfdata wheel_fn = Ok ([], [], ∅, false, false)
  /\ analyze_policies wheel_fn
     = Ok (initial_external_refs, ∅,
           {| symbol_policy := versioned_symbols_policy ∅;
              ref_policy := select_ref_policy initial_external_refs;
              ucs_policy := POLICY_PRIORITY_HIGHEST;
              pyfpe_policy := POLICY_PRIORITY_HIGHEST |})
  /\ forall name e,
       In (name, e) initial_external_refs ->
       libs e = []
       /\ priority e <= select_ref_policy initial_external_refs.
Proof.
  intros Hnone.
  assert (forall name e, In (name, e) (@initial_external_refs _ _ C) ->
                         libs e = []) as Hempty.
  { intros name e (p & [= _ <-] & _)%In_of_items%in_map_iff. done. }
  assert (get_wheel_elfdata wheel_fn = Ok ([], [], ∅, false, false)) as Hdata.
  { unfold get_wheel_elfdata, scan_wheel. by rewrite Hnone. }
  split; [done|]. split.
  - unfold analyze_policies. rewrite Hdata. cbn [bind].
    unfold analyze_policies_of, collect_external_refs.
    cbn [PyDict.keys map for_each bind].
    by rewrite select_symbol_policy_own.
  - intros name e Hin. split; [by eapply Hempty|].
    unfold select_ref_policy.
    apply (py_max_by_upper (fun x => x) _ _ (priority e)).
    apply in_map. apply list_elem_of_In, list_elem_of_filter.
    split; [by rewrite (Hempty name e Hin)|].
    apply list_elem_of_In, in_map_iff. by exists (name, e).
Qed.

Lemma package_without_elf_files_witness :
  @analyze_wheel_abi _ _ Example.clean "missing.whl"
  = Ok (Example.verdict "manylinux1" ∅).
Proof.
  destruct (package_without_elf_files Example.clean "missing.whl" eq_refl)
    as (_ & Hrun & _).
  unfold analyze_wheel_abi. rewrite Hrun. reflexivity.
Defined.

(** ** The external libraries that are scanned *)

(** X10. The libraries [get_external_libs] selects (lines 104-120): keyed
    by distinct, non-empty real paths; each one is a resolved library of a
    policy whose priority is not 0; and the real path of every such library
    is a key. *)
Theorem external_libs_are_resolved_references
  (external_refs : list (string * policy_refs)) :
  NoDup (PyDict.keys (get_external_libs external_refs))
  /\ (forall realpath soname,
        In (realpath, soname) (get_external_libs external_refs) ->
        realpath <> EmptyString
        /\ exists name e, In (name, e) external_refs /\ priority e <> 0
                          /\ In (soname, Some realpath) (libs e))
  /\ (forall name e soname realpath,
        In (name, e) external_refs -> priority e <> 0 ->
        In (soname, Some realpath) (libs e) -> realpath <> EmptyString ->
        In realpath (PyDict.keys (get_external_libs external_refs))).
Proof. apply get_external_libs_spec. Qed.

Lemma external_libs_are_resolved_references_witness :
  In "/opt/a/libfoo.so.1"
     (PyDict.keys (get_external_libs Example.rpaths_refs)).
Proof.
  apply (proj2 (proj2 (external_libs_are_resolved_references
                         Example.rpaths_refs))
           "manylinux2010"
           {| libs := [("libfoo.so.1", Some "/opt/a/libfoo.so.1");
                       ("libz.so", Some "/opt/c/libz.so.1.2");
                       ("libz.so.1", Some "/opt/c/libz.so.1.2")];
              priority := 90 |}
           "libfoo.so.1").
  - right. right. left. reflexivity.
  - discriminate.
  - left. reflexivity.
  - discriminate.
Defined.

(** ** The symbols of the external libraries *)

Section ScannedLibraries.
Context {ELFFile elftree : Type} {C : Collaborators ELFFile elftree}.

(** The invariant of the loop of [get_versioned_symbols]. *)
Lemma rescan_spec (libs : list (string * string))
  (items : list (string * ELFFile)) :
  (forall p e, In (p, e) items -> In p (PyDict.keys libs)) ->
  forall r0 soname,
    let r := fold_left (rescan_step libs) items r0 in
    (forall m, r !! soname = Some m ->
       r0 !! soname = Some m
       \/ exists p e, In (p, e) items /\ PyDict.get libs p = Some soname
                      /\ m = add_symbols ∅ (elf_find_versioned_symbols e))
    /\ (is_Some (r0 !! soname) -> is_Some (r !! soname))
    /\ (forall p e, In (p, e) items -> PyDict.get libs p = Some soname ->
          is_Some (r !! soname)).
Proof.
  induction items as [|[p0 e0] items IH]; intros Hkeys r0 soname; cbn zeta.
  { cbn [fold_left]. split; [by left|]. split; [done|]. by intros ? ? []. }
  cbn [fold_left].
  destruct (proj2 (PyDictFacts.get_is_Some_keys libs p0)) as [s0 Hs0].
  { apply (Hkeys p0 e0). by left. }
  assert (rescan_step libs r0 (p0, e0)
          = <[s0 := add_symbols ∅ (elf_find_versioned_symbols e0)]> r0)
    as Hstep.
  { unfold rescan_step. cbn [fst snd]. by rewrite Hs0. }
  destruct (IH (fun p e H => Hkeys p e (or_intror H))
              (rescan_step libs r0 (p0, e0)) soname) as (Hfrom & Hkeep & Hto).
  rewrite Hstep in Hfrom, Hkeep, Hto. rewrite Hstep.
  split; [|split].
  - intros m [H|(p & e & Hin & Hp & ->)]%Hfrom.
    + destruct (decide (s0 = soname)) as [->|Hne].
      * rewrite lookup_insert_eq in H. injection H as <-.
        right. exists p0, e0. split; [by left|done].
      * rewrite lookup_insert_ne in H by done. by left.
    + right. exists p, e. split; [by right|done].
  - intros H. apply Hkeep. destruct (decide (s0 = soname)) as [->|Hne].
    + by rewrite lookup_insert_eq.
    + by rewrite lookup_insert_ne.
  - intros p e [[= -> ->]|Hin] Hp.
    + apply Hkeep. rewrite Hs0 in Hp. injection Hp as ->.
      by rewrite lookup_insert_eq.
    + by apply (Hto p e).
Qed.

Lemma policy_symbols_none (vs : gmap string (gset string))
  (e : policy_refs) :
  policy_symbols vs ∅ e = vs.
Proof.
  unfold policy_symbols. generalize (PyDict.keys (libs e)).
  intros l. induction l as [|s l IH]; [done|].
  cbn [fold_left]. by rewrite lookup_empty.
Qed.

Lemma elf_file_filter_none (paths : list string) :
  (forall p, In p paths -> elf_open p = None) ->
  elf_file_filter paths = [].
Proof.
  intros Hnone. destruct (elf_file_filter paths) as [|[p e] l] eqn:E; [done|].
  assert (In (p, e) (elf_file_filter paths)) as Hin by (rewrite E; by left).
  apply elf_file_filter_In in Hin as [Hp He].
  by rewrite (Hnone p Hp) in He.
Qed.
End ScannedLibraries.

(** X11. [get_versioned_symbols] (lines 123-139) never raises the
    [KeyError] of [libs[path]]; its result has an entry for a name exactly
    when a path of [libs] with that name opens as ELF, and every entry is
    the set of versioned symbols of one such file. *)
Theorem scanned_names_are_opened_libraries {ELFFile elftree : Type}
  (C : Collaborators ELFFile elftree) (libs : list (string * string)) :
  exists evs,
    get_versioned_symbols libs = Ok evs
    /\ forall soname,
         (is_Some (evs !! soname)
          <-> exists path elf, PyDict.get libs path = Some soname
                               /\ elf_open path = Some elf)
         /\ forall m, evs !! soname = Some m ->
              exists path elf,
                PyDict.get libs path = Some soname
                /\ elf_open path = Some elf
                /\ m = add_symbols ∅ (elf_find_versioned_symbols elf).
Proof.
  eexists. split; [apply get_versioned_symbols_eq|]. intros soname.
  destruct (rescan_spec libs (elf_file_filter (PyDict.keys libs))
              (fun p e H => proj1 (proj1 (elf_file_filter_In _ p e) H))
              ∅ soname) as (Hfrom & _ & Hto).
  assert (forall m,
            fold_left (rescan_step libs)
                      (elf_file_filter (PyDict.keys libs)) ∅ !! soname
            = Some m ->
            exists path elf,
              PyDict.get libs path = Some soname
              /\ elf_open path = Some elf
              /\ m = add_symbols ∅ (elf_find_versioned_symbols elf)) as Hval.
  { intros m [H|(p & e & Hin & Hp & ->)]%Hfrom.
    - by rewrite lookup_empty in H.
    - apply elf_file_filter_In in Hin as [_ He]. by exists p, e. }
  split; [|done]. split.
  - intros [m (p & e & Hp & He & _)%Hval]. by exists p, e.
  - intros (p & e & Hp & He). apply (Hto p e); [|done].
    apply elf_file_filter_In. split; [|done].
    apply PyDictFacts.get_is_Some_keys. by eexists.
Qed.

Lemma scanned_names_are_opened_libraries_witness :
  exists evs,
    @get_versioned_symbols _ _ Example.rpaths Example.rpaths_libs = Ok evs
    /\ is_Some (evs !! "libbar.so.2").
Proof.
  destruct (scanned_names_are_opened_libraries Example.rpaths
              Example.rpaths_libs) as (evs & Hrun & Hspec).
  exists evs. split; [exact Hrun|].
  apply (proj1 (Hspec "libbar.so.2")).
  exists "/opt/b/libbar.so.2", Example.bar_at_b. split; reflexivity.
Defined.

(** X12. External libraries that do not open as ELF add nothing: when no
    resolved library of a policy whose priority is not 0 opens, the symbol
    policy is that of the package's own versioned symbols, and these are
    reported unchanged. *)
Theorem unreadable_libraries_add_nothing {ELFFile elftree : Type}
  (C : Collaborators ELFFile elftree)
  (versioned_symbols : gmap string (gset string))
  (external_refs : list (string * policy_refs)) :
  (forall name e soname realpath,
     In (name, e) external_refs -> priority e <> 0 ->
     In (soname, Some realpath) (libs e) -> elf_open realpath = None) ->
  select_symbol_policy versioned_symbols external_refs
  = Ok (versioned_symbols_policy versioned_symbols, versioned_symbols).
Proof.
  intros Hnone. unfold select_symbol_policy.
  rewrite get_versioned_symbols_eq. cbn [bind].
  rewrite elf_file_filter_none.
  2:{ intros p [s Hin]%PyDictFacts.get_is_Some_keys.
      apply PyDictFacts.get_Some_In in Hin.
      destruct (get_external_libs_spec external_refs) as (_ & Hfrom & _).
      destruct (Hfrom p s Hin) as (_ & name & e & He & Hp & Hl).
      by apply (Hnone name e s p). }
  cbn [fold_left]. rewrite py_max_by_const; [done|].
  apply Forall_forall. intros c Hc%list_elem_of_In.
  apply get_symbol_policies_spec in Hc as (name & e & _ & _ & ->).
  by rewrite policy_symbols_none.
Qed.

Lemma unreadable_libraries_add_nothing_witness :
  @select_symbol_policy _ _ Example.shared ∅
     (Example.refs Example.libext Example.libext)
  = Ok (Example.symbols_policy ∅, ∅).
Proof.
  apply (unreadable_libraries_add_nothing Example.shared).
  intros name e soname realpath Hin _ Hl.
  destruct Hin as [H|[H|[H|[]]]]; injection H as <- <-; cbn in Hl.
  - destruct Hl.
  - destruct Hl as [[= <- <-]|[]]. reflexivity.
  - destruct Hl as [[= <- <-]|[]]. reflexivity.
Defined.

(** ** The policies and libraries of the merged references *)

Lemma fold_update_libs_keys (ls : list (list (string * option string)))
  (d : list (string * option string)) (k : string) :
  In k (PyDict.keys (fold_left update_libs ls d))
  <-> In k (PyDict.keys d) \/ exists l, In l ls /\ In k (PyDict.keys l).
Proof.
  revert d. induction ls as [|l ls IH]; intros d; cbn [fold_left].
  - split; [by left|]. by intros [?|(? & [] & _)].
  - rewrite IH, keys_update_libs. split.
    + intros [[?|?]|(l' & Hl' & ?)]; [by left|right..].
      * exists l. split; [by left|done].
      * exists l'. split; [by right|done].
    + intros [?|(l' & [<-|Hl'] & ?)]; [left; by left|left; by right|].
      right. by exists l'.
Qed.

Lemma keys_update_refs (u d : list (string * policy_refs)) :
  (forall k, In k (PyDict.keys (update_refs d u))
             <-> In k (PyDict.keys d) \/ In k (PyDict.keys u))
  /\ (NoDup (PyDict.keys d) -> NoDup (PyDict.keys (update_refs d u)))
  /\ exists new, PyDict.keys (update_refs d u) = (PyDict.keys d ++ new)%list.
Proof.
  unfold update_refs. revert d.
  induction u as [|[k0 e0] u IH]; intros d; cbn [fold_left fst snd].
  { split; [cbn; tauto|]. split; [done|]. exists []. by rewrite app_nil_r. }
  destruct (IH (PyDict.set d k0 (update_policy (PyDict.get d k0) e0)))
    as (Hin & Hnd & [new Hnew]).
  split; [|split].
  - intros k. rewrite Hin, PyDictFacts.In_keys_set. cbn. intuition congruence.
  - intros H. by apply Hnd, PyDictFacts.NoDup_keys_set.
  - destruct (keys_set_prefix d k0 (update_policy (PyDict.get d k0) e0))
      as [new0 Hnew0].
    exists (new0 ++ new)%list. by rewrite Hnew, Hnew0, app_assoc.
Qed.

Lemma keys_fold_update_refs (us : list (list (string * policy_refs)))
  (d : list (string * policy_refs)) :
  (forall k, In k (PyDict.keys (fold_left update_refs us d))
             <-> In k (PyDict.keys d)
                 \/ exists u, In u us /\ In k (PyDict.keys u))
  /\ (NoDup (PyDict.keys d)
      -> NoDup (PyDict.keys (fold_left update_refs us d)))
  /\ exists new,
       PyDict.keys (fold_left update_refs us d) = (PyDict.keys d ++ new)%list.
Proof.
  revert d. induction us as [|u us IH]; intros d; cbn [fold_left].
  { split; [|split; [done|exists []; by rewrite app_nil_r]].
    intros k. split; [by left|]. by intros [?|(? & [] & _)]. }
  destruct (IH (update_refs d u)) as (Hin & Hnd & [new Hnew]).
  destruct (keys_update_refs u d) as (Hin0 & Hnd0 & [new0 Hnew0]).
  split; [|split].
  - intros k. rewrite Hin, Hin0. split.
    + intros [[?|?]|(u' & Hu' & ?)]; [by left|right..].
      * exists u. split; [by left|done].
      * exists u'. split; [by right|done].
    + intros [?|(u' & [<-|Hu'] & ?)]; [left; by left|left; by right|].
      right. by exists u'.
  - intros H. by apply Hnd, Hnd0.
  - exists (new0 ++ new)%list. by rewrite Hnew, Hnew0, app_assoc.
Qed.

Lemma keys_of_items {V : Type} (items : list (string * V)) (k : string) :
  In k (PyDict.keys (PyDict.of_items items)) <-> In k (map fst items).
Proof.
  unfold PyDict.of_items.
  assert (forall d, In k (PyDict.keys
                            (fold_left
                               (fun d kv => PyDict.set d (fst kv) (snd kv))
                               items d))
                    <-> In k (PyDict.keys d) \/ In k (map fst items)) as H.
  { induction items as [|[k0 v0] items IH]; intros d; cbn [fold_left fst snd].
    - cbn. tauto.
    - rewrite IH, PyDictFacts.In_keys_set. cbn. intuition congruence. }
  rewrite H. cbn. tauto.
Qed.

(** X13. The merged references (lines 171-181) of a package whose objects'
    references are dictionaries: the policy names are those of the catalog,
    first and in their order, and those of the objects' references, each
    once; and the libraries of a policy are exactly the names that some
    top-level object declares for it. *)
Theorem merged_references_are_the_declared_ones {ELFFile elftree : Type}
  (C : Collaborators ELFFile elftree) (wheel_fn : string)
  trees by_fn vs ucs fpe :
  get_wheel_elfdata wheel_fn = Ok (trees, by_fn, vs, ucs, fpe) ->
  (forall u, In u (PyDict.values by_fn) -> refs_dict u) ->
  exists final,
    collect_external_refs trees by_fn = Ok final
    /\ NoDup (PyDict.keys final)
    /\ (exists new,
          PyDict.keys final
          = (PyDict.keys initial_external_refs ++ new)%list)
    /\ (forall policy,
          In policy (PyDict.keys final)
          <-> In policy (map policy_name load_policies)
              \/ exists f u, In (f, u) by_fn /\ In policy (PyDict.keys u))
    /\ (forall policy soname,
          In soname (PyDict.keys (libs_of final policy))
          <-> exists f u, In (f, u) by_fn
                          /\ In soname (PyDict.keys (libs_of u policy))).
Proof.
  intros Hdata Hdict.
  apply get_wheel_elfdata_Ok in Hdata as (st & Hscan & -> & -> & _).
  destruct (scan_wheel_spec _ _ Hscan) as (_ & _ & _ & _ & _ & Hk & Hnd & _).
  eexists. split; [by apply collect_external_refs_eq|].
  set (by_fn := ElfData.full_external_refs st) in *.
  destruct (keys_fold_update_refs (PyDict.values by_fn) initial_external_refs)
    as (Hin & Hnd' & Hpre).
  assert (forall (P : list (string * policy_refs) -> Prop),
            (exists u, In u (PyDict.values by_fn) /\ P u)
            <-> exists f u, In (f, u) by_fn /\ P u) as Hval.
  { intros P. split.
    - intros (u & ([f u'] & [= ->] & Hfu)%in_map_iff & HP). by exists f, u.
    - intros (f & u & Hfu & HP). exists u. split; [|done].
      apply in_map_iff. by exists (f, u). }
  split; [apply Hnd', PyDictFacts.NoDup_keys_of_items|].
  split; [done|]. split.
  - intros policy. rewrite Hin, Hval. unfold initial_external_refs.
    rewrite keys_of_items, map_map. cbn [fst]. done.
  - intros policy soname. rewrite libs_of_fold, libs_of_initial by done.
    rewrite fold_update_libs_keys. cbn [PyDict.keys map].
    rewrite <- (Hval (fun u => In soname (PyDict.keys (libs_of u policy)))).
    split.
    + intros [[]|(l & (u & <- & Hu)%in_map_iff & Hl)]. by exists u.
    + intros (u & Hu & Hl). right. exists (libs_of u policy).
      split; [|done]. apply in_map_iff. by exists u.
Qed.

Lemma merged_references_are_the_declared_ones_witness :
  exists final,
    @collect_external_refs _ _ Example.rpaths
      [("pkg/a.so", Example.rpaths_a); ("pkg/b.so", Example.rpaths_b);
       ("pkg/c.so", Example.rpaths_c)]
      [("pkg/a.so", Example.refs Example.foo_a Example.foo_a);
       ("pkg/b.so", Example.refs Example.foo_b []);
       ("pkg/c.so", Example.refs Example.two_names Example.two_names)]
    = Ok final
    /\ In "libbar.so.2" (PyDict.keys (libs_of final "manylinux1")).
Proof.
  assert (@get_wheel_elfdata _ _ Example.rpaths "demo.whl"
          = Ok Example.rpaths_data) as Hrun by vm_refl.
  destruct (merged_references_are_the_declared_ones Example.rpaths "demo.whl"
              _ _ _ _ _ Hrun Example_rpaths_refs_dict)
    as (final & Hfinal & _ & _ & _ & Hlibs).
  exists final. split; [exact Hfinal|].
  apply Hlibs. exists "pkg/b.so", (Example.refs Example.foo_b []).
  split; [right; left; reflexivity|left; reflexivity].
Defined.

(** ** Which policy gives the reported symbols *)

Lemma fold_max_stay {A : Type} (key : A -> Z) (l : list A) (m : A) :
  (forall y, In y l -> key y <= key m) ->
  fold_left (fun m y => if key m <? key y then y else m) l m = m.
Proof.
  induction l as [|b l IH]; intros Hle; [done|]. cbn [fold_left].
  destruct (Z.ltb_spec (key m) (key b)) as [Hlt|_].
  - pose proof (Hle b (or_introl eq_refl)). lia.
  - apply IH. intros y Hy. apply Hle. by right.
Qed.

Lemma fold_max_reach {A : Type} (key : A -> Z) (l1 l2 : list A) (x m : A) :
  (forall y, In y l1 -> key y < key x) -> key m < key x ->
  fold_left (fun m y => if key m <? key y then y else m) (l1 ++ x :: l2) m
  = fold_left (fun m y => if key m <? key y then y else m) l2 x.
Proof.
  revert m. induction l1 as [|b l1 IH]; intros m Hlt Hm; cbn [app fold_left].
  - destruct (Z.ltb_spec (key m) (key x)); [done|lia].
  - apply IH; [intros y Hy; apply Hlt; by right|].
    destruct (key m <? key b); [|done]. apply Hlt. by left.
Qed.

(** [max] returns the first of the greatest items. *)
Lemma py_max_by_first {A : Type} (key : A -> Z) (l1 l2 : list A) (x d : A) :
  (forall y, In y l1 -> key y < key x) ->
  (forall y, In y l2 -> key y <= key x) ->
  py_max_by key (l1 ++ x :: l2) d = x.
Proof.
  intros Hlt Hle. destruct l1 as [|a l1]; cbn [app py_max_by].
  - by apply fold_max_stay.
  - rewrite fold_max_reach.
    + by apply fold_max_stay.
    + intros y Hy. apply Hlt. by right.
    + apply Hlt. by left.
Qed.

Section Candidates.
Context {ELFFile elftree : Type} {C : Collaborators ELFFile elftree}.

(** The candidates of [get_symbol_policies], one for each policy whose
    priority is not 0, in the order of [external_refs]. *)
Lemma get_symbol_policies_flat_map (vs : gmap string (gset string))
  (evs : gmap string (gmap string (gset string)))
  (external_refs : list (string * policy_refs)) :
  get_symbol_policies vs evs external_refs
  = flat_map (fun e => if priority e =? 0 then []
                       else [(versioned_symbols_policy
                                (policy_symbols vs evs e),
                              policy_symbols vs evs e)])
             (PyDict.values external_refs).
Proof.
  unfold get_symbol_policies.
  match goal with
  | |- fold_left ?F _ [] = flat_map ?G _ =>
      assert (forall l acc, fold_left F l acc = (acc ++ flat_map G l)%list)
        as Hgen
  end.
  { induction l as [|e l IH]; intros acc; cbn [fold_left flat_map].
    - by rewrite app_nil_r.
    - rewrite IH. destruct (priority e =? 0); [done|].
      by rewrite <- app_assoc. }
  by rewrite Hgen.
Qed.
End Candidates.

(** X14. The reported symbols (lines 195-199) are those of the first
    policy, in the order of [external_refs], whose adjusted symbols have
    the greatest priority: [max] keeps the first of several greatest
    candidates. *)
Theorem reported_symbols_of_first_best_policy {ELFFile elftree : Type}
  (C : Collaborators ELFFile elftree)
  (versioned_symbols : gmap string (gset string))
  (refs1 : list (string * policy_refs)) (name : string) (e : policy_refs)
  (refs2 : list (string * policy_refs))
  (evs : gmap string (gmap string (gset string))) :
  let external_refs := (refs1 ++ (name, e) :: refs2)%list in
  let candidate := fun e' =>
    versioned_symbols_policy (policy_symbols versioned_symbols evs e') in
  get_versioned_symbols (get_external_libs external_refs) = Ok evs ->
  priority e <> 0 ->
  (forall name' e', In (name', e') refs1 -> priority e' <> 0 ->
                    candidate e' < candidate e) ->
  (forall name' e', In (name', e') refs2 -> priority e' <> 0 ->
                    candidate e' <= candidate e) ->
  select_symbol_policy versioned_symbols external_refs
  = Ok (candidate e, policy_symbols versioned_symbols evs e).
Proof.
  intros external_refs candidate Hevs Hp Hbefore Hafter.
  unfold select_symbol_policy. fold external_refs. rewrite Hevs. cbn [bind].
  rewrite get_symbol_policies_flat_map. unfold external_refs, PyDict.values.
  rewrite map_app, flat_map_app. cbn [map flat_map snd].
  destruct (Z.eqb_spec (priority e) 0) as [H0|_]; [done|].
  cbn [app]. f_equal.
  assert (forall (refs : list (string * policy_refs)) c,
            In c (flat_map
                    (fun e' => if priority e' =? 0 then []
                               else [(candidate e',
                                      policy_symbols versioned_symbols evs
                                                     e')])
                    (map snd refs)) ->
            exists name' e', In (name', e') refs /\ priority e' <> 0
                             /\ fst c = candidate e') as Hc.
  { intros refs c Hin. apply in_flat_map in Hin as (e' & Hin & Hin').
    apply in_map_iff in Hin as ([n' e''] & Heq & Hin).
    cbn [snd] in Heq. subst e''.
    destruct (Z.eqb_spec (priority e') 0) as [H0|H0]; [done|].
    destruct Hin' as [<-|[]]. by exists n', e'. }
  apply (py_max_by_first fst).
  - intros c (n' & e' & Hin & Hp' & ->)%Hc. by apply (Hbefore n').
  - intros c (n' & e' & Hin & Hp' & ->)%Hc. by apply (Hafter n').
Qed.

Lemma reported_symbols_of_first_best_policy_witness :
  @select_symbol_policy _ _ Example.rpaths ∅ Example.rpaths_refs
  = Ok (100, Example.clean_symbols).
Proof.
  pose proof (reported_symbols_of_first_best_policy Example.rpaths ∅
                [("linux", {| libs := []; priority := 0 |})]
                "manylinux1"
                {| libs := [("libfoo.so.1", Some "/opt/b/libfoo.so.1");
                            ("libbar.so.2", Some "/opt/b/libbar.so.2");
                            ("libz.so", Some "/opt/c/libz.so.1.2");
                            ("libz.so.1", Some "/opt/c/libz.so.1.2")];
                   priority := 100 |}
                [("manylinux2010",
                  {| libs := [("libfoo.so.1", Some "/opt/a/libfoo.so.1");
                              ("libz.so", Some "/opt/c/libz.so.1.2");
                              ("libz.so.1", Some "/opt/c/libz.so.1.2")];
                     priority := 90 |})]
                (fold_left (@rescan_step _ _ Example.rpaths
                                         Example.rpaths_libs)
                           (@elf_file_filter _ _ Example.rpaths
                              (PyDict.keys Example.rpaths_libs))
                           ∅)) as H.
  cbn zeta in H.
  etransitivity; [apply H|].
  - apply get_versioned_symbols_eq.
  - discriminate.
  - intros name' e' [[= <- <-]|[]] Hp. by destruct Hp.
  - intros name' e' [[= <- <-]|[]] _. apply Z.leb_le. vm_refl.
  - vm_refl.
Defined.

(** ** The order of the top-level objects *)

Lemma filter_map_fst {A B : Type} (P : A -> bool) (l : list (A * B)) :
  List.filter P (map fst l) = map fst (List.filter (fun x => P (fst x)) l).
Proof.
  induction l as [|[a b] l IH]; [done|]. cbn [map fst List.filter].
  destruct (P a); cbn [map fst]; by rewrite IH.
Qed.

Lemma filter_filter_andb {A : Type} (P Q : A -> bool) (l : list A) :
  List.filter P (List.filter Q l) = List.filter (fun x => Q x && P x) l.
Proof.
  induction l as [|a l IH]; [done|]. cbn [List.filter].
  destruct (Q a); cbn [List.filter andb]; [|done].
  destruct (P a); by rewrite IH.
Qed.

Section Order.
Context {ELFFile elftree : Type} {C : Collaborators ELFFile elftree}.
Implicit Types (st : ElfData.t elftree) (ctx : pkgctx).

Lemma elf_file_filter_NoDup (paths : list string) :
  NoDup paths -> NoDup (map fst (elf_file_filter paths)).
Proof.
  unfold elf_file_filter. induction paths as [|p paths IH]; [done|].
  intros [Hp Hnd]%NoDup_cons. cbn [flat_map].
  destruct (elf_open p) as [elf|] eqn:E; cbn [app map fst]; [|by apply IH].
  apply NoDup_cons. split; [|by apply IH].
  intros ([p' e'] & <- & Hin)%list_elem_of_In%in_map_iff.
  apply Hp, list_elem_of_In. cbn [fst].
  by apply (elf_file_filter_In paths p' e') in Hin as [? _].
Qed.

(** The first loop appends: extension modules to [full_elftree], the other
    ELF files to [nonpy_elftree]. *)
Lemma scan_loop_order ctx fs st st' :
  for_each (scan_file ctx) fs st = Ok st' ->
  NoDup (map fst fs) ->
  (forall f e, In (f, e) fs ->
               ~ In f (PyDict.keys (ElfData.full_elftree st))
               /\ ~ In f (PyDict.keys (ElfData.nonpy_elftree st))) ->
  PyDict.keys (ElfData.full_elftree st')
  = (PyDict.keys (ElfData.full_elftree st)
     ++ map fst (List.filter is_extension fs))%list
  /\ PyDict.keys (ElfData.nonpy_elftree st')
     = (PyDict.keys (ElfData.nonpy_elftree st)
        ++ map fst (List.filter (fun fe => negb (is_extension fe)) fs))%list.
Proof.
  scan_induction fs st; intros Hnd Hfresh.
  - cbn. by rewrite !app_nil_r.
  - cbn [map fst] in Hnd. apply NoDup_cons in Hnd as [Hf Hnd].
    destruct (Hfresh f e (or_introl eq_refl)) as [Hff Hfn].
    assert (PyDict.keys (ElfData.full_elftree st1)
            = (PyDict.keys (ElfData.full_elftree st) ++ [f])%list) as Hk1.
    { rewrite Hfull, PyDictFacts.keys_set.
      by rewrite (proj2 (mem_false_keys _ _) Hff). }
    destruct IH as [IH1 IH2]; [done| |].
    { intros f' e' Hin. destruct (Hfresh f' e' (or_intror Hin)) as [H1 H2].
      rewrite Hk1, Hnonpy. split; [|done]. rewrite in_app_iff.
      intros [?|[Heq|[]]]; [done|]. subst f'. apply Hf.
      apply list_elem_of_In, in_map_iff. by exists (f, e'). }
    cbn [List.filter].
    change (is_extension (f, e)) with (fst (elf_is_python_extension f e)).
    rewrite Hext. cbn [negb map fst].
    by rewrite IH1, IH2, Hk1, Hnonpy, <- app_assoc.
  - cbn [map fst] in Hnd. apply NoDup_cons in Hnd as [Hf Hnd].
    destruct (Hfresh f e (or_introl eq_refl)) as [Hff Hfn].
    assert (PyDict.keys (ElfData.nonpy_elftree st1)
            = (PyDict.keys (ElfData.nonpy_elftree st) ++ [f])%list) as Hk1.
    { rewrite Hnonpy, PyDictFacts.keys_set.
      by rewrite (proj2 (mem_false_keys _ _) Hfn). }
    destruct IH as [IH1 IH2]; [done| |].
    { intros f' e' Hin. destruct (Hfresh f' e' (or_intror Hin)) as [H1 H2].
      rewrite Hk1, Hfull. split; [done|]. rewrite in_app_iff.
      intros [?|[Heq|[]]]; [done|]. subst f'. apply Hf.
      apply list_elem_of_In, in_map_iff. by exists (f, e'). }
    cbn [List.filter].
    change (is_extension (f, e)) with (fst (elf_is_python_extension f e)).
    rewrite Hext. cbn [negb map fst].
    by rewrite IH1, IH2, Hk1, Hfull, <- app_assoc.
Qed.

(** The second loop appends the libraries that no ELF file needs. *)
Lemma promote_loop_order ctx (N : gset string)
  (l : list (string * elftree)) st :
  NoDup (PyDict.keys l) ->
  (forall f, In f (PyDict.keys l) ->
             ~ In f (PyDict.keys (ElfData.full_elftree st))) ->
  PyDict.keys (ElfData.full_elftree (fold_left (promote ctx N) l st))
  = (PyDict.keys (ElfData.full_elftree st)
     ++ List.filter (fun f => negb (bool_decide (basename f ∈ N)))
                    (PyDict.keys l))%list.
Proof.
  revert st. induction l as [|[f t] l IH]; intros st Hnd Hfresh;
    cbn [fold_left PyDict.keys map fst List.filter].
  { by rewrite app_nil_r. }
  cbn [PyDict.keys map fst] in Hnd. apply NoDup_cons in Hnd as [Hf Hnd].
  fold (PyDict.keys l) in *. unfold promote at 2.
  destruct (bool_decide (basename f ∈ N)); cbn [negb].
  - apply IH; [done|]. intros f' Hin. apply Hfresh. by right.
  - rewrite IH; [|done|]; cbn [ElfData.full_elftree].
    + rewrite PyDictFacts.keys_set.
      rewrite (proj2 (mem_false_keys _ _) (Hfresh f (or_introl eq_refl))).
      by rewrite <- app_assoc.
    + intros f' Hin. rewrite PyDictFacts.In_keys_set.
      intros [->|H]; [by apply Hf, list_elem_of_In|].
      by apply (Hfresh f' (or_intror Hin)).
Qed.

(** The needed names are those of all ELF files of the package. *)
Lemma needed_libs_of_files ctx fs st :
  for_each (scan_file ctx) fs ElfData.init = Ok st ->
  needed_libs st
  = list_to_set (flat_map (fun fe => needed (lddtree (fst fe))) fs).
Proof.
  intros H1.
  pose proof (scan_loop_full_keys _ _ _ _ H1) as Hfull.
  pose proof (scan_loop_nonpy_keys _ _ _ _ H1) as Hnonpy.
  destruct (scan_loop_trees _ _ _ _ H1) as [Htf Htn]; [by intros ? ? []..|].
  apply set_eq. intros x. unfold needed_libs.
  rewrite !elem_of_list_to_set, !list_elem_of_In, !in_flat_map. split.
  - intros (t & Ht & Hx). unfold PyDict.values in Ht.
    rewrite in_app_iff, !in_map_iff in Ht.
    destruct Ht as [([f t'] & <- & Hin)|([f t'] & <- & Hin)]; cbn in Hx.
    + pose proof (Htf _ _ Hin) as ->.
      assert (In f (PyDict.keys (ElfData.full_elftree st))) as Hk
        by (apply In_keys_items; eauto).
      apply Hfull in Hk as [[]|(e & He & _)]. by exists (f, e).
    + pose proof (Htn _ _ Hin) as ->.
      assert (In f (PyDict.keys (ElfData.nonpy_elftree st))) as Hk
        by (apply In_keys_items; eauto).
      apply Hnonpy in Hk as [[]|(e & He & _)]. by exists (f, e).
  - intros ([f e] & Hin & Hx). cbn in Hx. exists (lddtree f).
    split; [|done]. unfold PyDict.values. rewrite in_app_iff, !in_map_iff.
    destruct (fst (elf_is_python_extension f e)) eqn:Hext.
    + left. assert (In f (PyDict.keys (ElfData.full_elftree st))) as Hk
        by (apply Hfull; right; eauto).
      apply In_keys_items in Hk as [t Ht]. exists (f, t).
      split; [|done]. cbn. by apply Htf.
    + right. assert (In f (PyDict.keys (ElfData.nonpy_elftree st))) as Hk
        by (apply Hnonpy; right; eauto).
      apply In_keys_items in Hk as [t Ht]. exists (f, t).
      split; [|done]. cbn. by apply Htn.
Qed.
End Order.

(** X15. The order of the top-level objects, which is the order in which
    their references are merged: when the package lists no file twice, the
    extension modules come first, in the order of the files, and the
    libraries that no ELF file of the package needs follow, in the order of
    the files. *)
Theorem top_level_objects_in_file_order {ELFFile elftree : Type}
  (C : Collaborators ELFFile elftree) (wheel_fn : string)
  trees by_fn vs ucs fpe :
  get_wheel_elfdata wheel_fn = Ok (trees, by_fn, vs, ucs, fpe) ->
  NoDup (iter_files (InGenericPkgCtx wheel_fn)) ->
  let files := elf_file_filter (iter_files (InGenericPkgCtx wheel_fn)) in
  let needed_names : gset string :=
    list_to_set (flat_map (fun fe => needed (lddtree (fst fe))) files) in
  PyDict.keys trees
  = (map fst (List.filter is_extension files)
     ++ map fst (List.filter
                   (fun fe => negb (is_extension fe)
                              && negb (bool_decide
                                         (basename (fst fe) ∈ needed_names)))
                   files))%list
  /\ PyDict.keys by_fn = PyDict.keys trees.
Proof.
  intros (st & Hscan & -> & -> & _)%get_wheel_elfdata_Ok Hnd files N.
  destruct (scan_wheel_spec _ _ Hscan) as (_ & _ & _ & _ & _ & Hk & _).
  split; [|done]. clear Hk.
  unfold scan_wheel in Hscan. fold files in Hscan.
  destruct (for_each _ files ElfData.init) as [st1|] eqn:H1; [|done].
  cbn [bind] in Hscan. injection Hscan as <-.
  rewrite (needed_libs_of_files _ _ _ H1). fold N.
  destruct (scan_loop_order _ _ _ _ H1) as [Hfull Hnonpy].
  { by apply elf_file_filter_NoDup. }
  { intros f e _. split; intros []. }
  cbn [ElfData.init ElfData.full_elftree ElfData.nonpy_elftree PyDict.keys
       map app] in Hfull, Hnonpy.
  fold (PyDict.keys (ElfData.full_elftree st1)) in Hfull.
  fold (PyDict.keys (ElfData.nonpy_elftree st1)) in Hnonpy.
  destruct (scan_loop_NoDup _ _ _ _ H1) as [_ Hnn]; [constructor..|].
  rewrite promote_loop_order; [|done|].
  - rewrite Hfull, Hnonpy. f_equal.
    by rewrite filter_map_fst, filter_filter_andb.
  - intros f Hin1 Hin2. rewrite Hnonpy in Hin1. rewrite Hfull in Hin2.
    apply in_map_iff in Hin1 as ([f1 e1] & <- & [Hi1 Hx1]%filter_In).
    apply in_map_iff in Hin2 as ([f2 e2] & Heq & [Hi2 Hx2]%filter_In).
    cbn [fst] in Heq. subst f2.
    rewrite (elf_file_filter_fun _ _ _ _ Hi1 Hi2) in Hx1.
    by rewrite Hx2 in Hx1.
Qed.

Lemma top_level_objects_in_file_order_witness :
  @get_wheel_elfdata _ _ Example.mixed "demo.whl" = Ok Example.mixed_data
  /\ PyDict.keys [("pkg/mod.so", Example.clean_mod);
                  ("pkg/libhelper.so", Example.helper_lib)]
     = ["pkg/mod.so"; "pkg/libhelper.so"].
Proof.
  assert (@get_wheel_elfdata _ _ Example.mixed "demo.whl"
          = Ok Example.mixed_data) as Hrun by vm_refl.
  split; [exact Hrun|].
  etransitivity.
  - apply (top_level_objects_in_file_order Example.mixed "demo.whl"
             _ _ _ _ _ Hrun).
    vm_decide.
  - vm_refl.
Defined.
